(** * AHP time tracker: clock session, entry ledger and week totals

    A shallow embedding of the time-tracking core of the application
    ([src/app/page.tsx], [src/lib/api.ts] and the earlier purely local
    revision of the page) and the properties proved about it.

    Layout: the model of the JavaScript runtime pieces the code relies on
    (numbers, [Date], ISO strings), then the webhook client, then the page
    component as a transition system, then the lemmas. *)

From Stdlib Require Import ZArith QArith Qround Lia Lqa Ascii String.
From stdpp Require Import base option list relations strings pretty sorting.

(** ** JavaScript numbers

    A [number] is modelled as an exact rational or [NaN].  The quantities
    of the program are millisecond counts, hour totals and their quotients by
    constants.  For time stamps with four-digit years a millisecond
    difference stays below 2^49, where the double computation of
    [Math.round(diffHours * 4)] and the exact one agree: the quotient is
    either exactly a half-integer or at least 1/900000 away from one.
    Infinities never arise, every divisor in the source being a non-zero
    constant. *)

Inductive number :=
  | NaN
  | Num (q : Q).

Module JS.

Definition of_Z (z : Z) : number := Num (inject_Z z).

Definition lift2 (f : Q → Q → Q) (a b : number) : number :=
  match a, b with
  | Num x, Num y => Num (f x y)
  | _, _ => NaN
  end.

Definition add : number → number → number := lift2 Qplus.
Definition sub : number → number → number := lift2 Qminus.
Definition mul : number → number → number := lift2 Qmult.

(** [a / b]; the divisors of the source are non-zero literals. *)
Definition div (a b : number) : number :=
  match a, b with
  | Num x, Num y => if Qeq_bool y 0 then NaN else Num (x / y)
  | _, _ => NaN
  end.

(** [Math.floor] and [Math.round]; the latter rounds halves upwards. *)
Definition Math_floor (a : number) : number :=
  match a with
  | Num x => of_Z (Qfloor x)
  | NaN => NaN
  end.

Definition Math_round (a : number) : number :=
  match a with
  | Num x => of_Z (Qfloor (x + (1 # 2)))
  | NaN => NaN
  end.

(** Truthiness of a number: [0] and [NaN] are falsy. *)
Definition truthy (a : number) : bool :=
  match a with
  | Num x => negb (Qeq_bool x 0)
  | NaN => false
  end.

(** [a || b] on numbers. *)
Definition or (a b : number) : number := if truthy a then a else b.

(** [a || b] on a possibly null number with a number default. *)
Definition or_null (a : option number) (b : number) : number :=
  match a with
  | Some x => or x b
  | None => b
  end.

(** [a ?? b]: only [null]/[undefined] fall through. *)
Definition nullish {A} (a : option A) (b : A) : A :=
  match a with
  | Some x => x
  | None => b
  end.

(** [a || b] on an optional string: [undefined] and [""] are falsy. *)
Definition or_str (a : option string) (b : string) : string :=
  match a with
  | Some s => if decide (s = "") then b else s
  | None => b
  end.

(** Truthiness of an optional string. *)
Definition truthy_str (a : option string) : bool :=
  match a with
  | Some s => bool_decide (s ≠ "")
  | None => false
  end.

(** Numeric equality ([NaN] is only used here as a model value, so it is
    related to itself). *)
Definition eqv (a b : number) : Prop :=
  match a, b with
  | Num x, Num y => x == y
  | NaN, NaN => True
  | _, _ => False
  end.

(** [a >= b] and [a > b]; any comparison with [NaN] is false. *)
Definition geb (a b : number) : bool :=
  match a, b with
  | Num x, Num y => Qle_bool y x
  | _, _ => false
  end.

Definition gtb (a b : number) : bool :=
  match a, b with
  | Num x, Num y => negb (Qle_bool x y)
  | _, _ => false
  end.




End JS.

Infix "≈" := JS.eqv (at level 70, no associativity).

(** ** The [Date] built-in

    A time value is a count of milliseconds since the epoch, or invalid.
    The local time zone is a constant offset [tz], in the sense of
    [getTimezoneOffset]: minutes to add to local time to obtain UTC
    (300 for US Eastern Standard Time). *)

Module DateJS.
Local Open Scope Z_scope.

Definition msPerDay : Z := 86400000.
Definition msPerHour : Z := 3600000.
Definition msPerMinute : Z := 60000.

Definition Day (t : Z) : Z := t `div` msPerDay.
Definition TimeWithinDay (t : Z) : Z := t `mod` msPerDay.
Definition WeekDay (t : Z) : Z := (Day t + 4) `mod` 7.

(** Day number of a proleptic Gregorian date; [m] ranges over 1..12 and
    [d] may overflow the month in either direction, as in [MakeDay]. *)
Definition days_from_civil (y m d : Z) : Z :=
  let y' := if decide (m ≤ 2) then y - 1 else y in
  let era := y' `div` 400 in
  let yoe := y' - era * 400 in
  let mp := if decide (2 < m) then m - 3 else m + 9 in
  let doy := (153 * mp + 2) `div` 5 + d - 1 in
  let doe := yoe * 365 + yoe `div` 4 - yoe `div` 100 + doy in
  era * 146097 + doe - 719468.

Definition civil_from_days (z : Z) : Z * Z * Z :=
  let z := z + 719468 in
  let era := z `div` 146097 in
  let doe := z - era * 146097 in
  let yoe := (doe - doe `div` 1460 + doe `div` 36524 - doe `div` 146096) `div` 365 in
  let doy := doe - (365 * yoe + yoe `div` 4 - yoe `div` 100) in
  let mp := (5 * doy + 2) `div` 153 in
  let d := doy - (153 * mp + 2) `div` 5 + 1 in
  let m := if decide (mp < 10) then mp + 3 else mp - 9 in
  let y := yoe + era * 400 in
  (if decide (m ≤ 2) then y + 1 else y, m, d).

Definition is_leap (y : Z) : bool :=
  bool_decide (y `mod` 4 = 0 ∧ (y `mod` 100 ≠ 0 ∨ y `mod` 400 = 0)).

Definition DaysInMonth (y m : Z) : Z :=
  if decide (m = 2) then (if is_leap y then 29 else 28)
  else if decide (m = 4 ∨ m = 6 ∨ m = 9 ∨ m = 11) then 30 else 31.

Definition MakeTime (h mi s ms : Z) : Z :=
  h * msPerHour + mi * msPerMinute + s * 1000 + ms.

Definition MakeDate (day time : Z) : Z := day * msPerDay + time.

Section Zone.
Variable tz : Z.

Definition LocalTime (t : Z) : Z := t - tz * msPerMinute.
Definition UTC (t : Z) : Z := t + tz * msPerMinute.

Definition getDay (t : Z) : Z := WeekDay (LocalTime t).

Definition getDate (t : Z) : Z :=
  let '(_, _, d) := civil_from_days (Day (LocalTime t)) in d.

(** [d.setDate(dt)]: same local month and time of day, day of month [dt]
    (which may be zero or negative). *)
Definition setDate (t dt : Z) : Z :=
  let lt := LocalTime t in
  let '(y, m, _) := civil_from_days (Day lt) in
  UTC (MakeDate (days_from_civil y m dt) (TimeWithinDay lt)).

(** [d.setHours(h, mi, s, ms)]: same local day. *)
Definition setHours (t h mi s ms : Z) : Z :=
  UTC (MakeDate (Day (LocalTime t)) (MakeTime h mi s ms)).
End Zone.

End DateJS.

(** ** ISO 8601 strings

    [toISOString] and the parser behind [new Date(string)] for the
    ECMAScript date-time format.  Date-only forms are read as UTC, date-time
    forms without an offset as local time.  Strings outside that format
    (and expanded six-digit years) are implementation-defined or unused, and
    are invalid here. *)

Module Iso.
Local Open Scope Z_scope.
Import DateJS.

Definition digit_of (c : ascii) : option Z :=
  let n := Z.of_N (N_of_ascii c) in
  if decide (48 ≤ n ≤ 57) then Some (n - 48) else None.

Definition digit_char (d : Z) : ascii := ascii_of_N (Z.to_N (48 + d `mod` 10)).

(** Exactly [k] decimal digits. *)
Fixpoint take_digits (k : nat) (acc : Z) (s : string) : option (Z * string) :=
  match k with
  | O => Some (acc, s)
  | S k' =>
      match s with
      | String c s' => d ← digit_of c; take_digits k' (10 * acc + d) s'
      | EmptyString => None
      end
  end.

Definition expect (c : ascii) (s : string) : option string :=
  match s with
  | String c' s' => if decide (c = c') then Some s' else None
  | EmptyString => None
  end.

(** [n] written with exactly [k] digits. *)
Fixpoint fixed_digits (k : nat) (n : Z) : string :=
  match k with
  | O => ""
  | S k' => fixed_digits k' (n `div` 10) +:+ String (digit_char n) ""
  end.

Definition parse_date (s : string) : option (Z * Z * Z * string) :=
  '(y, s) ← take_digits 4 0 s;
  match expect "-" s with
  | None => Some (y, 1, 1, s)
  | Some s =>
      '(m, s) ← take_digits 2 0 s;
      match expect "-" s with
      | None => Some (y, m, 1, s)
      | Some s => '(d, s) ← take_digits 2 0 s; Some (y, m, d, s)
      end
  end.

(** Seconds and milliseconds, both optional. *)
Definition parse_seconds (s : string) : option (Z * Z * string) :=
  match expect ":" s with
  | None => Some (0, 0, s)
  | Some s =>
      '(sec, s) ← take_digits 2 0 s;
      match expect "." s with
      | None => Some (sec, 0, s)
      | Some s => '(ms, s) ← take_digits 3 0 s; Some (sec, ms, s)
      end
  end.

(** The offset suffix, in minutes east of UTC; [None] inside means local. *)
Definition parse_offset (s : string) : option (option Z) :=
  match s with
  | "" => Some None
  | "Z" => Some (Some 0)
  | String c s =>
      sign ← (if decide (c = "+"%char) then Some 1
              else if decide (c = "-"%char) then Some (-1) else None);
      '(h, s) ← take_digits 2 0 s;
      s ← expect ":" s;
      '(mi, s) ← take_digits 2 0 s;
      guard (s = "");;
      guard (h ≤ 23 ∧ mi ≤ 59);;
      Some (Some (sign * (h * 60 + mi)))
  end.

Definition valid_time (h mi sec ms : Z) : Prop :=
  mi ≤ 59 ∧ sec ≤ 59 ∧ (h ≤ 23 ∨ (h = 24 ∧ mi = 0 ∧ sec = 0 ∧ ms = 0)).

Definition parse (tz : Z) (s : string) : option Z :=
  '(y, m, d, s) ← parse_date s;
  guard (1 ≤ m ≤ 12 ∧ 1 ≤ d ≤ DaysInMonth y m);;
  let day := days_from_civil y m d in
  match s with
  | "" => Some (MakeDate day 0)
  | _ =>
      s ← expect "T" s;
      '(h, s) ← take_digits 2 0 s;
      s ← expect ":" s;
      '(mi, s) ← take_digits 2 0 s;
      '(sec, ms, s) ← parse_seconds s;
      off ← parse_offset s;
      guard (valid_time h mi sec ms);;
      let t := MakeDate day (MakeTime h mi sec ms) in
      Some (match off with
            | Some east => t - east * msPerMinute
            | None => UTC tz t
            end)
  end.

(** [new Date(t).toISOString()] for years 0 to 9999; other years use the
    six-digit expanded form. *)
Definition toISOString (t : Z) : string :=
  let '(y, m, d) := civil_from_days (Day t) in
  let w := TimeWithinDay t in
  let year :=
    if decide (0 ≤ y ≤ 9999) then fixed_digits 4 y
    else (if decide (y < 0) then "-" else "+") +:+ fixed_digits 6 (Z.abs y) in
  year +:+ "-" +:+ fixed_digits 2 m +:+ "-" +:+ fixed_digits 2 d +:+ "T"
    +:+ fixed_digits 2 (w `div` msPerHour) +:+ ":"
    +:+ fixed_digits 2 ((w `mod` msPerHour) `div` msPerMinute) +:+ ":"
    +:+ fixed_digits 2 ((w `mod` msPerMinute) `div` 1000) +:+ "."
    +:+ fixed_digits 3 (w `mod` 1000) +:+ "Z".

(** [s.split("T")[0]]: the text before the first ["T"]. *)
Fixpoint before_T (s : string) : string :=
  match s with
  | String c s' => if decide (c = "T"%char) then "" else String c (before_T s')
  | EmptyString => ""
  end.

End Iso.

(** A [Date] object, as far as the program observes one: its time value,
    [None] for an invalid date. *)
Definition new_Date (tz : Z) (s : string) : option Z := Iso.parse tz s.

Definition getTime (d : option Z) : number :=
  match d with
  | Some t => JS.of_Z t
  | None => NaN
  end.

(** ** The webhook client ([src/lib/api.ts])

    [fetch] is the boundary of the model: a call either fails at the network
    level (which includes a body that cannot be read) or yields a response.
    [json] is what [JSON.parse] makes of the body, seen at the declared
    response type (the source trusts the cast); it is [None] when parsing
    throws.  The request that goes out plays no part in what follows. *)

Module Api.

Record HttpResponse (R : Type) := {
  status : Z;
  text : string;
  json : option R;
}.
Arguments status {R}.
Arguments text {R}.
Arguments json {R}.

Inductive FetchResult (R : Type) :=
  | NetworkError
  | Responded (response : HttpResponse R).
Arguments NetworkError {R}.
Arguments Responded {R}.

(** [response.ok]: a status in the range 200..299. *)
Definition ok {R} (response : HttpResponse R) : bool :=
  bool_decide (200 ≤ status response ≤ 299)%Z.

Module ClockResponse.
Record t := {
  success : bool;
  shift_id : option string;
  hours_worked : option number;
  error : option string;
}.
End ClockResponse.

Module StatusResponse.
Record t := {
  clocked_in : bool;
  clock_in_time : option string;
  elapsed_minutes : option number;
}.
End StatusResponse.

Module MileageResponse.
Record t := {
  success : bool;
  entry_id : option string;
  error : option string;
}.
End MileageResponse.

Module EditResponse.
Record t := {
  success : bool;
  error : option string;
}.
End EditResponse.

Module TimeEntry.
Record t := {
  shift_id : string;
  date : string;
  clock_in : string;
  clock_out : option string;
  hours_worked : option number;
  edited : bool;
}.
End TimeEntry.

Module MileageEntry.
Record t := {
  entry_id : string;
  date : string;
  miles : number;
  description : string;
}.
End MileageEntry.

Module HistoryResponse.
Record t := {
  time_entries : list TimeEntry.t;
  mileage_entries : list MileageEntry.t;
  week_total_hours : number;
}.
End HistoryResponse.

Definition connect_error : string := "Failed to connect. Please try again.".

(** The test shared by the four POST wrappers, after [response.ok]:
    [text === "Accepted" || text === "" || response.status === 200]. *)
Definition accepted {R} (response : HttpResponse R) : bool :=
  bool_decide (text response = "Accepted" ∨ text response = ""
               ∨ status response = 200%Z).

(** [clockIn(techName)]; [today] is the clock reading taken when the
    response has arrived. *)
Definition clockIn (techName : string) (today : Z)
    (f : FetchResult ClockResponse.t) : ClockResponse.t :=
  let failed :=
    {| ClockResponse.success := false; ClockResponse.shift_id := None;
       ClockResponse.hours_worked := None;
       ClockResponse.error := Some connect_error |} in
  match f with
  | NetworkError => failed
  | Responded response =>
      if negb (ok response) then failed
      else if accepted response then
        let dateStr := Iso.before_T (Iso.toISOString today) in
        {| ClockResponse.success := true;
           ClockResponse.shift_id := Some (dateStr +:+ "_" +:+ techName);
           ClockResponse.hours_worked := None; ClockResponse.error := None |}
      else
        match json response with
        | Some parsed => parsed
        | None =>
            {| ClockResponse.success := true; ClockResponse.shift_id := None;
               ClockResponse.hours_worked := None; ClockResponse.error := None |}
        end
  end.

Definition clockOut (techName : string)
    (f : FetchResult ClockResponse.t) : ClockResponse.t :=
  let failed :=
    {| ClockResponse.success := false; ClockResponse.shift_id := None;
       ClockResponse.hours_worked := None;
       ClockResponse.error := Some connect_error |} in
  let plain :=
    {| ClockResponse.success := true; ClockResponse.shift_id := None;
       ClockResponse.hours_worked := None; ClockResponse.error := None |} in
  match f with
  | NetworkError => failed
  | Responded response =>
      if negb (ok response) then failed
      else if accepted response then plain
      else
        match json response with
        | Some parsed => parsed
        | None => plain
        end
  end.

Definition checkStatus (techName : string)
    (f : FetchResult StatusResponse.t) : StatusResponse.t :=
  let fallback :=
    {| StatusResponse.clocked_in := false; StatusResponse.clock_in_time := None;
       StatusResponse.elapsed_minutes := None |} in
  match f with
  | NetworkError => fallback
  | Responded response =>
      if negb (ok response) then fallback
      else
        match json response with
        | Some parsed => parsed
        | None => fallback
        end
  end.

(** [submitMileage(techName, date, miles, description)]; [now] is
    [Date.now()] when the response has arrived. *)
Definition submitMileage (techName date : string) (miles : number)
    (description : string) (now : Z)
    (f : FetchResult MileageResponse.t) : MileageResponse.t :=
  let failed :=
    {| MileageResponse.success := false; MileageResponse.entry_id := None;
       MileageResponse.error := Some connect_error |} in
  match f with
  | NetworkError => failed
  | Responded response =>
      if negb (ok response) then failed
      else if accepted response then
        {| MileageResponse.success := true;
           MileageResponse.entry_id := Some ("mileage_" +:+ pretty now);
           MileageResponse.error := None |}
      else
        match json response with
        | Some parsed => parsed
        | None =>
            {| MileageResponse.success := true; MileageResponse.entry_id := None;
               MileageResponse.error := None |}
        end
  end.

Definition fetchHistory (techName : string)
    (f : FetchResult HistoryResponse.t) : HistoryResponse.t :=
  let fallback :=
    {| HistoryResponse.time_entries := []; HistoryResponse.mileage_entries := [];
       HistoryResponse.week_total_hours := Num 0 |} in
  match f with
  | NetworkError => fallback
  | Responded response =>
      if negb (ok response) then fallback
      else
        match json response with
        | Some parsed => parsed
        | None => fallback
        end
  end.

Definition editEntry (techName shiftId field oldValue newValue reason : string)
    (f : FetchResult EditResponse.t) : EditResponse.t :=
  let failed :=
    {| EditResponse.success := false; EditResponse.error := Some connect_error |} in
  let plain := {| EditResponse.success := true; EditResponse.error := None |} in
  match f with
  | NetworkError => failed
  | Responded response =>
      if negb (ok response) then failed
      else if accepted response then plain
      else
        match json response with
        | Some parsed => parsed
        | None => plain
        end
  end.

End Api.


(** ** [parseFloat]

    The longest prefix that is a decimal literal, after leading blanks; [NaN]
    when there is none.  The miles field is an [<input type="number">], whose
    value is always a decimal literal or empty. *)

Module ParseFloat.

Fixpoint skip_blanks (s : string) : string :=
  match s with
  | String c s' => if decide (c = " "%char) then skip_blanks s' else s
  | EmptyString => s
  end.

(** Leading digits: their value on top of [acc], how many, and the rest. *)
Fixpoint span_digits (s : string) (acc : Z) (n : nat) : Z * nat * string :=
  match s with
  | String c s' =>
      match Iso.digit_of c with
      | Some d => span_digits s' (10 * acc + d)%Z (S n)
      | None => (acc, n, s)
      end
  | EmptyString => (acc, n, s)
  end.

Definition take_sign (s : string) : Z * string :=
  match s with
  | String c s' =>
      if decide (c = "-"%char) then ((-1)%Z, s')
      else if decide (c = "+"%char) then (1%Z, s') else (1%Z, s)
  | EmptyString => (1%Z, s)
  end.

(** The exponent part, [0] when absent or malformed. *)
Definition exponent (s : string) : Z :=
  match s with
  | String c s' =>
      if decide (c = "e"%char ∨ c = "E"%char) then
        let '(sg, s'') := take_sign s' in
        let '(e, n, _) := span_digits s'' 0%Z O in
        match n with O => 0%Z | S _ => (sg * e)%Z end
      else 0%Z
  | EmptyString => 0%Z
  end.

Definition parseFloat (s : string) : number :=
  let '(sg, s) := take_sign (skip_blanks s) in
  let '(ip, ni, s) := span_digits s 0%Z O in
  let '(fp, nf, s) :=
    match s with
    | String c s' => if decide (c = "."%char) then span_digits s' 0%Z O else (0%Z, O, s)
    | EmptyString => (0%Z, O, s)
    end in
  match (ni + nf)%nat with
  | O => NaN
  | S _ =>
      Num (inject_Z sg * (inject_Z ip + inject_Z fp / inject_Z (10 ^ Z.of_nat nf))
           * Qpower (inject_Z 10) (exponent s))
  end.

End ParseFloat.

(** ** The page component ([src/app/page.tsx]): types and helpers *)

Module ClockState.
Record t := {
  isClockedIn : bool;
  clockInTime : option string;
}.
End ClockState.

Module TimeEntry.
Record t := {
  shiftId : string;
  date : string;
  clockIn : string;
  clockOut : option string;
  hoursWorked : option number;
}.
End TimeEntry.

Module MileageEntry.
Record t := {
  entryId : string;
  date : string;
  miles : number;
  description : string;
}.
End MileageEntry.

Inductive Screen := home | mileage | history.

Definition formatDate (date : Z) : string := Iso.before_T (Iso.toISOString date).

Definition calculateHoursWorked (tz : Z) (clockIn clockOut : string) : number :=
  let start := new_Date tz clockIn in
  let end_ := new_Date tz clockOut in
  let diffHours :=
    JS.div (JS.sub (getTime end_) (getTime start)) (JS.of_Z (1000 * 60 * 60)) in
  JS.div (JS.Math_round (JS.mul diffHours (JS.of_Z 4))) (JS.of_Z 4).

(** The start of the current week as [getWeekTotal] and the home screen
    compute it: [setDate(getDate() - getDay())], then [setHours(0,0,0,0)]. *)
Definition startOfWeek (tz now : Z) : Z :=
  let startOfWeek := DateJS.setDate tz now (DateJS.getDate tz now - DateJS.getDay tz now) in
  DateJS.setHours tz startOfWeek 0 0 0 0.

(** [entryDate >= startOfWeek] for [entryDate = new Date(entry.date)]. *)
Definition onOrAfterWeekStart (tz now : Z) (entry : TimeEntry.t) : bool :=
  JS.geb (getTime (new_Date tz (TimeEntry.date entry)))
         (getTime (Some (startOfWeek tz now))).

Definition getWeekTotal (tz now : Z) (entries : list TimeEntry.t) : number :=
  foldl (λ sum entry, JS.add sum (JS.or_null (TimeEntry.hoursWorked entry) (Num 0)))
        (Num 0)
        (filter (λ entry, Is_true (onOrAfterWeekStart tz now entry
                                    && bool_decide (TimeEntry.hoursWorked entry ≠ None)))
                entries).

(** [toLocaleDateString("en-US", { weekday: "short" })] *)
Definition weekday_short (d : Z) : string :=
  match d with
  | 0 => "Sun" | 1 => "Mon" | 2 => "Tue" | 3 => "Wed"
  | 4 => "Thu" | 5 => "Fri" | _ => "Sat"
  end%Z.

Definition getDayName (tz : Z) (dateStr : string) : string :=
  match new_Date tz (dateStr +:+ "T12:00:00") with
  | Some date => weekday_short (DateJS.getDay tz date)
  | None => "Invalid Date"
  end.

(** ** Component state

    The [useState] cells that the clock and ledger logic reads or writes.
    Cells that only drive rendering (the roster, the loading flags, the
    elapsed-time label) are left out.  A confirmation toast is kept as the
    data its text is built from; clock-time formatting is locale dependent. *)

Inductive Confirmation :=
  | ClockedInAt (now : Z)
  | ClockedOutWorked (hoursWorked : number)
  | MileageSaved.

Record AppState := {
  currentUser : option string;
  clockState : ClockState.t;
  timeEntries : list TimeEntry.t;
  mileageEntries : list MileageEntry.t;
  weekTotalHours : number;
  currentScreen : Screen;
  showConfirmation : option Confirmation;
  showError : option string;
  isButtonDisabled : bool;
  mileageDate : string;
  mileageMiles : string;
  mileageDescription : string;
  isSubmittingMileage : bool;
}.

(** The state setters.  [setTimeEntries], [setMileageEntries] and
    [setWeekTotalHours] take an updater, as the handlers call them with
    [prev => ...]; a plain value is the constant updater. *)

Definition setCurrentUser (v : option string) (st : AppState) : AppState :=
  {| currentUser := v; clockState := clockState st; timeEntries := timeEntries st;
     mileageEntries := mileageEntries st; weekTotalHours := weekTotalHours st;
     currentScreen := currentScreen st; showConfirmation := showConfirmation st;
     showError := showError st; isButtonDisabled := isButtonDisabled st;
     mileageDate := mileageDate st; mileageMiles := mileageMiles st;
     mileageDescription := mileageDescription st;
     isSubmittingMileage := isSubmittingMileage st |}.

Definition setClockState (v : ClockState.t) (st : AppState) : AppState :=
  {| currentUser := currentUser st; clockState := v; timeEntries := timeEntries st;
     mileageEntries := mileageEntries st; weekTotalHours := weekTotalHours st;
     currentScreen := currentScreen st; showConfirmation := showConfirmation st;
     showError := showError st; isButtonDisabled := isButtonDisabled st;
     mileageDate := mileageDate st; mileageMiles := mileageMiles st;
     mileageDescription := mileageDescription st;
     isSubmittingMileage := isSubmittingMileage st |}.

Definition setTimeEntries (f : list TimeEntry.t → list TimeEntry.t)
    (st : AppState) : AppState :=
  {| currentUser := currentUser st; clockState := clockState st;
     timeEntries := f (timeEntries st);
     mileageEntries := mileageEntries st; weekTotalHours := weekTotalHours st;
     currentScreen := currentScreen st; showConfirmation := showConfirmation st;
     showError := showError st; isButtonDisabled := isButtonDisabled st;
     mileageDate := mileageDate st; mileageMiles := mileageMiles st;
     mileageDescription := mileageDescription st;
     isSubmittingMileage := isSubmittingMileage st |}.

Definition setMileageEntries (f : list MileageEntry.t → list MileageEntry.t)
    (st : AppState) : AppState :=
  {| currentUser := currentUser st; clockState := clockState st;
     timeEntries := timeEntries st;
     mileageEntries := f (mileageEntries st); weekTotalHours := weekTotalHours st;
     currentScreen := currentScreen st; showConfirmation := showConfirmation st;
     showError := showError st; isButtonDisabled := isButtonDisabled st;
     mileageDate := mileageDate st; mileageMiles := mileageMiles st;
     mileageDescription := mileageDescription st;
     isSubmittingMileage := isSubmittingMileage st |}.

Definition setWeekTotalHours (f : number → number) (st : AppState) : AppState :=
  {| currentUser := currentUser st; clockState := clockState st;
     timeEntries := timeEntries st;
     mileageEntries := mileageEntries st; weekTotalHours := f (weekTotalHours st);
     currentScreen := currentScreen st; showConfirmation := showConfirmation st;
     showError := showError st; isButtonDisabled := isButtonDisabled st;
     mileageDate := mileageDate st; mileageMiles := mileageMiles st;
     mileageDescription := mileageDescription st;
     isSubmittingMileage := isSubmittingMileage st |}.

Definition setCurrentScreen (v : Screen) (st : AppState) : AppState :=
  {| currentUser := currentUser st; clockState := clockState st;
     timeEntries := timeEntries st;
     mileageEntries := mileageEntries st; weekTotalHours := weekTotalHours st;
     currentScreen := v; showConfirmation := showConfirmation st;
     showError := showError st; isButtonDisabled := isButtonDisabled st;
     mileageDate := mileageDate st; mileageMiles := mileageMiles st;
     mileageDescription := mileageDescription st;
     isSubmittingMileage := isSubmittingMileage st |}.

Definition setShowConfirmation (v : option Confirmation) (st : AppState) : AppState :=
  {| currentUser := currentUser st; clockState := clockState st;
     timeEntries := timeEntries st;
     mileageEntries := mileageEntries st; weekTotalHours := weekTotalHours st;
     currentScreen := currentScreen st; showConfirmation := v;
     showError := showError st; isButtonDisabled := isButtonDisabled st;
     mileageDate := mileageDate st; mileageMiles := mileageMiles st;
     mileageDescription := mileageDescription st;
     isSubmittingMileage := isSubmittingMileage st |}.

Definition setShowError (v : option string) (st : AppState) : AppState :=
  {| currentUser := currentUser st; clockState := clockState st;
     timeEntries := timeEntries st;
     mileageEntries := mileageEntries st; weekTotalHours := weekTotalHours st;
     currentScreen := currentScreen st; showConfirmation := showConfirmation st;
     showError := v; isButtonDisabled := isButtonDisabled st;
     mileageDate := mileageDate st; mileageMiles := mileageMiles st;
     mileageDescription := mileageDescription st;
     isSubmittingMileage := isSubmittingMileage st |}.

Definition setIsButtonDisabled (v : bool) (st : AppState) : AppState :=
  {| currentUser := currentUser st; clockState := clockState st;
     timeEntries := timeEntries st;
     mileageEntries := mileageEntries st; weekTotalHours := weekTotalHours st;
     currentScreen := currentScreen st; showConfirmation := showConfirmation st;
     showError := showError st; isButtonDisabled := v;
     mileageDate := mileageDate st; mileageMiles := mileageMiles st;
     mileageDescription := mileageDescription st;
     isSubmittingMileage := isSubmittingMileage st |}.

Definition setMileageDate (v : string) (st : AppState) : AppState :=
  {| currentUser := currentUser st; clockState := clockState st;
     timeEntries := timeEntries st;
     mileageEntries := mileageEntries st; weekTotalHours := weekTotalHours st;
     currentScreen := currentScreen st; showConfirmation := showConfirmation st;
     showError := showError st; isButtonDisabled := isButtonDisabled st;
     mileageDate := v; mileageMiles := mileageMiles st;
     mileageDescription := mileageDescription st;
     isSubmittingMileage := isSubmittingMileage st |}.

Definition setMileageMiles (v : string) (st : AppState) : AppState :=
  {| currentUser := currentUser st; clockState := clockState st;
     timeEntries := timeEntries st;
     mileageEntries := mileageEntries st; weekTotalHours := weekTotalHours st;
     currentScreen := currentScreen st; showConfirmation := showConfirmation st;
     showError := showError st; isButtonDisabled := isButtonDisabled st;
     mileageDate := mileageDate st; mileageMiles := v;
     mileageDescription := mileageDescription st;
     isSubmittingMileage := isSubmittingMileage st |}.

Definition setMileageDescription (v : string) (st : AppState) : AppState :=
  {| currentUser := currentUser st; clockState := clockState st;
     timeEntries := timeEntries st;
     mileageEntries := mileageEntries st; weekTotalHours := weekTotalHours st;
     currentScreen := currentScreen st; showConfirmation := showConfirmation st;
     showError := showError st; isButtonDisabled := isButtonDisabled st;
     mileageDate := mileageDate st; mileageMiles := mileageMiles st;
     mileageDescription := v;
     isSubmittingMileage := isSubmittingMileage st |}.

Definition setIsSubmittingMileage (v : bool) (st : AppState) : AppState :=
  {| currentUser := currentUser st; clockState := clockState st;
     timeEntries := timeEntries st;
     mileageEntries := mileageEntries st; weekTotalHours := weekTotalHours st;
     currentScreen := currentScreen st; showConfirmation := showConfirmation st;
     showError := showError st; isButtonDisabled := isButtonDisabled st;
     mileageDate := mileageDate st; mileageMiles := mileageMiles st;
     mileageDescription := mileageDescription st;
     isSubmittingMileage := v |}.

(** [st |> f |> g]: the setter calls of a handler, in program order. *)
Notation "st |> f" := (f st) (at level 45, left associativity, only parsing).

(** The state of a freshly mounted component; [today] is the clock reading
    that initialises the mileage form's date. *)
Definition initialState (today : Z) : AppState :=
  {| currentUser := None;
     clockState := {| ClockState.isClockedIn := false; ClockState.clockInTime := None |};
     timeEntries := []; mileageEntries := []; weekTotalHours := Num 0;
     currentScreen := home; showConfirmation := None; showError := None;
     isButtonDisabled := false;
     mileageDate := formatDate today; mileageMiles := ""; mileageDescription := "";
     isSubmittingMileage := false |}.

(** ** Timers and pending calls

    A handler runs up to its [await], leaves a pending call that records the
    values its closure captured, and resumes on whatever state the component
    has when the response arrives.  [setTimeout] callbacks are kept with
    their delay in milliseconds. *)

Inductive TimerAction :=
  | ClearConfirmation
  | ClearError
  | EnableButton.

Record Timer := { delay : Z; action : TimerAction }.

Definition fire (a : TimerAction) (st : AppState) : AppState :=
  match a with
  | ClearConfirmation => st |> setShowConfirmation None
  | ClearError => st |> setShowError None
  | EnableButton => st |> setIsButtonDisabled false
  end.

Inductive Pending :=
  | AwaitStatus (user : string)
  | AwaitHistory (user : string)
  | AwaitRefresh (user : string)
  | AwaitClockIn (user : string) (now : Z) (clockInTime : string)
  | AwaitClockOut (user : string) (now : Z) (clockOutTime : string)
      (prevClockInTime : option string) (hoursWorked : number)
  | AwaitMileage (user mileageDate mileageMiles mileageDescription : string).

(** ** Handlers

    Each asynchronous handler is split at its [await]: [_begin] runs to the
    call and returns the pending call (or nothing, if the guard returned),
    [_resume] runs from the response to the end and returns the timers it
    started. *)

Definition clockedOut : ClockState.t :=
  {| ClockState.isClockedIn := false; ClockState.clockInTime := None |}.

Definition selectUser (name : string) (st : AppState) : AppState :=
  st |> setCurrentUser (Some name).

Definition switchUser (st : AppState) : AppState :=
  st |> setCurrentUser None
     |> setClockState clockedOut
     |> setTimeEntries (λ _, [])
     |> setMileageEntries (λ _, [])
     |> setWeekTotalHours (λ _, Num 0).

(** [loadUserData], first half: the status response sets the clock state. *)
Definition loadUserData_status (status : Api.StatusResponse.t) (st : AppState) : AppState :=
  if Api.StatusResponse.clocked_in status
     && JS.truthy_str (Api.StatusResponse.clock_in_time status)
  then st |> setClockState
         {| ClockState.isClockedIn := true;
            ClockState.clockInTime := Api.StatusResponse.clock_in_time status |}
  else st |> setClockState clockedOut.

Definition timeEntryLocal (entry : Api.TimeEntry.t) : TimeEntry.t :=
  {| TimeEntry.shiftId := Api.TimeEntry.shift_id entry;
     TimeEntry.date := Api.TimeEntry.date entry;
     TimeEntry.clockIn := Api.TimeEntry.clock_in entry;
     TimeEntry.clockOut := Api.TimeEntry.clock_out entry;
     TimeEntry.hoursWorked := Api.TimeEntry.hours_worked entry |}.

Definition mileageEntryLocal (entry : Api.MileageEntry.t) : MileageEntry.t :=
  {| MileageEntry.entryId := Api.MileageEntry.entry_id entry;
     MileageEntry.date := Api.MileageEntry.date entry;
     MileageEntry.miles := Api.MileageEntry.miles entry;
     MileageEntry.description := Api.MileageEntry.description entry |}.

(** [loadUserData], second half, and [refreshHistory] after its [await]:
    the history response replaces both ledgers and the week total. *)
Definition applyHistory (history : Api.HistoryResponse.t) (st : AppState) : AppState :=
  let timeEntriesLocal := timeEntryLocal <$> Api.HistoryResponse.time_entries history in
  let mileageEntriesLocal :=
    mileageEntryLocal <$> Api.HistoryResponse.mileage_entries history in
  st |> setTimeEntries (λ _, timeEntriesLocal)
     |> setMileageEntries (λ _, mileageEntriesLocal)
     |> setWeekTotalHours (λ _, Api.HistoryResponse.week_total_hours history).

Definition refreshHistory_begin (st : AppState) : option Pending :=
  match currentUser st with
  | Some user => if decide (user = "") then None else Some (AwaitRefresh user)
  | None => None
  end.

Definition handleClockIn_begin (now : Z) (st : AppState) : AppState * option Pending :=
  match currentUser st with
  | Some user =>
      if isButtonDisabled st || bool_decide (user = "") then (st, None)
      else
        let clockInTime := Iso.toISOString now in
        (st |> setIsButtonDisabled true
            |> setClockState {| ClockState.isClockedIn := true;
                                ClockState.clockInTime := Some clockInTime |}
            |> setShowConfirmation (Some (ClockedInAt now)),
         Some (AwaitClockIn user now clockInTime))
  | None => (st, None)
  end.

Definition handleClockIn_resume (user : string) (now : Z) (clockInTime : string)
    (response : Api.ClockResponse.t) (st : AppState) : AppState * list Timer :=
  if negb (Api.ClockResponse.success response) then
    (st |> setClockState clockedOut
        |> setShowConfirmation None
        |> setShowError
             (Some (JS.or_str (Api.ClockResponse.error response) "Failed to clock in")),
     [ {| delay := 4000; action := ClearError |};
       {| delay := 2000; action := EnableButton |} ])
  else
    let newEntry :=
      {| TimeEntry.shiftId :=
           JS.or_str (Api.ClockResponse.shift_id response)
                     (formatDate now +:+ "_" +:+ user);
         TimeEntry.date := formatDate now;
         TimeEntry.clockIn := clockInTime;
         TimeEntry.clockOut := None;
         TimeEntry.hoursWorked := None |} in
    (st |> setTimeEntries
             (λ prev, newEntry
                :: filter (λ e, TimeEntry.shiftId e ≠ TimeEntry.shiftId newEntry) prev),
     [ {| delay := 3000; action := ClearConfirmation |};
       {| delay := 2000; action := EnableButton |} ]).

Definition handleClockOut_begin (tz now : Z) (st : AppState) : AppState * option Pending :=
  match currentUser st with
  | Some user =>
      if isButtonDisabled st || bool_decide (user = "") then (st, None)
      else
        let clockOutTime := Iso.toISOString now in
        let prevClockInTime := ClockState.clockInTime (clockState st) in
        let hoursWorked :=
          match prevClockInTime with
          | Some t => if decide (t = "") then Num 0
                      else calculateHoursWorked tz t clockOutTime
          | None => Num 0
          end in
        (st |> setIsButtonDisabled true
            |> setClockState clockedOut
            |> setShowConfirmation (Some (ClockedOutWorked hoursWorked)),
         Some (AwaitClockOut user now clockOutTime prevClockInTime hoursWorked))
  | None => (st, None)
  end.

(** The open entry that clock-out closes: the first with
    [entry.date === formatDate(now) && entry.clockOut === null]. *)
Definition openToday (now : Z) (entry : TimeEntry.t) : Prop :=
  TimeEntry.date entry = formatDate now ∧ TimeEntry.clockOut entry = None.

#[global] Instance openToday_dec now entry : Decision (openToday now entry) :=
  and_dec _ _.

Definition closeEntry (clockOutTime : string) (actualHours : number)
    (entry : TimeEntry.t) : TimeEntry.t :=
  {| TimeEntry.shiftId := TimeEntry.shiftId entry;
     TimeEntry.date := TimeEntry.date entry;
     TimeEntry.clockIn := TimeEntry.clockIn entry;
     TimeEntry.clockOut := Some clockOutTime;
     TimeEntry.hoursWorked := Some actualHours |}.

Definition closeOpenEntry (now : Z) (clockOutTime : string) (actualHours : number)
    (prev : list TimeEntry.t) : list TimeEntry.t :=
  let updated := prev in
  match list_find (openToday now) updated with
  | Some (todayIndex, entry) =>
      <[todayIndex := closeEntry clockOutTime actualHours entry]> updated
  | None => updated
  end.

Definition handleClockOut_resume (user : string) (now : Z) (clockOutTime : string)
    (prevClockInTime : option string) (hoursWorked : number)
    (response : Api.ClockResponse.t) (st : AppState) : AppState * list Timer :=
  if negb (Api.ClockResponse.success response) then
    (st |> setClockState {| ClockState.isClockedIn := true;
                            ClockState.clockInTime := prevClockInTime |}
        |> setShowConfirmation None
        |> setShowError
             (Some (JS.or_str (Api.ClockResponse.error response) "Failed to clock out")),
     [ {| delay := 4000; action := ClearError |};
       {| delay := 2000; action := EnableButton |} ])
  else
    let actualHours := JS.nullish (Api.ClockResponse.hours_worked response) hoursWorked in
    (st |> setTimeEntries (closeOpenEntry now clockOutTime actualHours)
        |> setWeekTotalHours (λ prev, JS.add prev actualHours),
     [ {| delay := 3000; action := ClearConfirmation |};
       {| delay := 2000; action := EnableButton |} ]).

Definition handleMileageSubmit_begin (st : AppState) : AppState * option Pending :=
  match currentUser st with
  | Some user =>
      if bool_decide (user = "") || isSubmittingMileage st then (st, None)
      else
        (st |> setIsSubmittingMileage true,
         Some (AwaitMileage user (mileageDate st) (mileageMiles st)
                            (mileageDescription st)))
  | None => (st, None)
  end.

(** [now] is the clock reading after the response ([Date.now()] and
    [new Date()] of the success branch). *)
Definition handleMileageSubmit_resume (mileageDate mileageMiles mileageDescription : string)
    (now : Z) (response : Api.MileageResponse.t) (st : AppState)
    : AppState * list Timer :=
  if Api.MileageResponse.success response then
    let newEntry :=
      {| MileageEntry.entryId :=
           JS.or_str (Api.MileageResponse.entry_id response) ("mileage_" +:+ pretty now);
         MileageEntry.date := mileageDate;
         MileageEntry.miles := ParseFloat.parseFloat mileageMiles;
         MileageEntry.description := mileageDescription |} in
    (st |> setMileageEntries (λ prev, newEntry :: prev)
        |> setMileageDate (formatDate now)
        |> setMileageMiles ""
        |> setMileageDescription ""
        |> setCurrentScreen home
        |> setShowConfirmation (Some MileageSaved)
        |> setIsSubmittingMileage false,
     [ {| delay := 3000; action := ClearConfirmation |} ])
  else
    (st |> setShowError
             (Some (JS.or_str (Api.MileageResponse.error response)
                              "Failed to save mileage"))
        |> setIsSubmittingMileage false,
     [ {| delay := 4000; action := ClearError |} ]).

(** The home screen's week total: [weekTotalHours || getWeekTotal(timeEntries)]. *)
Definition weekTotal (tz now : Z) (st : AppState) : number :=
  JS.or (weekTotalHours st) (getWeekTotal tz now (timeEntries st)).

(** The handlers run without interleaving: the call is answered by [f]
    before anything else touches the component.  [today] and [answered] are
    the clock readings inside the webhook client, [later] the one the
    handler takes after the response. *)

Definition handleClockIn (now today : Z) (f : Api.FetchResult Api.ClockResponse.t)
    (st : AppState) : AppState :=
  match handleClockIn_begin now st with
  | (st', Some (AwaitClockIn user now' clockInTime)) =>
      (handleClockIn_resume user now' clockInTime (Api.clockIn user today f) st').1
  | (st', _) => st'
  end.

Definition handleClockOut (tz now : Z) (f : Api.FetchResult Api.ClockResponse.t)
    (st : AppState) : AppState :=
  match handleClockOut_begin tz now st with
  | (st', Some (AwaitClockOut user now' clockOutTime prevClockInTime hoursWorked)) =>
      (handleClockOut_resume user now' clockOutTime prevClockInTime hoursWorked
         (Api.clockOut user f) st').1
  | (st', _) => st'
  end.

Definition handleMileageSubmit (answered later : Z)
    (f : Api.FetchResult Api.MileageResponse.t) (st : AppState) : AppState :=
  match handleMileageSubmit_begin st with
  | (st', Some (AwaitMileage user date miles description)) =>
      (handleMileageSubmit_resume date miles description later
         (Api.submitMileage user date (ParseFloat.parseFloat miles) description
            answered f)
         st').1
  | (st', _) => st'
  end.

(** ** The component as a transition system

    A [System] is the component state together with the calls in flight and
    the timers not yet fired.  Responses and timers may arrive in any order;
    user events are those the rendered screen offers. *)

Record System := {
  app : AppState;
  calls : list Pending;
  timers : list Timer;
}.

Definition initialSystem (today : Z) : System :=
  {| app := initialState today; calls := []; timers := [] |}.

(** [!currentUser] is false: a user is selected. *)
Definition signedIn (st : AppState) : Prop := JS.truthy_str (currentUser st) = true.

(** The screen the component renders for a selected user. *)
Definition shows (sc : Screen) (st : AppState) : Prop :=
  signedIn st ∧ currentScreen st = sc.

(** [onClick={clockState.isClockedIn ? handleClockOut : handleClockIn}] *)
Definition clockButton (tz now : Z) (st : AppState) : AppState * option Pending :=
  if ClockState.isClockedIn (clockState st)
  then handleClockOut_begin tz now st
  else handleClockIn_begin now st.

Definition launched (p : option Pending) : list Pending :=
  match p with
  | Some c => [c]
  | None => []
  end.

Inductive step (tz : Z) : System → System → Prop :=
  (* the selection screen, or the saved user restored on mount; the effect on
     [currentUser] starts [loadUserData] *)
  | step_selectUser s name :
      ¬ signedIn (app s) →
      step tz s {| app := selectUser name (app s);
                   calls := (if decide (name = "") then [] else [AwaitStatus name])
                            ++ calls s;
                   timers := timers s |}
  | step_switchUser s :
      shows home (app s) →
      step tz s {| app := switchUser (app s); calls := calls s; timers := timers s |}
  | step_status s i user f :
      calls s !! i = Some (AwaitStatus user) →
      step tz s {| app := loadUserData_status (Api.checkStatus user f) (app s);
                   calls := AwaitHistory user :: delete i (calls s);
                   timers := timers s |}
  | step_history s i user f :
      calls s !! i = Some (AwaitHistory user) ∨ calls s !! i = Some (AwaitRefresh user) →
      step tz s {| app := applyHistory (Api.fetchHistory user f) (app s);
                   calls := delete i (calls s);
                   timers := timers s |}
  | step_refreshHistory s :
      shows history (app s) →
      step tz s {| app := app s;
                   calls := launched (refreshHistory_begin (app s)) ++ calls s;
                   timers := timers s |}
  (* rendering the history screen sorts both ledgers in place *)
  | step_renderHistory s sortedTime sortedMileage :
      shows history (app s) →
      sortedTime ≡ₚ timeEntries (app s) →
      sortedMileage ≡ₚ mileageEntries (app s) →
      step tz s {| app := app s |> setTimeEntries (λ _, sortedTime)
                                |> setMileageEntries (λ _, sortedMileage);
                   calls := calls s; timers := timers s |}
  | step_clockButton s now :
      shows home (app s) →
      isButtonDisabled (app s) = false →
      step tz s {| app := (clockButton tz now (app s)).1;
                   calls := launched (clockButton tz now (app s)).2 ++ calls s;
                   timers := timers s |}
  | step_clockIn s i user now clockInTime today f :
      calls s !! i = Some (AwaitClockIn user now clockInTime) →
      let r := handleClockIn_resume user now clockInTime
                 (Api.clockIn user today f) (app s) in
      step tz s {| app := r.1; calls := delete i (calls s); timers := r.2 ++ timers s |}
  | step_clockOut s i user now clockOutTime prev hours f :
      calls s !! i = Some (AwaitClockOut user now clockOutTime prev hours) →
      let r := handleClockOut_resume user now clockOutTime prev hours
                 (Api.clockOut user f) (app s) in
      step tz s {| app := r.1; calls := delete i (calls s); timers := r.2 ++ timers s |}
  | step_navigate s from to :
      shows from (app s) →
      from = home ∨ to = home →
      step tz s {| app := app s |> setCurrentScreen to;
                   calls := calls s; timers := timers s |}
  | step_editMileage s date miles description :
      shows mileage (app s) →
      step tz s {| app := app s |> setMileageDate date |> setMileageMiles miles
                                |> setMileageDescription description;
                   calls := calls s; timers := timers s |}
  | step_submitMileage s :
      shows mileage (app s) →
      isSubmittingMileage (app s) = false →
      step tz s {| app := (handleMileageSubmit_begin (app s)).1;
                   calls := launched (handleMileageSubmit_begin (app s)).2 ++ calls s;
                   timers := timers s |}
  | step_mileage s i user date miles description answered later f :
      calls s !! i = Some (AwaitMileage user date miles description) →
      let r := handleMileageSubmit_resume date miles description later
                 (Api.submitMileage user date (ParseFloat.parseFloat miles)
                    description answered f) (app s) in
      step tz s {| app := r.1; calls := delete i (calls s); timers := r.2 ++ timers s |}
  | step_timer s i t :
      timers s !! i = Some t →
      step tz s {| app := fire (action t) (app s);
                   calls := calls s; timers := delete i (timers s) |}.

Definition reachable (tz : Z) (s : System) : Prop :=
  ∃ today, rtc (step tz) (initialSystem today) s.

(** The clock-session invariant: a clock-in time is held exactly when the
    session is clocked in. *)
Definition clockInvariant (c : ClockState.t) : Prop :=
  ClockState.clockInTime c ≠ None ↔ ClockState.isClockedIn c = true.

(** ** The earlier, purely local revision of the page

    Before the webhook client existed the page kept everything in
    [localStorage].  Its clock handlers are synchronous; the clock state and
    the time entries are restored on mount and written back on every change.
    A stored JSON text is represented by the value it parses to.  The
    mileage list, which no clock handler touches, is left out. *)

Module Legacy.

Record Storage := {
  ahp_current_user : option string;
  ahp_clock_state : option ClockState.t;
  ahp_time_entries : option (list TimeEntry.t);
}.

Record State := {
  currentUser : option string;
  clockState : ClockState.t;
  timeEntries : list TimeEntry.t;
  isLoading : bool;
  isButtonDisabled : bool;
  localStorage : Storage;
}.

(** A freshly mounted component over an existing store. *)
Definition mounted (store : Storage) : State :=
  {| currentUser := None; clockState := clockedOut; timeEntries := [];
     isLoading := true; isButtonDisabled := false; localStorage := store |}.

Definition emptyStorage : Storage :=
  {| ahp_current_user := None; ahp_clock_state := None; ahp_time_entries := None |}.

(** The mount effect: each saved item replaces its cell when present. *)
Definition load (st : State) : State :=
  let store := localStorage st in
  {| currentUser :=
       if JS.truthy_str (ahp_current_user store) then ahp_current_user store
       else currentUser st;
     clockState := default (clockState st) (ahp_clock_state store);
     timeEntries := default (timeEntries st) (ahp_time_entries store);
     isLoading := false;
     isButtonDisabled := isButtonDisabled st;
     localStorage := store |}.

(** The save effects, which run once loading is over. *)
Definition save (st : State) : State :=
  if isLoading st then st
  else
    {| currentUser := currentUser st; clockState := clockState st;
       timeEntries := timeEntries st; isLoading := isLoading st;
       isButtonDisabled := isButtonDisabled st;
       localStorage :=
         {| ahp_current_user := ahp_current_user (localStorage st);
            ahp_clock_state := Some (clockState st);
            ahp_time_entries := Some (timeEntries st) |} |}.

Definition selectUser (name : string) (st : State) : State :=
  {| currentUser := Some name; clockState := clockState st;
     timeEntries := timeEntries st; isLoading := isLoading st;
     isButtonDisabled := isButtonDisabled st;
     localStorage :=
       {| ahp_current_user := Some name;
          ahp_clock_state := ahp_clock_state (localStorage st);
          ahp_time_entries := ahp_time_entries (localStorage st) |} |}.

Definition switchUser (st : State) : State :=
  {| currentUser := None; clockState := clockState st;
     timeEntries := timeEntries st; isLoading := isLoading st;
     isButtonDisabled := isButtonDisabled st;
     localStorage :=
       {| ahp_current_user := None;
          ahp_clock_state := ahp_clock_state (localStorage st);
          ahp_time_entries := ahp_time_entries (localStorage st) |} |}.

(** [`${formatDate(now)}_${currentUser}`]; a null user prints as ["null"]. *)
Definition shiftIdFor (now : Z) (user : option string) : string :=
  formatDate now +:+ "_" +:+ default "null" user.

Definition handleClockIn (now : Z) (st : State) : State :=
  if isButtonDisabled st then st
  else
    let clockInTime := Iso.toISOString now in
    let newEntry :=
      {| TimeEntry.shiftId := shiftIdFor now (currentUser st);
         TimeEntry.date := formatDate now;
         TimeEntry.clockIn := clockInTime;
         TimeEntry.clockOut := None;
         TimeEntry.hoursWorked := None |} in
    {| currentUser := currentUser st;
       clockState := {| ClockState.isClockedIn := true;
                        ClockState.clockInTime := Some clockInTime |};
       timeEntries := timeEntries st ++ [newEntry];
       isLoading := isLoading st;
       isButtonDisabled := true;
       localStorage := localStorage st |}.

Definition handleClockOut (tz now : Z) (st : State) : State :=
  if isButtonDisabled st then st
  else
    let clockOutTime := Iso.toISOString now in
    let updated := timeEntries st in
    {| currentUser := currentUser st;
       clockState := clockedOut;
       timeEntries :=
         match list_find (λ entry, TimeEntry.shiftId entry
                                   = shiftIdFor now (currentUser st)) updated with
         | Some (todayIndex, entry) =>
             <[todayIndex :=
                 closeEntry clockOutTime
                   (calculateHoursWorked tz (TimeEntry.clockIn entry) clockOutTime)
                   entry]> updated
         | None => updated
         end;
       isLoading := isLoading st;
       isButtonDisabled := true;
       localStorage := localStorage st |}.

Definition enableButton (st : State) : State :=
  {| currentUser := currentUser st; clockState := clockState st;
     timeEntries := timeEntries st; isLoading := isLoading st;
     isButtonDisabled := false; localStorage := localStorage st |}.

Inductive step (tz : Z) : State → State → Prop :=
  | step_load st : isLoading st = true → step tz st (load st)
  | step_save st : step tz st (save st)
  | step_selectUser st name :
      isLoading st = false → JS.truthy_str (currentUser st) = false →
      step tz st (selectUser name st)
  | step_switchUser st :
      isLoading st = false → JS.truthy_str (currentUser st) = true →
      step tz st (switchUser st)
  (* [onClick={clockState.isClockedIn ? handleClockOut : handleClockIn}] *)
  | step_clockButton st now :
      isLoading st = false → JS.truthy_str (currentUser st) = true →
      isButtonDisabled st = false →
      step tz st (if ClockState.isClockedIn (clockState st)
                  then handleClockOut tz now st else handleClockIn now st)
  | step_enableButton st : step tz st (enableButton st)
  (* the page is opened again over the same store *)
  | step_reopen st : step tz st (mounted (localStorage st)).

Definition reachable (tz : Z) (st : State) : Prop :=
  rtc (step tz) (mounted emptyStorage) st.

End Legacy.

(** ** Further parts of the page and of the webhook client *)


(** [Array.prototype.sort(compareFn)].  The sort is stable, and [a] goes
    after [b] when [compareFn(a, b) > 0]; a [NaN] result counts as zero.
    For a consistent comparator the result is the stable sorted
    arrangement, computed here by insertion; for an inconsistent one (dates
    that do not parse) JavaScript only promises some arrangement of the same
    elements. *)
Section Sort.
Context {A : Type} (compareFn : A → A → number).

Definition goesAfter (a b : A) : bool := JS.gtb (compareFn a b) (Num 0).

Fixpoint insertSorted (x : A) (l : list A) : list A :=
  match l with
  | [] => [x]
  | y :: l' => if goesAfter x y then y :: insertSorted x l' else x :: y :: l'
  end.

Definition Array_sort (l : list A) : list A := foldr insertSorted [] l.

End Sort.

(** The time value of a date field: [new Date(date).getTime()]. *)
Definition dateValue (tz : Z) (date : string) : number := getTime (new_Date tz date).

(** The history screen: both ledgers, newest first.  [sort] works in place,
    so the arrays held in the state are reordered as well. *)
Definition userTimeEntries (tz : Z) (st : AppState) : list TimeEntry.t :=
  Array_sort (λ a b, JS.sub (dateValue tz (TimeEntry.date b))
                            (dateValue tz (TimeEntry.date a)))
             (timeEntries st).

Definition userMileageEntries (tz : Z) (st : AppState) : list MileageEntry.t :=
  Array_sort (λ a b, JS.sub (dateValue tz (MileageEntry.date b))
                            (dateValue tz (MileageEntry.date a)))
             (mileageEntries st).



(** * Vocabulary of the properties *)

(** The shift length in hours, as an exact rational. *)
Definition hoursBetween (start finish : Z) : Q :=
  inject_Z (finish - start) / inject_Z 3600000.

(** [n] is [x] rounded to the nearest integer, halves upwards. *)
Definition roundsTo (x : Q) (n : Z) : Prop :=
  (inject_Z n - (1 # 2) <= x)%Q ∧ (x < inject_Z n + (1 # 2))%Q.

(** What the invariant needs of the calls in flight: a pending clock-out
    captured a clock-in time, because the button dispatched to
    [handleClockOut] on a clocked-in session. *)
Definition capturedClockIn (p : Pending) : Prop :=
  match p with
  | AwaitClockOut _ _ _ prevClockInTime _ => prevClockInTime ≠ None
  | _ => True
  end.

Definition systemInvariant (s : System) : Prop :=
  clockInvariant (clockState (app s)) ∧ Forall capturedClockIn (calls s).

(** The invariant of the local-storage revision: the stored clock state is one
    the component itself wrote, so restoring it keeps the invariant. *)
Definition legacyInvariant (st : Legacy.State) : Prop :=
  clockInvariant (Legacy.clockState st)
  ∧ ∀ c, Legacy.ahp_clock_state (Legacy.localStorage st) = Some c → clockInvariant c.

(** The hours that a successful clock-out records: the server's when the
    response carries them, the handler's own computation otherwise. *)
Definition confirmedHours (tz now : Z) (clockIn : string)
    (response : Api.ClockResponse.t) : number :=
  match Api.ClockResponse.hours_worked response with
  | Some serverHours => serverHours
  | None => calculateHoursWorked tz clockIn (Iso.toISOString now)
  end.

(** How a wrapper's [result] relates to what [fetch] did: bodies that are
    accepted or do not parse give success; otherwise the parsed body is the
    result; a failure comes from the network, from a status outside 2xx, or
    from a parsed body that says so. *)
Definition responseRule {R : Type} (success : R → bool) (error : R → option string)
    (f : Api.FetchResult R) (result : R) : Prop :=
  (∀ r, f = Api.Responded r → (200 ≤ Api.status r ≤ 299)%Z →
        Api.text r = "Accepted" ∨ Api.text r = "" ∨ Api.status r = 200%Z →
        success result = true)
  ∧ (∀ r, f = Api.Responded r → (200 ≤ Api.status r ≤ 299)%Z →
          Api.json r = None → success result = true)
  ∧ (∀ r parsed, f = Api.Responded r → (200 ≤ Api.status r ≤ 299)%Z →
          Api.text r ≠ "Accepted" → Api.text r ≠ "" → Api.status r ≠ 200%Z →
          Api.json r = Some parsed → result = parsed)
  ∧ (f = Api.NetworkError
     ∨ (∃ r, f = Api.Responded r ∧ ¬ (200 ≤ Api.status r ≤ 299)%Z) →
     success result = false ∧ error result = Some Api.connect_error)
  ∧ (success result = false →
     f = Api.NetworkError
     ∨ ∃ r, f = Api.Responded r
            ∧ (¬ (200 ≤ Api.status r ≤ 299)%Z
               ∨ ((200 ≤ Api.status r ≤ 299)%Z
                  ∧ Api.text r ≠ "Accepted" ∧ Api.text r ≠ "" ∧ Api.status r ≠ 200%Z
                  ∧ ∃ parsed, Api.json r = Some parsed ∧ success parsed = false))).

(** The local day on which the current week starts. *)
Definition weekStartDay (tz now : Z) : Z :=
  DateJS.Day
    (DateJS.LocalTime tz
       (DateJS.setDate tz now (DateJS.getDate tz now - DateJS.getDay tz now))).





Definition count {A} (f : A → bool) (l : list A) : nat :=
  length (filter (λ x, Is_true (f x)) l).






(** A POST that does not get through: no answer at all, or a status outside
    200..299. *)
Definition connectFailed {R} (f : Api.FetchResult R) : Prop :=
  f = Api.NetworkError
  ∨ ∃ r, f = Api.Responded r ∧ ¬ (200 ≤ Api.status r ≤ 299)%Z.

(** What a clock action that did not get through leaves behind: the data
    of [st], with the connection error shown and no confirmation. *)
Definition onlyReportsFailure (st st' : AppState) : Prop :=
  timeEntries st' = timeEntries st
  ∧ mileageEntries st' = mileageEntries st
  ∧ weekTotalHours st' = weekTotalHours st
  ∧ currentUser st' = currentUser st
  ∧ currentScreen st' = currentScreen st
  ∧ showError st' = Some Api.connect_error
  ∧ showConfirmation st' = None.

(** An entry as the local-storage revision writes them: stamped, dated and
    filed by one clock reading, and either open, or closed with the hours
    between its two stamps. *)
Definition legacyEntry (tz : Z) (e : TimeEntry.t) : Prop :=
  (∃ now user, TimeEntry.clockIn e = Iso.toISOString now
               ∧ TimeEntry.date e = formatDate now
               ∧ TimeEntry.shiftId e = Legacy.shiftIdFor now user)
  ∧ match TimeEntry.clockOut e, TimeEntry.hoursWorked e with
    | Some t, Some h =>
        (∃ now', t = Iso.toISOString now')
        ∧ h = calculateHoursWorked tz (TimeEntry.clockIn e) t
    | None, None => True
    | _, _ => False
    end.

(** While the session is clocked in, an open entry stamped with its clock-in
    time is on the ledger. *)
Definition sessionOnLedger (c : ClockState.t) (l : list TimeEntry.t) : Prop :=
  ClockState.isClockedIn c = true →
  ∃ e, e ∈ l ∧ TimeEntry.clockOut e = None
       ∧ ClockState.clockInTime c = Some (TimeEntry.clockIn e).

(** The ledger invariant of the local-storage revision, for the state and
    for what the store holds: both items are written together. *)
Definition legacyLedgerInvariant (tz : Z) (st : Legacy.State) : Prop :=
  (Forall (legacyEntry tz) (Legacy.timeEntries st)
   ∧ sessionOnLedger (Legacy.clockState st) (Legacy.timeEntries st))
  ∧ match Legacy.ahp_clock_state (Legacy.localStorage st),
          Legacy.ahp_time_entries (Legacy.localStorage st) with
    | Some c, Some l => Forall (legacyEntry tz) l ∧ sessionOnLedger c l
    | None, None => True
    | _, _ => False
    end.

(** Time values that [toISOString] prints with a four-digit year: from the
    start of year 0 to the end of year 9999. *)
Definition stampRange (t : Z) : Prop := (-62167219200000 ≤ t < 253402300800000)%Z.

(** [s] is the date-only form [YYYY-MM-DD] of an existing calendar day. *)
Definition dateOnly (s : string) (y m d : Z) : Prop :=
  Iso.parse_date s = Some (y, m, d, "")
  ∧ (1 ≤ m ≤ 12)%Z ∧ (1 ≤ d ≤ DateJS.DaysInMonth y m)%Z.

(** The entry a successful clock-in at [now] puts in the ledger. *)
Definition openedEntry (user : string) (now : Z) (response : Api.ClockResponse.t)
    : TimeEntry.t :=
  {| TimeEntry.shiftId :=
       JS.or_str (Api.ClockResponse.shift_id response) (formatDate now +:+ "_" +:+ user);
     TimeEntry.date := formatDate now;
     TimeEntry.clockIn := Iso.toISOString now;
     TimeEntry.clockOut := None;
     TimeEntry.hoursWorked := None |}.

(** A GET that does not produce a parsed body: no answer at all, a status
    outside 200..299, or a body that is not JSON. *)
Definition readFailed {R} (f : Api.FetchResult R) : Prop :=
  f = Api.NetworkError
  ∨ ∃ r, f = Api.Responded r ∧ (¬ (200 ≤ Api.status r ≤ 299)%Z ∨ Api.json r = None).

(** [a] may stand before [b] in a list sorted by [key] under the strict order
    [lt]: [b]'s key is not before [a]'s.  Elements without a key are left
    out of the comparison. *)
Definition inOrder {A} (key : A → option Z) (lt : Z → Z → Prop) (a b : A) : Prop :=
  ∀ x y, key a = Some x → key b = Some y → ¬ lt y x.

(** The date [a] is not older than the date [b], and not newer. *)
Definition notOlder (tz : Z) (a b : string) : Prop :=
  ∀ x y, new_Date tz a = Some x → new_Date tz b = Some y → (y ≤ x)%Z.


(** * Sample data *)

(** Concrete states, ledgers and answers on which the properties are
    exercised: a technician, Bri, in a zone five hours west of UTC, on
    Wednesday 10 January 2024. *)
Module Demo.

(** US Eastern Standard Time; 13:00:00 UTC, when Bri's shift opened; and
    17:07:30 UTC, when Bri taps the button. *)
Definition tz : Z := 300.
Definition opened : Z := 1704891600000.
Definition tapped : Z := 1704906450000.

(** The double-quote character, for JSON bodies. *)
Definition q : string := String (ascii_of_nat 34) EmptyString.

(** The status endpoint reports the open shift. *)
Definition statusReply : Api.FetchResult Api.StatusResponse.t :=
  Api.Responded
    {| Api.status := 200;
       Api.text := "{" +:+ q +:+ "clocked_in" +:+ q +:+ ":true,"
                   +:+ q +:+ "clock_in_time" +:+ q +:+ ":"
                   +:+ q +:+ "2024-01-10T13:00:00.000Z" +:+ q +:+ "}";
       Api.json := Some {| Api.StatusResponse.clocked_in := true;
                           Api.StatusResponse.clock_in_time :=
                             Some "2024-01-10T13:00:00.000Z";
                           Api.StatusResponse.elapsed_minutes := None |} |}.

(** A run that ends in a rolled-back clock-out: Bri is selected, the status
    arrives, Bri clocks out, and the call fails at the network. *)
Definition s0 : System := initialSystem opened.

Definition s1 : System :=
  {| app := selectUser "Bri" (app s0);
     calls := (if decide ("Bri" = "") then [] else [AwaitStatus "Bri"]) ++ calls s0;
     timers := timers s0 |}.

Definition s2 : System :=
  {| app := loadUserData_status (Api.checkStatus "Bri" statusReply) (app s1);
     calls := AwaitHistory "Bri" :: delete 0%nat (calls s1);
     timers := timers s1 |}.

Definition s3 : System :=
  {| app := (clockButton tz tapped (app s2)).1;
     calls := launched (clockButton tz tapped (app s2)).2 ++ calls s2;
     timers := timers s2 |}.

Definition s4 : System :=
  {| app := (handleClockOut_resume "Bri" tapped "2024-01-10T17:07:30.000Z"
               (Some "2024-01-10T13:00:00.000Z") (Num (17 # 4))
               (Api.clockOut "Bri" Api.NetworkError) (app s3)).1;
     calls := delete 0%nat (calls s3);
     timers := (handleClockOut_resume "Bri" tapped "2024-01-10T17:07:30.000Z"
                  (Some "2024-01-10T13:00:00.000Z") (Num (17 # 4))
                  (Api.clockOut "Bri" Api.NetworkError) (app s3)).2 ++ timers s3 |}.

(** The history endpoint's answer: two finished shifts, the open one under a
    server-side id, one mileage entry. *)
Definition history : Api.HistoryResponse.t :=
  {| Api.HistoryResponse.time_entries :=
       [ {| Api.TimeEntry.shift_id := "2024-01-08_Bri";
            Api.TimeEntry.date := "2024-01-08";
            Api.TimeEntry.clock_in := "2024-01-08T14:00:00.000Z";
            Api.TimeEntry.clock_out := Some "2024-01-08T16:30:00.000Z";
            Api.TimeEntry.hours_worked := Some (Num 2.5);
            Api.TimeEntry.edited := false |};
         {| Api.TimeEntry.shift_id := "2024-01-09_Bri";
            Api.TimeEntry.date := "2024-01-09";
            Api.TimeEntry.clock_in := "2024-01-09T14:00:00.000Z";
            Api.TimeEntry.clock_out := Some "2024-01-09T18:00:00.000Z";
            Api.TimeEntry.hours_worked := Some (Num 4);
            Api.TimeEntry.edited := false |};
         {| Api.TimeEntry.shift_id := "row-17";
            Api.TimeEntry.date := "2024-01-10";
            Api.TimeEntry.clock_in := "2024-01-10T13:00:00.000Z";
            Api.TimeEntry.clock_out := None;
            Api.TimeEntry.hours_worked := None;
            Api.TimeEntry.edited := false |} ];
     Api.HistoryResponse.mileage_entries :=
       [ {| Api.MileageEntry.entry_id := "m-3";
            Api.MileageEntry.date := "2024-01-09";
            Api.MileageEntry.miles := Num 8;
            Api.MileageEntry.description := "Nursery run" |} ];
     Api.HistoryResponse.week_total_hours := Num 6.5 |}.

(** Bri on the home screen, clocked out, and clocked in since [opened]. *)
Definition idle : AppState :=
  applyHistory history (selectUser "Bri" (initialState opened)).

Definition working : AppState := applyHistory history (app s2).

(** A 500 answer. *)
Definition serverError : Api.FetchResult Api.ClockResponse.t :=
  Api.Responded {| Api.status := 500; Api.text := "Scenario failed"; Api.json := None |}.

(** A 201 answer whose JSON body confirms 4.5 hours. *)
Definition confirmed : Api.FetchResult Api.ClockResponse.t :=
  Api.Responded
    {| Api.status := 201;
       Api.text := "{" +:+ q +:+ "success" +:+ q +:+ ":true,"
                   +:+ q +:+ "hours_worked" +:+ q +:+ ":4.5}";
       Api.json := Some {| Api.ClockResponse.success := true;
                           Api.ClockResponse.shift_id := None;
                           Api.ClockResponse.hours_worked := Some (Num 4.5);
                           Api.ClockResponse.error := None |} |}.

(** A 201 answer whose JSON body refuses the action. *)
Definition refusal : Api.HttpResponse Api.ClockResponse.t :=
  {| Api.status := 201;
     Api.text := "{" +:+ q +:+ "success" +:+ q +:+ ":false,"
                 +:+ q +:+ "error" +:+ q +:+ ":" +:+ q +:+ "Shift already open" +:+ q
                 +:+ "}";
     Api.json := Some {| Api.ClockResponse.success := false;
                         Api.ClockResponse.shift_id := None;
                         Api.ClockResponse.hours_worked := None;
                         Api.ClockResponse.error := Some "Shift already open" |} |}.

(** A plain 200 "Accepted" answer. *)
Definition acceptedReply {R} : Api.FetchResult R :=
  Api.Responded {| Api.status := 200; Api.text := "Accepted"; Api.json := None |}.

(** Bri clocked in late on the 10th (UTC) and taps clock-out early on the
    11th: the open entry is dated the 10th. *)
Definition pastMidnight : Z := 1704934800000.

(** A history answer whose week total is zero although it lists hours
    worked this week. *)
Definition zeroTotal : Api.HistoryResponse.t :=
  {| Api.HistoryResponse.time_entries := Api.HistoryResponse.time_entries history;
     Api.HistoryResponse.mileage_entries := [];
     Api.HistoryResponse.week_total_hours := Num 0 |}.

(** A finished shift dated Sunday 7 January 2024, the first day of the week
    that contains [tapped]. *)
Definition sundayShift : TimeEntry.t :=
  {| TimeEntry.shiftId := "2024-01-07_Bri";
     TimeEntry.date := "2024-01-07";
     TimeEntry.clockIn := "2024-01-07T14:00:00.000Z";
     TimeEntry.clockOut := Some "2024-01-07T16:30:00.000Z";
     TimeEntry.hoursWorked := Some (Num 2.5) |}.

(** The mileage form filled in as in the specification's example. *)
Definition form : AppState :=
  idle |> setCurrentScreen mileage
       |> setMileageDate "2024-01-10"
       |> setMileageMiles "12.5"
       |> setMileageDescription "Site visit".

(** The local-storage revision: Bri clocks in, the state is saved, the page
    is opened again and restores it. *)
Definition l1 : Legacy.State := Legacy.load (Legacy.mounted Legacy.emptyStorage).
Definition l2 : Legacy.State := Legacy.selectUser "Bri" l1.
Definition l3 : Legacy.State :=
  if ClockState.isClockedIn (Legacy.clockState l2)
  then Legacy.handleClockOut tz opened l2 else Legacy.handleClockIn opened l2.
Definition l4 : Legacy.State := Legacy.save l3.
Definition l5 : Legacy.State := Legacy.mounted (Legacy.localStorage l4).
Definition l6 : Legacy.State := Legacy.load l5.

End Demo.

(** Further runs, ledgers and answers, for the properties that follow the
    clock session, the ledger and the week totals through more of the page. *)
Module More.




(** Bri's day in two shifts: out for lunch at 16:00:00 UTC, back at
    16:30:00 UTC. *)
Definition lunchOut : Z := 1704902400000.
Definition lunchIn : Z := 1704904200000.

(** Bri just signed in, nothing loaded yet; and Bri after a first shift,
    from [Demo.opened] to [lunchOut], both calls answered "Accepted". *)
Definition fresh : AppState := selectUser "Bri" (initialState Demo.opened).

Definition afterShift : AppState :=
  fire EnableButton
    (handleClockOut Demo.tz lunchOut Demo.acceptedReply
       (fire EnableButton
          (handleClockIn Demo.opened Demo.opened Demo.acceptedReply fresh))).

(** A 200 answer whose JSON body refuses the action and reports nine
    hours. *)
Definition overruled : Api.HttpResponse Api.ClockResponse.t :=
  {| Api.status := 200;
     Api.text := "{" +:+ Demo.q +:+ "success" +:+ Demo.q +:+ ":false,"
                 +:+ Demo.q +:+ "hours_worked" +:+ Demo.q +:+ ":9}";
     Api.json := Some {| Api.ClockResponse.success := false;
                         Api.ClockResponse.shift_id := None;
                         Api.ClockResponse.hours_worked := Some (Num 9);
                         Api.ClockResponse.error := None |} |}.

(** A plain 200 "Accepted" answer, as the response itself. *)
Definition acceptedResponse : Api.HttpResponse Api.ClockResponse.t :=
  {| Api.status := 200; Api.text := "Accepted"; Api.json := None |}.

End More.

(** * Properties *)

(** ** Hours worked *)

Lemma Math_round_roundsTo (x : Q) : roundsTo x (Qfloor (x + (1 # 2))).
Proof.
  unfold roundsTo.
  pose proof (Qfloor_le (x + (1 # 2))) as Hle.
  pose proof (Qlt_floor (x + (1 # 2))) as Hlt.
  rewrite inject_Z_plus in Hlt. change (inject_Z 1) with 1%Q in Hlt.
  split; lra.
Qed.

Lemma roundsTo_unique (x : Q) (n m : Z) : roundsTo x n → roundsTo x m → n = m.
Proof.
  intros [Hn1 Hn2] [Hm1 Hm2].
  assert (inject_Z n < inject_Z m + 1)%Q as H1 by lra.
  assert (inject_Z m < inject_Z n + 1)%Q as H2 by lra.
  change 1%Q with (inject_Z 1) in H1, H2.
  rewrite <- inject_Z_plus in H1, H2.
  rewrite <- Zlt_Qlt in H1, H2. lia.
Qed.

Lemma calculateHoursWorked_valid (tz : Z) (a b : string) (ta tb : Z) :
  new_Date tz a = Some ta → new_Date tz b = Some tb →
  calculateHoursWorked tz a b
  = Num (inject_Z (Qfloor ((inject_Z tb - inject_Z ta) / inject_Z (1000 * 60 * 60)
                           * inject_Z 4 + (1 # 2)))
         / inject_Z 4).
Proof.
  intros Ha Hb. unfold calculateHoursWorked. rewrite Ha, Hb. reflexivity.
Qed.

Lemma calculateHoursWorked_invalid (tz : Z) (a b : string) :
  new_Date tz a = None ∨ new_Date tz b = None →
  calculateHoursWorked tz a b = NaN.
Proof.
  unfold calculateHoursWorked.
  intros [-> | ->]; [destruct (new_Date tz b) | destruct (new_Date tz a)]; reflexivity.
Qed.

(** C4. For valid timestamps [a] before [b], [calculateHoursWorked a b] is
    [n / 4], where [n] is four times the elapsed hours rounded to the nearest
    integer; so it is a multiple of a quarter hour, and it is not negative. *)
Theorem calculateHoursWorked_quarter_hours (tz : Z) (a b : string) (ta tb : Z) :
  new_Date tz a = Some ta → new_Date tz b = Some tb → (ta < tb)%Z →
  ∃ n : Z,
    calculateHoursWorked tz a b = Num (inject_Z n / inject_Z 4)
    ∧ roundsTo (hoursBetween ta tb * 4) n
    ∧ (0 ≤ n)%Z
    ∧ (0 <= inject_Z n / inject_Z 4)%Q.
Proof.
  intros Ha Hb Hlt.
  rewrite (calculateHoursWorked_valid tz a b ta tb Ha Hb).
  set (x := ((inject_Z tb - inject_Z ta) / inject_Z (1000 * 60 * 60) * inject_Z 4)%Q).
  assert (x == hoursBetween ta tb * 4)%Q as Hx.
  { unfold x, hoursBetween. unfold Z.sub. rewrite inject_Z_plus, inject_Z_opp. reflexivity. }
  assert (0 < x)%Q as Hpos.
  { unfold x. apply Qmult_lt_0_compat; [| reflexivity].
    apply Qlt_shift_div_l; [reflexivity |].
    rewrite Zlt_Qlt in Hlt. rewrite Qmult_0_l. lra. }
  assert (0 ≤ Qfloor (x + (1 # 2)))%Z as Hn.
  { change 0%Z with (Qfloor 0). apply Qfloor_resp_le. lra. }
  exists (Qfloor (x + (1 # 2))). repeat split.
  - destruct (Math_round_roundsTo x) as [H1 _]. rewrite <- Hx. exact H1.
  - destruct (Math_round_roundsTo x) as [_ H2]. rewrite <- Hx. exact H2.
  - exact Hn.
  - apply Qle_shift_div_l; [reflexivity |].
    rewrite Zle_Qle in Hn. rewrite Qmult_0_l. exact Hn.
Qed.

Lemma calculateHoursWorked_quarter_hours_witness :
  ∃ n : Z,
    calculateHoursWorked 300 "2024-01-10T13:00:00.000Z" "2024-01-10T17:07:30.000Z"
    = Num (inject_Z n / inject_Z 4)
    ∧ roundsTo (hoursBetween 1704891600000 1704906450000 * 4) n
    ∧ (0 ≤ n)%Z
    ∧ (0 <= inject_Z n / inject_Z 4)%Q.
Proof.
  apply (calculateHoursWorked_quarter_hours 300
           "2024-01-10T13:00:00.000Z" "2024-01-10T17:07:30.000Z"
           1704891600000 1704906450000).
  - vm_compute. reflexivity.
  - vm_compute. reflexivity.
  - lia.
Defined.

(** ** The clock-session invariant *)

Lemma clockInvariant_clockedOut : clockInvariant clockedOut.
Proof. unfold clockInvariant; simpl. split; [congruence | discriminate]. Qed.

Lemma clockInvariant_clockedIn (t : string) :
  clockInvariant {| ClockState.isClockedIn := true; ClockState.clockInTime := Some t |}.
Proof. unfold clockInvariant; simpl. split; [reflexivity | discriminate]. Qed.

Lemma clockInvariant_restored (prev : option string) :
  prev ≠ None →
  clockInvariant {| ClockState.isClockedIn := true; ClockState.clockInTime := prev |}.
Proof. unfold clockInvariant; simpl. tauto. Qed.

Create HintDb clock.

#[local] Hint Resolve clockInvariant_clockedOut clockInvariant_clockedIn
  clockInvariant_restored : clock.

Lemma Forall_delete {A} (P : A → Prop) (l : list A) (i : nat) :
  Forall P l → Forall P (delete i l).
Proof.
  rewrite !Forall_forall. intros H x Hx.
  apply H. eapply list_elem_of_delete_inv, Hx.
Qed.

Lemma loadUserData_status_clockInvariant status st :
  clockInvariant (clockState (loadUserData_status status st)).
Proof.
  unfold loadUserData_status.
  destruct (Api.StatusResponse.clocked_in status); simpl; auto with clock.
  destruct (Api.StatusResponse.clock_in_time status) as [t |] eqn:Ht; simpl;
    auto with clock.
  case_bool_decide; simpl; auto with clock.
Qed.

Lemma handleClockIn_begin_invariant now st :
  clockInvariant (clockState st) →
  clockInvariant (clockState (handleClockIn_begin now st).1)
  ∧ Forall capturedClockIn (launched (handleClockIn_begin now st).2).
Proof.
  intros Hinv. unfold handleClockIn_begin.
  destruct (currentUser st) as [user |]; simpl; [| auto].
  destruct (isButtonDisabled st || bool_decide (user = "")); simpl; [auto |].
  split; [auto with clock |]. repeat constructor.
Qed.

Lemma handleClockOut_begin_invariant tz now st :
  clockInvariant (clockState st) →
  ClockState.isClockedIn (clockState st) = true →
  clockInvariant (clockState (handleClockOut_begin tz now st).1)
  ∧ Forall capturedClockIn (launched (handleClockOut_begin tz now st).2).
Proof.
  intros Hinv Hin. unfold handleClockOut_begin.
  destruct (currentUser st) as [user |]; simpl; [| auto].
  destruct (isButtonDisabled st || bool_decide (user = "")); simpl; [auto |].
  split; [auto with clock |].
  repeat constructor. simpl. apply Hinv, Hin.
Qed.

Lemma clockButton_invariant tz now st :
  clockInvariant (clockState st) →
  clockInvariant (clockState (clockButton tz now st).1)
  ∧ Forall capturedClockIn (launched (clockButton tz now st).2).
Proof.
  intros Hinv. unfold clockButton.
  destruct (ClockState.isClockedIn (clockState st)) eqn:Hin.
  - apply handleClockOut_begin_invariant; assumption.
  - apply handleClockIn_begin_invariant; assumption.
Qed.

Lemma handleClockIn_resume_clockInvariant user now t response st :
  clockInvariant (clockState st) →
  clockInvariant (clockState (handleClockIn_resume user now t response st).1).
Proof.
  intros Hinv. unfold handleClockIn_resume.
  destruct (Api.ClockResponse.success response); simpl; auto with clock.
Qed.

Lemma handleClockOut_resume_clockInvariant user now t prev hours response st :
  clockInvariant (clockState st) → prev ≠ None →
  clockInvariant (clockState (handleClockOut_resume user now t prev hours response st).1).
Proof.
  intros Hinv Hprev. unfold handleClockOut_resume.
  destruct (Api.ClockResponse.success response); simpl; auto with clock.
Qed.

Lemma handleMileageSubmit_begin_invariant st :
  clockState (handleMileageSubmit_begin st).1 = clockState st
  ∧ Forall capturedClockIn (launched (handleMileageSubmit_begin st).2).
Proof.
  unfold handleMileageSubmit_begin.
  destruct (currentUser st) as [user |]; simpl; [| auto].
  destruct (bool_decide (user = "") || isSubmittingMileage st); simpl; [auto |].
  split; [reflexivity |]. repeat constructor.
Qed.

Lemma handleMileageSubmit_resume_clockState date miles description later response st :
  clockState (handleMileageSubmit_resume date miles description later response st).1
  = clockState st.
Proof.
  unfold handleMileageSubmit_resume.
  destruct (Api.MileageResponse.success response); reflexivity.
Qed.

Lemma fire_clockState a st : clockState (fire a st) = clockState st.
Proof. destruct a; reflexivity. Qed.

Lemma refreshHistory_begin_invariant st :
  Forall capturedClockIn (launched (refreshHistory_begin st)).
Proof.
  unfold refreshHistory_begin.
  destruct (currentUser st) as [user |]; simpl; [| constructor].
  case_decide; simpl; repeat constructor.
Qed.

(** Every transition of the component preserves the invariant. *)
Lemma step_systemInvariant tz s s' :
  step tz s s' → systemInvariant s → systemInvariant s'.
Proof.
  intros Hstep [Hclock Hcalls].
  destruct Hstep; unfold systemInvariant;
    repeat match goal with r := _ |- _ => subst r end; simpl.
  - split; [exact Hclock |]. apply Forall_app. split; [| exact Hcalls].
    case_decide; repeat constructor.
  - split; [auto with clock | exact Hcalls].
  - split; [apply loadUserData_status_clockInvariant |].
    constructor; [exact I | apply Forall_delete, Hcalls].
  - split; [exact Hclock | apply Forall_delete, Hcalls].
  - split; [exact Hclock |]. apply Forall_app. split; [| exact Hcalls].
    apply refreshHistory_begin_invariant.
  - split; [exact Hclock | exact Hcalls].
  - destruct (clockButton_invariant tz now (app s) Hclock) as [H1 H2].
    split; [exact H1 |]. apply Forall_app. split; assumption.
  - split; [apply handleClockIn_resume_clockInvariant, Hclock
           | apply Forall_delete, Hcalls].
  - split; [| apply Forall_delete, Hcalls].
    apply handleClockOut_resume_clockInvariant; [exact Hclock |].
    match goal with H : calls s !! _ = Some _ |- _ =>
      apply (Forall_lookup_1 _ _ _ _ Hcalls H) end.
  - split; [exact Hclock | exact Hcalls].
  - split; [exact Hclock | exact Hcalls].
  - destruct (handleMileageSubmit_begin_invariant (app s)) as [H1 H2].
    split; [rewrite H1; exact Hclock |]. apply Forall_app. split; assumption.
  - split; [rewrite handleMileageSubmit_resume_clockState; exact Hclock
           | apply Forall_delete, Hcalls].
  - split; [rewrite fire_clockState; exact Hclock | exact Hcalls].
Qed.

Lemma initialSystem_systemInvariant today : systemInvariant (initialSystem today).
Proof. split; simpl; [auto with clock | constructor]. Qed.

Lemma reachable_systemInvariant tz s : reachable tz s → systemInvariant s.
Proof.
  intros [today Hrtc].
  apply (rtc_ind_r (R := step tz) (λ s, systemInvariant s) (initialSystem today)).
  - apply initialSystem_systemInvariant.
  - intros s1 s2 _ Hstep IH. eapply step_systemInvariant; eassumption.
  - exact Hrtc.
Qed.

Lemma legacy_step_invariant tz st st' :
  Legacy.step tz st st' → legacyInvariant st → legacyInvariant st'.
Proof.
  intros Hstep [Hclock Hstore].
  destruct Hstep; unfold legacyInvariant; simpl.
  - split; [| exact Hstore].
    destruct (Legacy.ahp_clock_state (Legacy.localStorage st)) as [c |] eqn:Hc;
      simpl; [apply Hstore; reflexivity | exact Hclock].
  - unfold Legacy.save. destruct (Legacy.isLoading st); simpl.
    + split; assumption.
    + split; [exact Hclock |]. intros c [= <-]. exact Hclock.
  - split; assumption.
  - split; assumption.
  - destruct (ClockState.isClockedIn (Legacy.clockState st));
      [unfold Legacy.handleClockOut | unfold Legacy.handleClockIn];
      destruct (Legacy.isButtonDisabled st); simpl;
      (split; [auto with clock | exact Hstore]).
  - split; assumption.
  - split; [auto with clock | exact Hstore].
Qed.

Lemma legacy_reachable_invariant tz st : Legacy.reachable tz st → legacyInvariant st.
Proof.
  intros Hrtc.
  apply (rtc_ind_r (R := Legacy.step tz) (λ st, legacyInvariant st)
           (Legacy.mounted Legacy.emptyStorage)).
  - split; simpl; [auto with clock | discriminate].
  - intros s1 s2 _ Hstep IH. eapply legacy_step_invariant; eassumption.
  - exact Hrtc.
Qed.

(** C1. In every state the component can reach, through the status load,
    clock-in, clock-out, their rollbacks and every other transition, the
    clock session holds a clock-in time exactly when it is clocked in; the
    same holds for the local-storage revision, including its restore on
    mount. *)
Theorem clock_session_invariant :
  (∀ tz s, reachable tz s → clockInvariant (clockState (app s)))
  ∧ (∀ tz st, Legacy.reachable tz st → clockInvariant (Legacy.clockState st)).
Proof.
  split.
  - intros tz s H. exact (proj1 (reachable_systemInvariant tz s H)).
  - intros tz st H. exact (proj1 (legacy_reachable_invariant tz st H)).
Qed.

Lemma Demo_reachable : reachable Demo.tz Demo.s4.
Proof.
  exists Demo.opened.
  eapply rtc_l; [apply (step_selectUser Demo.tz Demo.s0 "Bri"); vm_compute; discriminate |].
  eapply rtc_l; [apply (step_status Demo.tz Demo.s1 0%nat "Bri" Demo.statusReply);
                 reflexivity |].
  eapply rtc_l; [apply (step_clockButton Demo.tz Demo.s2 Demo.tapped);
                 [split; reflexivity | reflexivity] |].
  eapply rtc_l; [| apply rtc_refl].
  apply (step_clockOut Demo.tz Demo.s3 0%nat "Bri" Demo.tapped
           "2024-01-10T17:07:30.000Z" (Some "2024-01-10T13:00:00.000Z")
           (Num (17 # 4)) Api.NetworkError).
  vm_compute. reflexivity.
Defined.

Lemma Demo_legacy_reachable : Legacy.reachable Demo.tz Demo.l6.
Proof.
  unfold Legacy.reachable.
  eapply rtc_l; [apply Legacy.step_load; reflexivity |].
  eapply rtc_l; [apply (Legacy.step_selectUser Demo.tz _ "Bri"); reflexivity |].
  eapply rtc_l; [apply (Legacy.step_clockButton Demo.tz Demo.l2 Demo.opened);
                 reflexivity |].
  eapply rtc_l; [apply (Legacy.step_save Demo.tz Demo.l3) |].
  eapply rtc_l; [apply (Legacy.step_reopen Demo.tz Demo.l4) |].
  eapply rtc_l; [apply (Legacy.step_load Demo.tz Demo.l5); reflexivity |].
  apply rtc_refl.
Defined.

Lemma clock_session_invariant_witness :
  clockInvariant (clockState (app Demo.s4))
  ∧ clockInvariant (Legacy.clockState Demo.l6).
Proof.
  split.
  - apply (proj1 clock_session_invariant Demo.tz Demo.s4). exact Demo_reachable.
  - apply (proj2 clock_session_invariant Demo.tz Demo.l6). exact Demo_legacy_reachable.
Defined.

(** ** Clock-in and clock-out against a failing call *)

Lemma handleClockIn_begin_runs now st user :
  currentUser st = Some user → user ≠ "" → isButtonDisabled st = false →
  handleClockIn_begin now st
  = (st |> setIsButtonDisabled true
        |> setClockState {| ClockState.isClockedIn := true;
                            ClockState.clockInTime := Some (Iso.toISOString now) |}
        |> setShowConfirmation (Some (ClockedInAt now)),
     Some (AwaitClockIn user now (Iso.toISOString now))).
Proof.
  intros Hu Hne Hb. unfold handleClockIn_begin. rewrite Hu, Hb.
  rewrite bool_decide_eq_false_2 by exact Hne. reflexivity.
Qed.

(** The rollback of [handleClockIn], on whatever state the response finds. *)
Lemma handleClockIn_resume_failure user now t response st :
  Api.ClockResponse.success response = false →
  let st' := (handleClockIn_resume user now t response st).1 in
  clockState st' = clockedOut ∧ timeEntries st' = timeEntries st
  ∧ showError st' ≠ None.
Proof.
  intros Hf. unfold handleClockIn_resume. rewrite Hf. simpl. auto.
Qed.

(** C5. When the clock-in call does not succeed, the session is back to
    clocked out with no clock-in time, and the time entries are those from
    before the call. *)
Theorem handleClockIn_failure_rolls_back (now today : Z)
    (f : Api.FetchResult Api.ClockResponse.t) (st : AppState) (user : string) :
  currentUser st = Some user → user ≠ "" → isButtonDisabled st = false →
  Api.ClockResponse.success (Api.clockIn user today f) = false →
  clockState (handleClockIn now today f st)
  = {| ClockState.isClockedIn := false; ClockState.clockInTime := None |}
  ∧ timeEntries (handleClockIn now today f st) = timeEntries st.
Proof.
  intros Hu Hne Hb Hf. unfold handleClockIn.
  rewrite (handleClockIn_begin_runs now st user Hu Hne Hb).
  destruct (handleClockIn_resume_failure user now (Iso.toISOString now)
              (Api.clockIn user today f)
              (st |> setIsButtonDisabled true
                  |> setClockState {| ClockState.isClockedIn := true;
                                      ClockState.clockInTime := Some (Iso.toISOString now) |}
                  |> setShowConfirmation (Some (ClockedInAt now))) Hf)
    as (H1 & H2 & _).
  split; [exact H1 | exact H2].
Qed.

Lemma handleClockOut_begin_runs tz now st user :
  currentUser st = Some user → user ≠ "" → isButtonDisabled st = false →
  ∃ hoursWorked,
    handleClockOut_begin tz now st
    = (st |> setIsButtonDisabled true
          |> setClockState clockedOut
          |> setShowConfirmation (Some (ClockedOutWorked hoursWorked)),
       Some (AwaitClockOut user now (Iso.toISOString now)
               (ClockState.clockInTime (clockState st)) hoursWorked))
    ∧ (∀ t, ClockState.clockInTime (clockState st) = Some t → t ≠ "" →
            hoursWorked = calculateHoursWorked tz t (Iso.toISOString now)).
Proof.
  intros Hu Hne Hb. unfold handleClockOut_begin. rewrite Hu, Hb.
  rewrite bool_decide_eq_false_2 by exact Hne. simpl.
  eexists. split; [reflexivity |].
  intros t Ht Hnonempty. rewrite Ht. rewrite decide_False by exact Hnonempty.
  reflexivity.
Qed.

(** The rollback of [handleClockOut], on whatever state the response finds. *)
Lemma handleClockOut_resume_failure user now t prev hours response st :
  Api.ClockResponse.success response = false →
  let st' := (handleClockOut_resume user now t prev hours response st).1 in
  clockState st' = {| ClockState.isClockedIn := true; ClockState.clockInTime := prev |}
  ∧ timeEntries st' = timeEntries st
  ∧ weekTotalHours st' = weekTotalHours st
  ∧ showError st' ≠ None.
Proof.
  intros Hf. unfold handleClockOut_resume. rewrite Hf. simpl. auto.
Qed.

(** C6. When the clock-out call does not succeed, the session is again
    exactly what it was before the call: clocked in, with the clock-in time
    the handler captured. *)
Theorem handleClockOut_failure_rolls_back (tz now : Z)
    (f : Api.FetchResult Api.ClockResponse.t) (st : AppState) (user : string) :
  currentUser st = Some user → user ≠ "" → isButtonDisabled st = false →
  ClockState.isClockedIn (clockState st) = true →
  Api.ClockResponse.success (Api.clockOut user f) = false →
  clockState (handleClockOut tz now f st) = clockState st
  ∧ clockState (handleClockOut tz now f st)
    = {| ClockState.isClockedIn := true;
         ClockState.clockInTime := ClockState.clockInTime (clockState st) |}.
Proof.
  intros Hu Hne Hb Hin Hf. unfold handleClockOut.
  destruct (handleClockOut_begin_runs tz now st user Hu Hne Hb) as (hours & -> & _).
  match goal with |- context [handleClockOut_resume ?u ?n ?t ?p ?h ?r ?s] =>
    destruct (handleClockOut_resume_failure u n t p h r s Hf) as (H1 & _) end.
  rewrite H1. split; [| reflexivity].
  destruct (clockState st) as [b t]. simpl in Hin. subst b. reflexivity.
Qed.

Lemma handleClockIn_failure_rolls_back_witness :
  clockState (handleClockIn Demo.tapped Demo.tapped Demo.serverError Demo.idle)
  = {| ClockState.isClockedIn := false; ClockState.clockInTime := None |}
  ∧ timeEntries (handleClockIn Demo.tapped Demo.tapped Demo.serverError Demo.idle)
    = timeEntries Demo.idle.
Proof.
  apply (handleClockIn_failure_rolls_back Demo.tapped Demo.tapped Demo.serverError
           Demo.idle "Bri").
  - reflexivity.
  - discriminate.
  - reflexivity.
  - reflexivity.
Defined.

Lemma handleClockOut_failure_rolls_back_witness :
  clockState (handleClockOut Demo.tz Demo.tapped Api.NetworkError Demo.working)
  = clockState Demo.working
  ∧ clockState (handleClockOut Demo.tz Demo.tapped Api.NetworkError Demo.working)
    = {| ClockState.isClockedIn := true;
         ClockState.clockInTime := Some "2024-01-10T13:00:00.000Z" |}.
Proof.
  apply (handleClockOut_failure_rolls_back Demo.tz Demo.tapped Api.NetworkError
           Demo.working "Bri").
  - reflexivity.
  - discriminate.
  - reflexivity.
  - reflexivity.
  - reflexivity.
Defined.

(** ** Clock-out against a successful call *)

(** What [closeOpenEntry] does to the ledger: the first entry dated today
    with no clock-out gets its clock-out and hours, nothing else changes. *)
Lemma closeOpenEntry_found now clockOutTime hours (prev : list TimeEntry.t) i entry :
  prev !! i = Some entry → openToday now entry →
  (∀ j e, prev !! j = Some e → (j < i)%nat → ¬ openToday now e) →
  closeOpenEntry now clockOutTime hours prev
  = <[i := closeEntry clockOutTime hours entry]> prev.
Proof.
  intros Hi Hopen Hfirst. unfold closeOpenEntry.
  assert (list_find (openToday now) prev = Some (i, entry)) as ->; [| reflexivity].
  apply list_find_Some. auto.
Qed.

Lemma closeOpenEntry_none now clockOutTime hours (prev : list TimeEntry.t) :
  Forall (λ e, ¬ openToday now e) prev →
  closeOpenEntry now clockOutTime hours prev = prev.
Proof.
  intros Hnone. unfold closeOpenEntry.
  assert (list_find (openToday now) prev = None) as ->; [| reflexivity].
  apply list_find_None. exact Hnone.
Qed.

Lemma handleClockOut_resume_success user now t prev hours response st :
  Api.ClockResponse.success response = true →
  let actualHours := JS.nullish (Api.ClockResponse.hours_worked response) hours in
  let st' := (handleClockOut_resume user now t prev hours response st).1 in
  timeEntries st' = closeOpenEntry now t actualHours (timeEntries st)
  ∧ weekTotalHours st' = JS.add (weekTotalHours st) actualHours
  ∧ clockState st' = clockState st.
Proof.
  intros Hs. unfold handleClockOut_resume. rewrite Hs. simpl. auto.
Qed.

Lemma handleClockOut_success_state tz now f st user t :
  currentUser st = Some user → user ≠ "" → isButtonDisabled st = false →
  ClockState.clockInTime (clockState st) = Some t → t ≠ "" →
  Api.ClockResponse.success (Api.clockOut user f) = true →
  let st' := handleClockOut tz now f st in
  let actualHours := confirmedHours tz now t (Api.clockOut user f) in
  timeEntries st' = closeOpenEntry now (Iso.toISOString now) actualHours (timeEntries st)
  ∧ weekTotalHours st' = JS.add (weekTotalHours st) actualHours.
Proof.
  intros Hu Hne Hb Ht Hnonempty Hs. unfold handleClockOut.
  destruct (handleClockOut_begin_runs tz now st user Hu Hne Hb) as (hours & -> & Hh).
  rewrite (Hh t Ht Hnonempty).
  match goal with |- context [handleClockOut_resume ?u ?n ?c ?p ?h ?r ?s] =>
    destruct (handleClockOut_resume_success u n c p h r s Hs) as (H1 & H2 & _) end.
  simpl. rewrite H1, H2. unfold confirmedHours, JS.nullish. simpl.
  destruct (Api.ClockResponse.hours_worked (Api.clockOut user f)); auto.
Qed.

(** C7. After a successful clock-out the hours recorded are the server's
    [hours_worked] when present and the client's computation otherwise; the
    entry they go to is the first one dated today with no clock-out, whatever
    its shift id; its clock-out and hours are filled in, every other entry is
    kept, and the hours are added to the stored week total. *)
Theorem handleClockOut_success_records (tz now : Z)
    (f : Api.FetchResult Api.ClockResponse.t) (st : AppState)
    (user t : string) (i : nat) (entry : TimeEntry.t) :
  currentUser st = Some user → user ≠ "" → isButtonDisabled st = false →
  ClockState.clockInTime (clockState st) = Some t → t ≠ "" →
  Api.ClockResponse.success (Api.clockOut user f) = true →
  timeEntries st !! i = Some entry →
  TimeEntry.date entry = formatDate now → TimeEntry.clockOut entry = None →
  (∀ j e, timeEntries st !! j = Some e → (j < i)%nat →
          ¬ (TimeEntry.date e = formatDate now ∧ TimeEntry.clockOut e = None)) →
  let st' := handleClockOut tz now f st in
  let actualHours := confirmedHours tz now t (Api.clockOut user f) in
  timeEntries st' !! i
  = Some {| TimeEntry.shiftId := TimeEntry.shiftId entry;
            TimeEntry.date := TimeEntry.date entry;
            TimeEntry.clockIn := TimeEntry.clockIn entry;
            TimeEntry.clockOut := Some (Iso.toISOString now);
            TimeEntry.hoursWorked := Some actualHours |}
  ∧ (∀ j, j ≠ i → timeEntries st' !! j = timeEntries st !! j)
  ∧ length (timeEntries st') = length (timeEntries st)
  ∧ weekTotalHours st' = JS.add (weekTotalHours st) actualHours.
Proof.
  intros Hu Hne Hb Ht Hnonempty Hs Hi Hdate Hopen Hfirst.
  destruct (handleClockOut_success_state tz now f st user t Hu Hne Hb Ht Hnonempty Hs)
    as [Hentries Htotal].
  simpl. rewrite Hentries, Htotal.
  rewrite (closeOpenEntry_found now _ _ (timeEntries st) i entry Hi
             (conj Hdate Hopen) Hfirst).
  repeat split.
  - apply list_lookup_insert_eq. eapply lookup_lt_Some, Hi.
  - intros j Hj. apply list_lookup_insert_ne. congruence.
  - apply length_insert.
Qed.

Lemma handleClockOut_success_records_witness :
  let st' := handleClockOut Demo.tz Demo.tapped Demo.confirmed Demo.working in
  timeEntries st' !! 2%nat
  = Some {| TimeEntry.shiftId := "row-17";
            TimeEntry.date := "2024-01-10";
            TimeEntry.clockIn := "2024-01-10T13:00:00.000Z";
            TimeEntry.clockOut := Some "2024-01-10T17:07:30.000Z";
            TimeEntry.hoursWorked := Some (Num 4.5) |}
  ∧ (∀ j, j ≠ 2%nat → timeEntries st' !! j = timeEntries Demo.working !! j)
  ∧ length (timeEntries st') = length (timeEntries Demo.working)
  ∧ weekTotalHours st' = JS.add (Num 6.5) (Num 4.5).
Proof.
  apply (handleClockOut_success_records Demo.tz Demo.tapped Demo.confirmed
           Demo.working "Bri" "2024-01-10T13:00:00.000Z" 2%nat
           {| TimeEntry.shiftId := "row-17";
              TimeEntry.date := "2024-01-10";
              TimeEntry.clockIn := "2024-01-10T13:00:00.000Z";
              TimeEntry.clockOut := None;
              TimeEntry.hoursWorked := None |}).
  - reflexivity.
  - discriminate.
  - reflexivity.
  - reflexivity.
  - discriminate.
  - reflexivity.
  - reflexivity.
  - vm_compute. reflexivity.
  - reflexivity.
  - intros [| [| j]] e He Hj [_ Hopen]; [| | lia];
      vm_compute in He; injection He as <-; discriminate Hopen.
Defined.

(** C10. When a clock-out succeeds and no entry is dated today with an empty
    clock-out, the time entries stay as they are while the stored week total
    still grows by the confirmed hours; it can then exceed what the ledger
    adds up to. *)
Theorem handleClockOut_success_without_open_entry :
  (∀ (tz now : Z) (f : Api.FetchResult Api.ClockResponse.t) (st : AppState)
     (user t : string),
     currentUser st = Some user → user ≠ "" → isButtonDisabled st = false →
     ClockState.clockInTime (clockState st) = Some t → t ≠ "" →
     Api.ClockResponse.success (Api.clockOut user f) = true →
     Forall (λ e, ¬ (TimeEntry.date e = formatDate now ∧ TimeEntry.clockOut e = None))
            (timeEntries st) →
     let st' := handleClockOut tz now f st in
     timeEntries st' = timeEntries st
     ∧ weekTotalHours st'
       = JS.add (weekTotalHours st) (confirmedHours tz now t (Api.clockOut user f)))
  ∧ (∃ (tz now : Z) (f : Api.FetchResult Api.ClockResponse.t) (st : AppState),
       weekTotalHours st ≈ getWeekTotal tz now (timeEntries st)
       ∧ let st' := handleClockOut tz now f st in
         JS.gtb (weekTotalHours st') (getWeekTotal tz now (timeEntries st')) = true).
Proof.
  split.
  - intros tz now f st user t Hu Hne Hb Ht Hnonempty Hs Hnone.
    destruct (handleClockOut_success_state tz now f st user t Hu Hne Hb Ht Hnonempty Hs)
      as [Hentries Htotal].
    simpl. rewrite Hentries, Htotal.
    split; [| reflexivity].
    apply closeOpenEntry_none. exact Hnone.
  - exists Demo.tz, Demo.pastMidnight, Demo.acceptedReply, Demo.working.
    split; vm_compute; reflexivity.
Qed.

Lemma handleClockOut_success_without_open_entry_witness :
  let st' := handleClockOut Demo.tz Demo.pastMidnight Demo.acceptedReply Demo.working in
  timeEntries st' = timeEntries Demo.working
  ∧ weekTotalHours st'
    = JS.add (weekTotalHours Demo.working)
        (confirmedHours Demo.tz Demo.pastMidnight "2024-01-10T13:00:00.000Z"
           (Api.clockOut "Bri" Demo.acceptedReply)).
Proof.
  apply (proj1 handleClockOut_success_without_open_entry
           Demo.tz Demo.pastMidnight Demo.acceptedReply Demo.working
           "Bri" "2024-01-10T13:00:00.000Z").
  - reflexivity.
  - discriminate.
  - reflexivity.
  - reflexivity.
  - discriminate.
  - reflexivity.
  - repeat constructor; intros [Hd Ho]; vm_compute in Hd, Ho; discriminate.
Defined.

(** ** Mileage submission *)

Lemma handleMileageSubmit_begin_runs st user :
  currentUser st = Some user → user ≠ "" → isSubmittingMileage st = false →
  handleMileageSubmit_begin st
  = (st |> setIsSubmittingMileage true,
     Some (AwaitMileage user (mileageDate st) (mileageMiles st) (mileageDescription st))).
Proof.
  intros Hu Hne Hb. unfold handleMileageSubmit_begin. rewrite Hu, Hb.
  rewrite bool_decide_eq_false_2 by exact Hne. reflexivity.
Qed.

Lemma or_str_cases (a : option string) (b : string) :
  (∀ s, a = Some s → s ≠ "" → JS.or_str a b = s)
  ∧ (a = None ∨ a = Some "" → JS.or_str a b = b).
Proof.
  unfold JS.or_str. split.
  - intros s -> Hs. rewrite decide_False by exact Hs. reflexivity.
  - intros [-> | ->]; reflexivity.
Qed.

(** C9. A successful mileage submission puts an entry with the submitted
    date, miles and description at the head of the mileage list, under the
    id from the response when it has one and under [mileage_<clock>]
    otherwise; a failed one leaves the list as it was and shows an error. *)
Theorem handleMileageSubmit_outcome (answered later : Z)
    (f : Api.FetchResult Api.MileageResponse.t) (st : AppState) (user : string) :
  currentUser st = Some user → user ≠ "" → isSubmittingMileage st = false →
  let miles := ParseFloat.parseFloat (mileageMiles st) in
  let response :=
    Api.submitMileage user (mileageDate st) miles (mileageDescription st) answered f in
  let st' := handleMileageSubmit answered later f st in
  (Api.MileageResponse.success response = true →
     ∃ id,
       mileageEntries st'
       = {| MileageEntry.entryId := id;
            MileageEntry.date := mileageDate st;
            MileageEntry.miles := miles;
            MileageEntry.description := mileageDescription st |} :: mileageEntries st
       ∧ (∀ issued, Api.MileageResponse.entry_id response = Some issued →
                    issued ≠ "" → id = issued)
       ∧ (Api.MileageResponse.entry_id response = None
          ∨ Api.MileageResponse.entry_id response = Some "" →
          id = "mileage_" +:+ pretty later))
  ∧ (Api.MileageResponse.success response = false →
     mileageEntries st' = mileageEntries st ∧ ∃ message, showError st' = Some message).
Proof.
  intros Hu Hne Hb. simpl. unfold handleMileageSubmit.
  rewrite (handleMileageSubmit_begin_runs st user Hu Hne Hb).
  unfold handleMileageSubmit_resume.
  set (response := Api.submitMileage user (mileageDate st)
                     (ParseFloat.parseFloat (mileageMiles st))
                     (mileageDescription st) answered f).
  split; intros Hs; rewrite Hs; simpl.
  - eexists. split; [reflexivity |]. apply or_str_cases.
  - split; [reflexivity |]. eexists. reflexivity.
Qed.

Lemma handleMileageSubmit_outcome_witness :
  let miles := ParseFloat.parseFloat (mileageMiles Demo.form) in
  let response :=
    Api.submitMileage "Bri" (mileageDate Demo.form) miles (mileageDescription Demo.form)
      Demo.tapped Demo.acceptedReply in
  let st' := handleMileageSubmit Demo.tapped Demo.tapped Demo.acceptedReply Demo.form in
  (Api.MileageResponse.success response = true →
     ∃ id,
       mileageEntries st'
       = {| MileageEntry.entryId := id;
            MileageEntry.date := mileageDate Demo.form;
            MileageEntry.miles := miles;
            MileageEntry.description := mileageDescription Demo.form |}
         :: mileageEntries Demo.form
       ∧ (∀ issued, Api.MileageResponse.entry_id response = Some issued →
                    issued ≠ "" → id = issued)
       ∧ (Api.MileageResponse.entry_id response = None
          ∨ Api.MileageResponse.entry_id response = Some "" →
          id = "mileage_" +:+ pretty Demo.tapped))
  ∧ (Api.MileageResponse.success response = false →
     mileageEntries st' = mileageEntries Demo.form
     ∧ ∃ message, showError st' = Some message).
Proof.
  apply (handleMileageSubmit_outcome Demo.tapped Demo.tapped Demo.acceptedReply
           Demo.form "Bri").
  - reflexivity.
  - discriminate.
  - reflexivity.
Defined.

(** The specification's example: ["12.5"] is read as 12.5 miles and the
    entry is first in the list. *)
Lemma handleMileageSubmit_example :
  ∃ entry rest,
    mileageEntries
      (handleMileageSubmit Demo.tapped Demo.tapped Demo.acceptedReply Demo.form)
    = entry :: rest
    ∧ MileageEntry.miles entry ≈ Num 12.5
    ∧ MileageEntry.description entry = "Site visit"
    ∧ rest = mileageEntries Demo.form.
Proof. vm_compute. eexists _, _. repeat split; reflexivity. Qed.

(** ** The response rule of the POST wrappers *)

Section Duality.
Context {R : Type} (success : R → bool) (error : R → option string).

(** The shape shared by the four wrappers. *)
Lemma responseRule_intro (failed accepted plain : R) (f : Api.FetchResult R) :
  success failed = false → error failed = Some Api.connect_error →
  success accepted = true → success plain = true →
  responseRule success error f
    match f with
    | Api.NetworkError => failed
    | Api.Responded response =>
        if negb (Api.ok response) then failed
        else if Api.accepted response then accepted
        else match Api.json response with
             | Some parsed => parsed
             | None => plain
             end
    end.
Proof.
  intros Hfailed Herror Haccepted Hplain. unfold responseRule.
  destruct f as [| r]; simpl.
  { refine (conj _ (conj _ (conj _ (conj _ _)))); try discriminate; auto. }
  unfold Api.ok, Api.accepted.
  destruct (decide (200 ≤ Api.status r ≤ 299)%Z) as [Hok | Hok].
  2:{ rewrite bool_decide_eq_false_2 by exact Hok. simpl.
      refine (conj _ (conj _ (conj _ (conj _ _)))).
      - intros r' [= <-]. tauto.
      - intros r' [= <-]. tauto.
      - intros r' parsed [= <-]. tauto.
      - auto.
      - intros _. right. exists r. auto. }
  rewrite bool_decide_eq_true_2 by exact Hok. simpl.
  assert (∀ P : Prop,
            Api.NetworkError = Api.Responded r
            ∨ (∃ r', Api.Responded r = Api.Responded r'
                     ∧ ¬ (200 ≤ Api.status r' ≤ 299)%Z) → P) as Hnever.
  { intros P [[=] | (r' & [= <-] & Hno)]. tauto. }
  destruct (decide (Api.text r = "Accepted" ∨ Api.text r = "" ∨ Api.status r = 200%Z))
    as [Hacc | Hacc].
  { rewrite bool_decide_eq_true_2 by exact Hacc.
    refine (conj _ (conj _ (conj _ (conj _ _)))).
    - auto.
    - auto.
    - intros r' parsed [= <-]. tauto.
    - intros [[=] | (r' & [= <-] & Hno)]. tauto.
    - congruence. }
  rewrite bool_decide_eq_false_2 by exact Hacc.
  destruct (Api.json r) as [parsed |] eqn:Hjson.
  - refine (conj _ (conj _ (conj _ (conj _ _)))).
    + intros r' [= <-]. tauto.
    + intros r' [= <-]. congruence.
    + intros r' parsed' [= <-]. congruence.
    + intros [[=] | (r' & [= <-] & Hno)]. tauto.
    + intros Hs. right. exists r. split; [reflexivity |]. right.
      split; [exact Hok |]. split; [tauto |]. split; [tauto |]. split; [tauto |].
      exists parsed. auto.
  - refine (conj _ (conj _ (conj _ (conj _ _)))).
    + auto.
    + auto.
    + intros r' parsed' [= <-]. congruence.
    + intros [[=] | (r' & [= <-] & Hno)]. tauto.
    + congruence.
Qed.

End Duality.

(** C8, as the code has it. For the clock, mileage and edit calls: within
    2xx, a body "Accepted", an empty body or status 200 gives success without
    parsing; otherwise the body is parsed, a body that does not parse gives
    success and one that parses is returned as it is; a failure result comes
    from a network failure, a status outside 2xx, or a parsed body on a
    2xx status other than 200 that itself reports failure. *)
Theorem post_response_rule :
  (∀ techName today f,
     responseRule Api.ClockResponse.success Api.ClockResponse.error
       f (Api.clockIn techName today f))
  ∧ (∀ techName f,
       responseRule Api.ClockResponse.success Api.ClockResponse.error
         f (Api.clockOut techName f))
  ∧ (∀ techName date miles description now f,
       responseRule Api.MileageResponse.success Api.MileageResponse.error
         f (Api.submitMileage techName date miles description now f))
  ∧ (∀ techName shiftId field oldValue newValue reason f,
       responseRule Api.EditResponse.success Api.EditResponse.error
         f (Api.editEntry techName shiftId field oldValue newValue reason f)).
Proof.
  refine (conj _ (conj _ (conj _ _))); intros;
    unfold Api.clockIn, Api.clockOut, Api.submitMileage, Api.editEntry;
    apply responseRule_intro; reflexivity.
Qed.

(** The claim as the specification words it fails: a 201 answer whose body
    parses to a refusal yields a failure result, with neither a network
    failure nor a status outside 2xx. *)
Lemma post_failure_within_2xx :
  Api.ok Demo.refusal = true
  ∧ Api.clockIn "Bri" Demo.tapped (Api.Responded Demo.refusal)
    = {| Api.ClockResponse.success := false;
         Api.ClockResponse.shift_id := None;
         Api.ClockResponse.hours_worked := None;
         Api.ClockResponse.error := Some "Shift already open" |}
  ∧ ¬ (∀ techName today f,
         Api.ClockResponse.success (Api.clockIn techName today f) = false →
         f = Api.NetworkError ∨ ∃ r, f = Api.Responded r ∧ Api.ok r = false).
Proof.
  split; [reflexivity |]. split; [reflexivity |].
  intros H.
  destruct (H "Bri" Demo.tapped (Api.Responded Demo.refusal) eq_refl)
    as [Hnet | (r & [= <-] & Hok)]; discriminate.
Qed.

Lemma post_response_rule_witness :
  responseRule Api.ClockResponse.success Api.ClockResponse.error
    (Api.Responded Demo.refusal)
    (Api.clockIn "Bri" Demo.tapped (Api.Responded Demo.refusal)).
Proof. apply (proj1 post_response_rule "Bri" Demo.tapped). Defined.

(** ** The displayed week total *)

Lemma applyHistory_weekTotalHours history st :
  weekTotalHours (applyHistory history st) = Api.HistoryResponse.week_total_hours history.
Proof. reflexivity. Qed.

Lemma applyHistory_timeEntries history st :
  timeEntries (applyHistory history st)
  = timeEntryLocal <$> Api.HistoryResponse.time_entries history.
Proof. reflexivity. Qed.

(** C2, as the code has it. The displayed week total is the stored one,
    which a history load sets to the server's [week_total_hours], whenever
    that number is not zero; when it is zero or not a number, the displayed
    total is [getWeekTotal] of the time entries. *)
Theorem weekTotal_precedence (tz now : Z) (history : Api.HistoryResponse.t)
    (st : AppState) :
  let server := Api.HistoryResponse.week_total_hours history in
  let st' := applyHistory history st in
  (∀ q, server = Num q → ¬ (q == 0)%Q → weekTotal tz now st' = server)
  ∧ (server = NaN ∨ (∃ q, server = Num q ∧ (q == 0)%Q) →
     weekTotal tz now st' = getWeekTotal tz now (timeEntries st')).
Proof.
  simpl. unfold weekTotal. rewrite applyHistory_weekTotalHours. unfold JS.or. split.
  - intros q -> Hq. simpl.
    destruct (Qeq_bool q 0) eqn:E; [| reflexivity].
    apply Qeq_bool_iff in E. contradiction.
  - intros [-> | (q & -> & Hq)]; simpl; [reflexivity |].
    apply Qeq_bool_iff in Hq. rewrite Hq. reflexivity.
Qed.

Lemma weekTotal_precedence_witness :
  let server := Api.HistoryResponse.week_total_hours Demo.history in
  let st' := applyHistory Demo.history Demo.idle in
  (∀ q, server = Num q → ¬ (q == 0)%Q → weekTotal Demo.tz Demo.tapped st' = server)
  ∧ (server = NaN ∨ (∃ q, server = Num q ∧ (q == 0)%Q) →
     weekTotal Demo.tz Demo.tapped st'
     = getWeekTotal Demo.tz Demo.tapped (timeEntries st')).
Proof. apply (weekTotal_precedence Demo.tz Demo.tapped Demo.history Demo.idle). Defined.

(** The claim as the specification words it fails: the server says zero,
    the ledger adds up to 6.5, and 6.5 is displayed. *)
Lemma weekTotal_server_zero :
  let st' := applyHistory Demo.zeroTotal Demo.idle in
  weekTotalHours st' = Api.HistoryResponse.week_total_hours Demo.zeroTotal
  ∧ weekTotal Demo.tz Demo.tapped st' ≈ Num 6.5
  ∧ ¬ (weekTotal Demo.tz Demo.tapped st'
       ≈ Api.HistoryResponse.week_total_hours Demo.zeroTotal).
Proof.
  split; [reflexivity |]. split; vm_compute; [reflexivity | discriminate].
Qed.

(** ** The week total of a ledger *)

Lemma startOfWeek_local_midnight tz now :
  startOfWeek tz now
  = (weekStartDay tz now * DateJS.msPerDay + tz * DateJS.msPerMinute)%Z.
Proof.
  unfold startOfWeek, weekStartDay, DateJS.setHours, DateJS.UTC, DateJS.MakeDate,
    DateJS.MakeTime.
  lia.
Qed.

(** An entry whose date parses to midnight UTC of day [d] passes the filter
    when [d] is on or after the week's first day in a zone at or east of
    UTC, but only when [d] is strictly after it in a zone west of UTC. *)
Lemma onOrAfterWeekStart_date_only (tz now d : Z) (entry : TimeEntry.t) :
  new_Date tz (TimeEntry.date entry) = Some (d * DateJS.msPerDay)%Z →
  (-1440 < tz < 1440)%Z →
  onOrAfterWeekStart tz now entry
  = if decide (0 < tz)%Z then bool_decide (weekStartDay tz now < d)%Z
    else bool_decide (weekStartDay tz now ≤ d)%Z.
Proof.
  intros Hdate Htz. unfold onOrAfterWeekStart. rewrite Hdate.
  rewrite startOfWeek_local_midnight.
  set (w := weekStartDay tz now).
  unfold getTime, JS.of_Z, JS.geb, DateJS.msPerMinute, DateJS.msPerDay.
  destruct (Qle_bool _ _) eqn:E.
  - apply Qle_bool_iff in E. rewrite <- Zle_Qle in E.
    symmetry. case_decide; apply bool_decide_eq_true_2; lia.
  - assert (¬ (w * 86400000 + tz * 60000 ≤ d * 86400000)%Z) as Hlt.
    { intros Hle. rewrite Zle_Qle in Hle. apply Qle_bool_iff in Hle. congruence. }
    symmetry. case_decide; apply bool_decide_eq_false_2; lia.
Qed.

(** In particular the week's first day itself is kept at or east of UTC and
    dropped west of it. *)
Lemma onOrAfterWeekStart_first_day (tz now : Z) (entry : TimeEntry.t) :
  new_Date tz (TimeEntry.date entry) = Some (weekStartDay tz now * DateJS.msPerDay)%Z →
  (-1440 < tz < 1440)%Z →
  onOrAfterWeekStart tz now entry = bool_decide (tz ≤ 0)%Z.
Proof.
  intros Hdate Htz.
  rewrite (onOrAfterWeekStart_date_only tz now (weekStartDay tz now) entry Hdate Htz).
  case_decide.
  - rewrite bool_decide_eq_false_2 by lia. symmetry. apply bool_decide_eq_false_2. lia.
  - rewrite bool_decide_eq_true_2 by lia. symmetry. apply bool_decide_eq_true_2. lia.
Qed.

#[local] Instance eqv_equivalence : Equivalence JS.eqv.
Proof.
  split.
  - intros [| x]; simpl; [exact I | reflexivity].
  - intros [| x] [| y]; simpl; auto. intros H. symmetry. exact H.
  - intros [| x] [| y] [| z]; simpl; auto; try contradiction.
    intros H1 H2. transitivity y; assumption.
Qed.

#[local] Instance add_proper : Proper (JS.eqv ==> JS.eqv ==> JS.eqv) JS.add.
Proof.
  intros [| x] [| x'] Hx [| y] [| y'] Hy; simpl in *; auto.
  rewrite Hx, Hy. reflexivity.
Qed.







(** The example of the specification: seen from UTC on Wednesday 10 January
    2024, an entry of the 5th is left out and those of the 8th and 9th add
    up to 6.5. *)
Lemma getWeekTotal_example :
  getWeekTotal 0 Demo.tapped
    ({| TimeEntry.shiftId := "2024-01-05_Bri"; TimeEntry.date := "2024-01-05";
        TimeEntry.clockIn := "2024-01-05T14:00:00.000Z";
        TimeEntry.clockOut := Some "2024-01-05T22:00:00.000Z";
        TimeEntry.hoursWorked := Some (Num 8) |} :: timeEntries Demo.idle)
  ≈ Num 6.5.
Proof. vm_compute. reflexivity. Qed.

(** C3 at the failing input. In a zone five hours west of UTC, on Wednesday
    10 January 2024, the week starts on Sunday the 7th at 05:00 UTC; a
    finished 2.5-hour shift dated the 7th, which [getDayName] shows as a
    Sunday, counts for nothing, while the same ledger totals 2.5 under UTC. *)
Lemma getWeekTotal_drops_week_start_day :
  Iso.toISOString (startOfWeek 300 Demo.tapped) = "2024-01-07T05:00:00.000Z"
  ∧ new_Date 300 (TimeEntry.date Demo.sundayShift)
    = Some (weekStartDay 300 Demo.tapped * DateJS.msPerDay)%Z
  ∧ getDayName 300 (TimeEntry.date Demo.sundayShift) = "Sun"
  ∧ getWeekTotal 300 Demo.tapped [Demo.sundayShift] ≈ Num 0
  ∧ getWeekTotal 0 Demo.tapped [Demo.sundayShift] ≈ Num 2.5.
Proof.
  refine (conj _ (conj _ (conj _ (conj _ _)))); vm_compute; reflexivity.
Qed.

(** * Further properties *)

(** ** One call in flight *)

Lemma count_nil {A} (f : A → bool) : count f [] = 0%nat.
Proof. reflexivity. Qed.





















(** ** Calendar arithmetic *)

Lemma civil_inverse z y m d :
  DateJS.civil_from_days z = (y, m, d) →
  DateJS.days_from_civil y m d = z ∧ (1 ≤ m ≤ 12)%Z ∧ (1 ≤ d)%Z.
Proof.
  unfold DateJS.civil_from_days, DateJS.days_from_civil. intros [= <- <- <-].
  repeat case_decide; Z.div_mod_to_equations; lia.
Qed.

Lemma civil_day_in_month z y m d :
  DateJS.civil_from_days z = (y, m, d) → (d ≤ DateJS.DaysInMonth y m)%Z.
Proof.
  unfold DateJS.civil_from_days, DateJS.DaysInMonth, DateJS.is_leap.
  intros [= <- <- <-].
  repeat (case_decide || case_bool_decide); Z.div_mod_to_equations; lia.
Qed.

Lemma civil_year_range z y m d :
  DateJS.civil_from_days z = (y, m, d) →
  (-719528 ≤ z < 2932897)%Z → (0 ≤ y ≤ 9999)%Z.
Proof.
  unfold DateJS.civil_from_days. intros [= <- <- <-] Hz.
  repeat case_decide; Z.div_mod_to_equations; lia.
Qed.

Lemma days_from_civil_shift y m d k :
  DateJS.days_from_civil y m (d + k) = (DateJS.days_from_civil y m d + k)%Z.
Proof. unfold DateJS.days_from_civil. lia. Qed.

Lemma weekStartDay_eq tz now :
  weekStartDay tz now
  = (DateJS.Day (DateJS.LocalTime tz now) - DateJS.WeekDay (DateJS.LocalTime tz now))%Z.
Proof.
  unfold weekStartDay, DateJS.setDate, DateJS.getDate, DateJS.getDay.
  destruct (DateJS.civil_from_days (DateJS.Day (DateJS.LocalTime tz now)))
    as [[y m] d] eqn:E.
  destruct (civil_inverse _ _ _ _ E) as (Hd & _ & _).
  replace (d - DateJS.WeekDay (DateJS.LocalTime tz now))%Z
    with (d + - DateJS.WeekDay (DateJS.LocalTime tz now))%Z by lia.
  rewrite days_from_civil_shift, Hd.
  unfold DateJS.LocalTime, DateJS.UTC, DateJS.MakeDate, DateJS.Day, DateJS.TimeWithinDay,
    DateJS.msPerDay, DateJS.msPerMinute.
  Z.div_mod_to_equations; lia.
Qed.

(** X3. The week [getWeekTotal] and the home screen's chips start with is
    the one that contains [now] in local time: its first instant is a local
    midnight, on a Sunday, at most seven days back and never after [now]. *)
Theorem startOfWeek_most_recent_sunday (tz now : Z) :
  DateJS.getDay tz (startOfWeek tz now) = 0%Z
  ∧ DateJS.TimeWithinDay (DateJS.LocalTime tz (startOfWeek tz now)) = 0%Z
  ∧ (startOfWeek tz now ≤ now < startOfWeek tz now + 7 * DateJS.msPerDay)%Z.
Proof.
  rewrite startOfWeek_local_midnight, weekStartDay_eq.
  unfold DateJS.getDay, DateJS.WeekDay, DateJS.LocalTime, DateJS.Day, DateJS.TimeWithinDay,
    DateJS.msPerDay, DateJS.msPerMinute.
  refine (conj _ (conj _ _)); Z.div_mod_to_equations; lia.
Qed.

(** ** Digits *)

Lemma append_assoc (a b c : string) : (a +:+ b) +:+ c = a +:+ (b +:+ c).
Proof.
  induction a as [| x a IH]; [reflexivity |].
  change (String x ((a +:+ b) +:+ c) = String x (a +:+ (b +:+ c))).
  f_equal. exact IH.
Qed.

Lemma digit_of_digit_char (n : Z) : Iso.digit_of (Iso.digit_char n) = Some (n `mod` 10)%Z.
Proof.
  unfold Iso.digit_of, Iso.digit_char.
  assert (0 ≤ n `mod` 10 < 10)%Z as H by (apply Z.mod_pos_bound; lia).
  rewrite N_ascii_embedding by lia.
  rewrite Z2N.id by lia.
  rewrite decide_True by lia. f_equal. lia.
Qed.

Lemma fixed_digits_snoc k n rest :
  Iso.fixed_digits (S k) n +:+ rest
  = Iso.fixed_digits k (n `div` 10) +:+ String (Iso.digit_char n) rest.
Proof.
  change (Iso.fixed_digits (S k) n)
    with (Iso.fixed_digits k (n `div` 10) +:+ String (Iso.digit_char n) "").
  rewrite append_assoc. reflexivity.
Qed.

Lemma take_digits_fixed k j acc n rest :
  Iso.take_digits (k + j) acc (Iso.fixed_digits k n +:+ rest)
  = Iso.take_digits j (acc * 10 ^ Z.of_nat k + n `mod` 10 ^ Z.of_nat k)%Z rest.
Proof.
  revert j acc n rest. induction k as [| k IH]; intros j acc n rest.
  - simpl. f_equal. rewrite Z.mod_1_r. lia.
  - rewrite fixed_digits_snoc.
    replace (S k + j)%nat with (k + S j)%nat by lia.
    rewrite IH. cbn [Iso.take_digits]. rewrite digit_of_digit_char. simpl.
    f_equal.
    rewrite Nat2Z.inj_succ, Z.pow_succ_r by lia.
    set (p := (10 ^ Z.of_nat k)%Z).
    assert (0 < p)%Z by (apply Z.pow_pos_nonneg; lia).
    assert (n `mod` (10 * p) = 10 * ((n `div` 10) `mod` p) + n `mod` 10)%Z as ->.
    { rewrite Z.rem_mul_r by lia. lia. }
    lia.
Qed.

Lemma take_digits_fixed_exact k n rest :
  (0 ≤ n < 10 ^ Z.of_nat k)%Z →
  Iso.take_digits k 0 (Iso.fixed_digits k n +:+ rest) = Some (n, rest).
Proof.
  intros Hn. pose proof (take_digits_fixed k 0 0 n rest) as H.
  rewrite Nat.add_0_r in H. rewrite H. simpl. f_equal. f_equal.
  rewrite Z.mod_small by lia. lia.
Qed.

(** ** Stamps read back *)

Lemma expect_here (c : ascii) (rest : string) :
  Iso.expect c (String c "" +:+ rest) = Some rest.
Proof.
  change (String c "" +:+ rest) with (String c rest).
  unfold Iso.expect. rewrite decide_True by reflexivity. reflexivity.
Qed.

Lemma expect_other (c c' : ascii) (rest : string) :
  c ≠ c' → Iso.expect c (String c' rest) = None.
Proof. intros H. unfold Iso.expect. rewrite decide_False by exact H. reflexivity. Qed.

(** A date part followed by something that is not a hyphen. *)
Lemma parse_date_fixed (y m d : Z) (rest : string) :
  (0 ≤ y ≤ 9999)%Z → (0 ≤ m ≤ 99)%Z → (0 ≤ d ≤ 99)%Z →
  Iso.parse_date (Iso.fixed_digits 4 y +:+ "-" +:+ Iso.fixed_digits 2 m +:+ "-"
                  +:+ Iso.fixed_digits 2 d +:+ rest)
  = Some (y, m, d, rest).
Proof.
  intros Hy Hm Hd. unfold Iso.parse_date.
  rewrite take_digits_fixed_exact by (simpl; lia).
  cbn [mbind option_bind]. rewrite expect_here.
  rewrite take_digits_fixed_exact by (simpl; lia).
  cbn [mbind option_bind]. rewrite expect_here.
  rewrite take_digits_fixed_exact by (simpl; lia).
  reflexivity.
Qed.

Lemma stampRange_day t : stampRange t → (-719528 ≤ DateJS.Day t < 2932897)%Z.
Proof.
  unfold stampRange, DateJS.Day, DateJS.msPerDay. intros H.
  Z.div_mod_to_equations; lia.
Qed.

Lemma toISOString_fixed t y m d :
  stampRange t → DateJS.civil_from_days (DateJS.Day t) = (y, m, d) →
  let w := DateJS.TimeWithinDay t in
  Iso.toISOString t
  = Iso.fixed_digits 4 y +:+ "-" +:+ Iso.fixed_digits 2 m +:+ "-"
    +:+ Iso.fixed_digits 2 d +:+ "T"
    +:+ Iso.fixed_digits 2 (w `div` DateJS.msPerHour) +:+ ":"
    +:+ Iso.fixed_digits 2 ((w `mod` DateJS.msPerHour) `div` DateJS.msPerMinute) +:+ ":"
    +:+ Iso.fixed_digits 2 ((w `mod` DateJS.msPerMinute) `div` 1000) +:+ "."
    +:+ Iso.fixed_digits 3 (w `mod` 1000) +:+ "Z".
Proof.
  intros Ht E w. unfold Iso.toISOString. rewrite E.
  pose proof (civil_year_range _ _ _ _ E (stampRange_day t Ht)) as Hy.
  rewrite decide_True by exact Hy.
  reflexivity.
Qed.

Lemma string_cons (c : ascii) (rest : string) : String c "" +:+ rest = String c rest.
Proof. reflexivity. Qed.

Lemma parse_seconds_fixed (sec ms : Z) :
  (0 ≤ sec ≤ 99)%Z → (0 ≤ ms ≤ 999)%Z →
  Iso.parse_seconds (":" +:+ Iso.fixed_digits 2 sec +:+ "." +:+ Iso.fixed_digits 3 ms
                     +:+ "Z")
  = Some (sec, ms, "Z").
Proof.
  intros Hs Hms. unfold Iso.parse_seconds. rewrite expect_here.
  rewrite take_digits_fixed_exact by (simpl; lia).
  cbn [mbind option_bind]. rewrite expect_here.
  rewrite take_digits_fixed_exact by (simpl; lia).
  reflexivity.
Qed.

Lemma parse_toISOString (tz t : Z) :
  stampRange t → Iso.parse tz (Iso.toISOString t) = Some t.
Proof.
  intros Ht.
  destruct (DateJS.civil_from_days (DateJS.Day t)) as [[y m] d] eqn:E.
  rewrite (toISOString_fixed t y m d Ht E). cbv zeta.
  pose proof (civil_year_range _ _ _ _ E (stampRange_day t Ht)) as Hy.
  destruct (civil_inverse _ _ _ _ E) as (Hday & Hm & Hd1).
  pose proof (civil_day_in_month _ _ _ _ E) as Hd2.
  assert (DateJS.DaysInMonth y m ≤ 31)%Z as Hdim.
  { unfold DateJS.DaysInMonth. repeat case_decide; destruct (DateJS.is_leap y); lia. }
  assert (t = DateJS.Day t * 86400000 + DateJS.TimeWithinDay t)%Z as Ht'.
  { unfold DateJS.Day, DateJS.TimeWithinDay, DateJS.msPerDay.
    Z.div_mod_to_equations; lia. }
  set (w := DateJS.TimeWithinDay t) in *.
  assert (0 ≤ w < 86400000)%Z as Hw.
  { unfold w, DateJS.TimeWithinDay, DateJS.msPerDay. apply Z.mod_pos_bound. lia. }
  unfold DateJS.msPerHour, DateJS.msPerMinute.
  set (hh := (w `div` 3600000)%Z).
  set (mi := ((w `mod` 3600000) `div` 60000)%Z).
  set (ss := ((w `mod` 60000) `div` 1000)%Z).
  set (ms := (w `mod` 1000)%Z).
  assert (0 ≤ hh ≤ 23 ∧ 0 ≤ mi ≤ 59 ∧ 0 ≤ ss ≤ 59 ∧ 0 ≤ ms ≤ 999
          ∧ hh * 3600000 + mi * 60000 + ss * 1000 + ms = w)%Z as (Hh & Hmi & Hss & Hms & Hsum).
  { unfold hh, mi, ss, ms. Z.div_mod_to_equations; lia. }
  unfold Iso.parse.
  rewrite parse_date_fixed by lia.
  cbn [mbind option_bind].
  rewrite option_guard_True by lia. cbn [mbind option_bind].
  rewrite (string_cons "T"). cbv iota. rewrite <- (string_cons "T"), expect_here.
  cbn [mbind option_bind].
  rewrite take_digits_fixed_exact by (simpl; lia).
  cbn [mbind option_bind]. rewrite expect_here. cbn [mbind option_bind].
  rewrite take_digits_fixed_exact by (simpl; lia).
  cbn [mbind option_bind]. rewrite parse_seconds_fixed by lia.
  cbn [mbind option_bind Iso.parse_offset].
  rewrite option_guard_True by (unfold Iso.valid_time; lia).
  cbn [mbind option_bind]. f_equal.
  rewrite Hday.
  unfold DateJS.MakeDate, DateJS.MakeTime, DateJS.msPerDay, DateJS.msPerHour,
    DateJS.msPerMinute.
  lia.
Qed.

(** ** The date and the weekday of an entry *)

Lemma digit_char_not_T (n : Z) : Iso.digit_char n ≠ "T"%char.
Proof.
  unfold Iso.digit_char. intros H.
  assert (0 ≤ n `mod` 10 < 10)%Z as Hn by (apply Z.mod_pos_bound; lia).
  apply (f_equal N_of_ascii) in H.
  rewrite N_ascii_embedding in H by lia.
  simpl in H. lia.
Qed.

Lemma before_T_cons (c : ascii) (rest : string) :
  c ≠ "T"%char → Iso.before_T (String c rest) = String c (Iso.before_T rest).
Proof. intros H. cbn [Iso.before_T]. rewrite decide_False by exact H. reflexivity. Qed.

Lemma before_T_fixed (k : nat) (n : Z) (rest : string) :
  Iso.before_T (Iso.fixed_digits k n +:+ rest)
  = Iso.fixed_digits k n +:+ Iso.before_T rest.
Proof.
  revert n rest. induction k as [| k IH]; intros n rest; [reflexivity |].
  rewrite !fixed_digits_snoc, IH.
  rewrite before_T_cons by apply digit_char_not_T. reflexivity.
Qed.

Lemma append_empty (s : string) : s +:+ "" = s.
Proof.
  induction s as [| c s IH]; [reflexivity |].
  change (String c (s +:+ "") = String c s). f_equal. exact IH.
Qed.

Lemma formatDate_fixed t y m d :
  stampRange t → DateJS.civil_from_days (DateJS.Day t) = (y, m, d) →
  formatDate t
  = Iso.fixed_digits 4 y +:+ "-" +:+ Iso.fixed_digits 2 m +:+ "-"
    +:+ Iso.fixed_digits 2 d.
Proof.
  intros Ht E. unfold formatDate. rewrite (toISOString_fixed t y m d Ht E). cbv zeta.
  rewrite before_T_fixed, (string_cons "-"), before_T_cons by discriminate.
  rewrite before_T_fixed, (string_cons "-"), before_T_cons by discriminate.
  rewrite before_T_fixed, (string_cons "T"). cbn [Iso.before_T].
  rewrite decide_True by reflexivity.
  rewrite append_empty. reflexivity.
Qed.

Lemma civil_fields t y m d :
  stampRange t → DateJS.civil_from_days (DateJS.Day t) = (y, m, d) →
  (0 ≤ y ≤ 9999)%Z ∧ (1 ≤ m ≤ 12)%Z ∧ (1 ≤ d ≤ DateJS.DaysInMonth y m)%Z
  ∧ (d ≤ 31)%Z ∧ DateJS.days_from_civil y m d = DateJS.Day t.
Proof.
  intros Ht E.
  pose proof (civil_year_range _ _ _ _ E (stampRange_day t Ht)) as Hy.
  destruct (civil_inverse _ _ _ _ E) as (Hday & Hm & Hd1).
  pose proof (civil_day_in_month _ _ _ _ E) as Hd2.
  assert (DateJS.DaysInMonth y m ≤ 31)%Z as Hdim.
  { unfold DateJS.DaysInMonth. repeat case_decide; destruct (DateJS.is_leap y); lia. }
  repeat split; try lia; assumption.
Qed.

(** The date an entry is stamped with reads back as midnight UTC of the
    day of the stamp. *)
Lemma new_Date_formatDate (tz t : Z) :
  stampRange t → new_Date tz (formatDate t) = Some (DateJS.Day t * DateJS.msPerDay)%Z.
Proof.
  intros Ht. unfold new_Date.
  destruct (DateJS.civil_from_days (DateJS.Day t)) as [[y m] d] eqn:E.
  destruct (civil_fields t y m d Ht E) as (Hy & Hm & Hd & Hd31 & Hday).
  rewrite (formatDate_fixed t y m d Ht E).
  rewrite <- (append_empty (Iso.fixed_digits 2 d)).
  unfold Iso.parse. rewrite parse_date_fixed by lia.
  cbn [mbind option_bind].
  rewrite option_guard_True by lia. cbn [mbind option_bind].
  rewrite Hday. unfold DateJS.MakeDate. f_equal. lia.
Qed.

Lemma new_Date_noon (tz t : Z) :
  stampRange t →
  new_Date tz (formatDate t +:+ "T12:00:00")
  = Some (DateJS.UTC tz (DateJS.Day t * DateJS.msPerDay + 43200000))%Z.
Proof.
  intros Ht. unfold new_Date.
  destruct (DateJS.civil_from_days (DateJS.Day t)) as [[y m] d] eqn:E.
  destruct (civil_fields t y m d Ht E) as (Hy & Hm & Hd & Hd31 & Hday).
  rewrite (formatDate_fixed t y m d Ht E).
  rewrite !append_assoc.
  unfold Iso.parse. rewrite parse_date_fixed by lia.
  cbn [mbind option_bind].
  rewrite option_guard_True by lia. cbn [mbind option_bind].
  rewrite Hday. reflexivity.
Qed.

Lemma getDayName_formatDate (tz t : Z) :
  stampRange t → getDayName tz (formatDate t) = weekday_short (DateJS.WeekDay t).
Proof.
  intros Ht. unfold getDayName. rewrite (new_Date_noon tz t Ht).
  f_equal.
  unfold DateJS.getDay, DateJS.WeekDay, DateJS.LocalTime, DateJS.UTC, DateJS.Day,
    DateJS.msPerDay, DateJS.msPerMinute.
  Z.div_mod_to_equations; lia.
Qed.

(** Reading a prefix: what follows the digits is carried along. *)
Lemma take_digits_append k acc s v s' r :
  Iso.take_digits k acc s = Some (v, s') →
  Iso.take_digits k acc (s +:+ r) = Some (v, s' +:+ r).
Proof.
  revert acc s. induction k as [| k IH]; intros acc s H.
  - simpl in H. injection H as <- <-. reflexivity.
  - destruct s as [| c s]; [discriminate |].
    change (String c s +:+ r) with (String c (s +:+ r)).
    cbn [Iso.take_digits] in *.
    destruct (Iso.digit_of c) as [dg |]; [| discriminate].
    cbn [mbind option_bind] in *. apply IH. exact H.
Qed.

Lemma expect_append c s s' r :
  Iso.expect c s = Some s' → Iso.expect c (s +:+ r) = Some (s' +:+ r).
Proof.
  destruct s as [| c' s]; [discriminate |].
  change (String c' s +:+ r) with (String c' (s +:+ r)).
  unfold Iso.expect. case_decide; [| discriminate]. intros [= <-]. reflexivity.
Qed.

Lemma expect_append_none c s c' r :
  Iso.expect c s = None → c ≠ c' →
  Iso.expect c (s +:+ String c' r) = None.
Proof.
  destruct s as [| c'' s].
  - intros _ H. apply expect_other. exact H.
  - change (String c'' s +:+ String c' r) with (String c'' (s +:+ String c' r)).
    unfold Iso.expect. case_decide; [discriminate | reflexivity].
Qed.

Lemma parse_date_append s y m d c r :
  Iso.parse_date s = Some (y, m, d, "") → "-"%char ≠ c →
  Iso.parse_date (s +:+ String c r) = Some (y, m, d, String c r).
Proof.
  unfold Iso.parse_date. intros H Hc.
  destruct (Iso.take_digits 4 0 s) as [[y' s1] |] eqn:E1; [| discriminate].
  rewrite (take_digits_append _ _ _ _ _ (String c r) E1).
  cbn [mbind option_bind] in *.
  destruct (Iso.expect "-" s1) as [s2 |] eqn:E2.
  2:{ injection H as <- <- <- ->. rewrite (expect_append_none _ _ _ _ E2 Hc). reflexivity. }
  rewrite (expect_append _ _ _ (String c r) E2).
  destruct (Iso.take_digits 2 0 s2) as [[m' s3] |] eqn:E3; [| discriminate].
  rewrite (take_digits_append _ _ _ _ _ (String c r) E3).
  cbn [mbind option_bind] in *.
  destruct (Iso.expect "-" s3) as [s4 |] eqn:E4.
  2:{ injection H as <- <- <- ->. rewrite (expect_append_none _ _ _ _ E4 Hc). reflexivity. }
  rewrite (expect_append _ _ _ (String c r) E4).
  destruct (Iso.take_digits 2 0 s4) as [[d' s5] |] eqn:E5; [| discriminate].
  rewrite (take_digits_append _ _ _ _ _ (String c r) E5).
  cbn [mbind option_bind] in *. injection H as <- <- <- ->. reflexivity.
Qed.

Lemma new_Date_dateOnly tz s y m d :
  dateOnly s y m d →
  new_Date tz s = Some (DateJS.days_from_civil y m d * DateJS.msPerDay)%Z.
Proof.
  intros (Hp & Hm & Hd). unfold new_Date, Iso.parse. rewrite Hp.
  cbn [mbind option_bind]. rewrite option_guard_True by lia.
  cbn [mbind option_bind]. unfold DateJS.MakeDate. f_equal. lia.
Qed.

(** X4. A date-only string [YYYY-MM-DD] of an existing day is read as that
    day's midnight UTC, and [getDayName] gives the weekday of that calendar
    day in every time zone: the noon it appends keeps the local reading on
    the same day. *)
Theorem getDayName_calendar_weekday (tz : Z) (s : string) (y m d : Z) :
  dateOnly s y m d →
  new_Date tz s = Some (DateJS.days_from_civil y m d * DateJS.msPerDay)%Z
  ∧ getDayName tz s
    = weekday_short (DateJS.WeekDay (DateJS.days_from_civil y m d * DateJS.msPerDay)).
Proof.
  intros Hdate. split; [apply new_Date_dateOnly, Hdate |].
  destruct Hdate as (Hp & Hm & Hd). unfold getDayName, new_Date, Iso.parse.
  change "T12:00:00" with (String "T" "12:00:00").
  rewrite (parse_date_append s y m d "T" "12:00:00" Hp) by discriminate.
  cbn [mbind option_bind]. rewrite option_guard_True by lia.
  cbn [mbind option_bind].
  change (Iso.expect "T" (String "T" "12:00:00")) with (Some "12:00:00").
  cbn [mbind option_bind].
  change (Iso.take_digits 2 0 "12:00:00") with (Some (12%Z, ":00:00")).
  cbn [mbind option_bind].
  change (Iso.expect ":" ":00:00") with (Some "00:00").
  cbn [mbind option_bind].
  change (Iso.take_digits 2 0 "00:00") with (Some (0%Z, ":00")).
  cbn [mbind option_bind].
  change (Iso.parse_seconds ":00") with (Some (0%Z, 0%Z, "")).
  cbn [mbind option_bind Iso.parse_offset].
  rewrite option_guard_True by (unfold Iso.valid_time; lia).
  cbn [mbind option_bind]. f_equal.
  unfold DateJS.getDay, DateJS.WeekDay, DateJS.LocalTime, DateJS.UTC, DateJS.Day,
    DateJS.MakeDate, DateJS.MakeTime, DateJS.msPerDay, DateJS.msPerHour, DateJS.msPerMinute.
  Z.div_mod_to_equations; lia.
Qed.

Lemma getDayName_calendar_weekday_witness :
  new_Date Demo.tz "2024-01-10"
  = Some (DateJS.days_from_civil 2024 1 10 * DateJS.msPerDay)%Z
  ∧ getDayName Demo.tz "2024-01-10"
    = weekday_short (DateJS.WeekDay (DateJS.days_from_civil 2024 1 10 * DateJS.msPerDay)).
Proof.
  apply (getDayName_calendar_weekday Demo.tz "2024-01-10" 2024 1 10).
  unfold dateOnly. refine (conj _ (conj _ _)).
  - vm_compute. reflexivity.
  - lia.
  - vm_compute. split; discriminate.
Defined.

(** X5. An entry is dated by the UTC day of its stamp: the date the page
    writes reads back as that day's midnight UTC, and its chip shows that
    day's weekday in every time zone, whatever the local day was when the
    stamp was taken. *)
Theorem entry_date_is_utc_day (tz t : Z) :
  stampRange t →
  new_Date tz (formatDate t) = Some (DateJS.Day t * DateJS.msPerDay)%Z
  ∧ getDayName tz (formatDate t) = weekday_short (DateJS.WeekDay t).
Proof.
  intros Ht. split; [apply new_Date_formatDate | apply getDayName_formatDate]; exact Ht.
Qed.

Lemma entry_date_is_utc_day_witness :
  new_Date Demo.tz (formatDate Demo.pastMidnight)
  = Some (DateJS.Day Demo.pastMidnight * DateJS.msPerDay)%Z
  ∧ getDayName Demo.tz (formatDate Demo.pastMidnight)
    = weekday_short (DateJS.WeekDay Demo.pastMidnight).
Proof.
  apply (entry_date_is_utc_day Demo.tz Demo.pastMidnight).
  unfold stampRange, Demo.pastMidnight. lia.
Defined.

(** ** Hours between two stamps *)

Lemma Qfloor_fraction (n : Z) (d : positive) : Qfloor (n # d) = (n `div` Zpos d)%Z.
Proof. reflexivity. Qed.

Lemma quarter_rounding (a b : Z) :
  Qfloor ((inject_Z b - inject_Z a) / inject_Z (1000 * 60 * 60) * inject_Z 4 + (1 # 2))
  = ((2 * (b - a) + 900000) `div` 1800000)%Z.
Proof.
  rewrite <- (Qfloor_fraction (2 * (b - a) + 900000) 1800000).
  apply Qfloor_comp.
  unfold Qeq, Qplus, Qmult, Qdiv, Qminus, Qopp, Qinv, Qplus, inject_Z. simpl. lia.
Qed.

Lemma calculateHoursWorked_toISOString (tz t1 t2 : Z) :
  stampRange t1 → stampRange t2 →
  calculateHoursWorked tz (Iso.toISOString t1) (Iso.toISOString t2)
  = Num (inject_Z ((2 * (t2 - t1) + 900000) `div` 1800000) / inject_Z 4).
Proof.
  intros H1 H2.
  rewrite (calculateHoursWorked_valid tz _ _ t1 t2
             (parse_toISOString tz t1 H1) (parse_toISOString tz t2 H2)).
  rewrite quarter_rounding. reflexivity.
Qed.

(** X6. The stamps the page itself writes ([toISOString] of the clock
    reading) read back as the same instants in every time zone, so the hours
    between two of them are never [NaN]: they are the elapsed milliseconds
    rounded to the nearest quarter of an hour, halves upwards. *)
Theorem calculateHoursWorked_stamps (tz t1 t2 : Z) :
  stampRange t1 → stampRange t2 →
  new_Date tz (Iso.toISOString t1) = Some t1
  ∧ new_Date tz (Iso.toISOString t2) = Some t2
  ∧ calculateHoursWorked tz (Iso.toISOString t1) (Iso.toISOString t2)
    = Num (inject_Z ((2 * (t2 - t1) + 900000) `div` 1800000) / inject_Z 4).
Proof.
  intros H1 H2. refine (conj _ (conj _ _)).
  - apply parse_toISOString, H1.
  - apply parse_toISOString, H2.
  - apply calculateHoursWorked_toISOString; assumption.
Qed.

Lemma calculateHoursWorked_stamps_witness :
  new_Date Demo.tz (Iso.toISOString Demo.opened) = Some Demo.opened
  ∧ new_Date Demo.tz (Iso.toISOString Demo.tapped) = Some Demo.tapped
  ∧ calculateHoursWorked Demo.tz (Iso.toISOString Demo.opened)
      (Iso.toISOString Demo.tapped)
    = Num (inject_Z ((2 * (Demo.tapped - Demo.opened) + 900000) `div` 1800000)
           / inject_Z 4).
Proof.
  apply (calculateHoursWorked_stamps Demo.tz Demo.opened Demo.tapped);
    unfold stampRange, Demo.opened, Demo.tapped; lia.
Defined.

(** ** A shift from clock-in to clock-out *)

Lemma handleClockIn_success_state now today f st user :
  currentUser st = Some user → user ≠ "" → isButtonDisabled st = false →
  Api.ClockResponse.success (Api.clockIn user today f) = true →
  let entry := openedEntry user now (Api.clockIn user today f) in
  let st' := handleClockIn now today f st in
  timeEntries st'
  = entry :: filter (λ e, TimeEntry.shiftId e ≠ TimeEntry.shiftId entry) (timeEntries st)
  ∧ clockState st' = {| ClockState.isClockedIn := true;
                        ClockState.clockInTime := Some (Iso.toISOString now) |}
  ∧ currentUser st' = Some user
  ∧ weekTotalHours st' = weekTotalHours st
  ∧ mileageEntries st' = mileageEntries st.
Proof.
  intros Hu Hne Hb Hs. unfold handleClockIn.
  rewrite (handleClockIn_begin_runs now st user Hu Hne Hb).
  unfold handleClockIn_resume. rewrite Hs. simpl. auto.
Qed.

Lemma toISOString_nonempty t : stampRange t → Iso.toISOString t ≠ "".
Proof.
  intros Ht H. pose proof (parse_toISOString 0 t Ht) as Hp.
  rewrite H in Hp. discriminate Hp.
Qed.

(** X7. A clock-in followed, on the same UTC day, by a clock-out, both
    answered with success: the entry the clock-in put at the head of the
    ledger is the one the clock-out closes, with the server's hours or else
    the quarter-hour rounding of the elapsed time; the rest of the ledger is
    what the clock-in left, the session ends clocked out and the stored week
    total grows by the same hours. *)
Theorem clockIn_then_clockOut (tz now1 today now2 : Z)
    (f1 f2 : Api.FetchResult Api.ClockResponse.t) (st : AppState) (user : string) :
  currentUser st = Some user → user ≠ "" → isButtonDisabled st = false →
  stampRange now1 → stampRange now2 → formatDate now1 = formatDate now2 →
  Api.ClockResponse.success (Api.clockIn user today f1) = true →
  Api.ClockResponse.success (Api.clockOut user f2) = true →
  let entry := openedEntry user now1 (Api.clockIn user today f1) in
  let hours :=
    JS.nullish (Api.ClockResponse.hours_worked (Api.clockOut user f2))
      (Num (inject_Z ((2 * (now2 - now1) + 900000) `div` 1800000) / inject_Z 4)) in
  let st1 := fire EnableButton (handleClockIn now1 today f1 st) in
  let st2 := handleClockOut tz now2 f2 st1 in
  timeEntries st2
  = closeEntry (Iso.toISOString now2) hours entry
    :: filter (λ e, TimeEntry.shiftId e ≠ TimeEntry.shiftId entry) (timeEntries st)
  ∧ clockState st2 = clockedOut
  ∧ weekTotalHours st2 = JS.add (weekTotalHours st) hours.
Proof.
  intros Hu Hne Hb H1 H2 Hday Hs1 Hs2. cbv zeta.
  destruct (handleClockIn_success_state now1 today f1 st user Hu Hne Hb Hs1)
    as (Hentries & Hclock & Huser & Htotal & _).
  set (st1 := fire EnableButton (handleClockIn now1 today f1 st)).
  assert (currentUser st1 = Some user) as Hu1 by exact Huser.
  assert (isButtonDisabled st1 = false) as Hb1 by reflexivity.
  assert (ClockState.clockInTime (clockState st1) = Some (Iso.toISOString now1)) as Ht1.
  { unfold st1. rewrite fire_clockState, Hclock. reflexivity. }
  destruct (handleClockOut_success_state tz now2 f2 st1 user (Iso.toISOString now1)
              Hu1 Hne Hb1 Ht1 (toISOString_nonempty now1 H1) Hs2) as [He Hw].
  cbv zeta in He, Hw.
  assert (confirmedHours tz now2 (Iso.toISOString now1) (Api.clockOut user f2)
          = JS.nullish (Api.ClockResponse.hours_worked (Api.clockOut user f2))
              (Num (inject_Z ((2 * (now2 - now1) + 900000) `div` 1800000) / inject_Z 4)))
    as Hhours.
  { unfold confirmedHours, JS.nullish.
    rewrite (calculateHoursWorked_toISOString tz now1 now2 H1 H2). reflexivity. }
  rewrite Hhours in He, Hw.
  split; [| split].
  - rewrite He.
    assert (timeEntries st1 = timeEntries (handleClockIn now1 today f1 st)) as ->
      by reflexivity.
    rewrite Hentries.
    rewrite (closeOpenEntry_found now2 _ _ _ 0%nat
               (openedEntry user now1 (Api.clockIn user today f1))).
    + reflexivity.
    + reflexivity.
    + split; [exact Hday | reflexivity].
    + intros j e _ Hj. lia.
  - unfold handleClockOut.
    destruct (handleClockOut_begin_runs tz now2 st1 user Hu1 Hne Hb1) as (h & -> & _).
    unfold handleClockOut_resume. rewrite Hs2. reflexivity.
  - rewrite Hw. f_equal. exact Htotal.
Qed.

Lemma clockIn_then_clockOut_witness :
  let entry :=
    openedEntry "Bri" Demo.opened (Api.clockIn "Bri" Demo.opened Demo.acceptedReply) in
  let st2 :=
    handleClockOut Demo.tz Demo.tapped Demo.confirmed
      (fire EnableButton
         (handleClockIn Demo.opened Demo.opened Demo.acceptedReply More.fresh)) in
  timeEntries st2 = [closeEntry (Iso.toISOString Demo.tapped) (Num 4.5) entry]
  ∧ clockState st2 = clockedOut
  ∧ weekTotalHours st2 = JS.add (Num 0) (Num 4.5).
Proof.
  apply (clockIn_then_clockOut Demo.tz Demo.opened Demo.opened Demo.tapped
           Demo.acceptedReply Demo.confirmed More.fresh "Bri").
  - reflexivity.
  - discriminate.
  - reflexivity.
  - unfold stampRange, Demo.opened. lia.
  - unfold stampRange, Demo.tapped. lia.
  - vm_compute. reflexivity.
  - reflexivity.
  - reflexivity.
Defined.

(** ** The ledger after a clock-in *)

(** X8. After a successful clock-in the new entry heads the ledger and is
    the only one under its shift id: entries that carried that id are
    dropped, entries under other ids are kept in order, and a ledger without
    duplicate ids stays without. *)
Theorem handleClockIn_success_ledger (now today : Z)
    (f : Api.FetchResult Api.ClockResponse.t) (st : AppState) (user : string) :
  currentUser st = Some user → user ≠ "" → isButtonDisabled st = false →
  Api.ClockResponse.success (Api.clockIn user today f) = true →
  let entry := openedEntry user now (Api.clockIn user today f) in
  let ledger := timeEntries (handleClockIn now today f st) in
  ledger !! 0%nat = Some entry
  ∧ filter (λ e, TimeEntry.shiftId e = TimeEntry.shiftId entry) ledger = [entry]
  ∧ (∀ id, id ≠ TimeEntry.shiftId entry →
           filter (λ e, TimeEntry.shiftId e = id) ledger
           = filter (λ e, TimeEntry.shiftId e = id) (timeEntries st))
  ∧ (NoDup (TimeEntry.shiftId <$> timeEntries st) →
     NoDup (TimeEntry.shiftId <$> ledger)).
Proof.
  intros Hu Hne Hb Hs. cbv zeta.
  destruct (handleClockIn_success_state now today f st user Hu Hne Hb Hs)
    as (-> & _).
  set (entry := openedEntry user now (Api.clockIn user today f)).
  set (prev := timeEntries st).
  refine (conj _ (conj _ (conj _ _))).
  - reflexivity.
  - rewrite filter_cons_True by reflexivity. f_equal.
    induction prev as [| e prev IH]; [reflexivity |].
    rewrite filter_cons. case_decide as He.
    + rewrite filter_cons_False by (intros H; contradiction). exact IH.
    + exact IH.
  - intros id Hid. rewrite filter_cons_False by (intros H; congruence).
    induction prev as [| e prev IH]; [reflexivity |].
    rewrite !filter_cons. case_decide as He.
    + rewrite filter_cons. case_decide; [f_equal |]; exact IH.
    + rewrite decide_False by congruence. exact IH.
  - intros Hnd. rewrite fmap_cons. apply NoDup_cons. split.
    + intros Hin. apply list_elem_of_fmap in Hin as (e & Heq & Hin).
      apply list_elem_of_filter in Hin as [Hne' _]. congruence.
    + clear -Hnd. induction prev as [| e prev IH]; [constructor |].
      rewrite fmap_cons in Hnd. apply NoDup_cons in Hnd as [Hnotin Hnd].
      rewrite filter_cons. case_decide.
      * rewrite fmap_cons. apply NoDup_cons. split; [| apply IH, Hnd].
        intros Hin. apply Hnotin.
        apply list_elem_of_fmap in Hin as (e' & Heq & Hin).
        apply list_elem_of_filter in Hin as [_ Hin].
        apply list_elem_of_fmap. eauto.
      * apply IH, Hnd.
Qed.

Lemma handleClockIn_success_ledger_witness :
  let entry :=
    openedEntry "Bri" Demo.tapped (Api.clockIn "Bri" Demo.tapped Demo.acceptedReply) in
  let ledger :=
    timeEntries (handleClockIn Demo.tapped Demo.tapped Demo.acceptedReply Demo.idle) in
  ledger !! 0%nat = Some entry
  ∧ filter (λ e, TimeEntry.shiftId e = TimeEntry.shiftId entry) ledger = [entry]
  ∧ (∀ id, id ≠ TimeEntry.shiftId entry →
           filter (λ e, TimeEntry.shiftId e = id) ledger
           = filter (λ e, TimeEntry.shiftId e = id) (timeEntries Demo.idle))
  ∧ NoDup (TimeEntry.shiftId <$> ledger).
Proof.
  destruct (handleClockIn_success_ledger Demo.tapped Demo.tapped Demo.acceptedReply
              Demo.idle "Bri") as (H1 & H2 & H3 & H4).
  - reflexivity.
  - discriminate.
  - reflexivity.
  - reflexivity.
  - refine (conj H1 (conj H2 (conj H3 (H4 _)))).
    apply (bool_decide_unpack _). vm_compute. exact I.
Defined.

(** ** Closing the open entry *)

Lemma closeEntry_not_open now t h e : ¬ openToday now (closeEntry t h e).
Proof. unfold openToday, closeEntry. simpl. intros [_ H]. discriminate. Qed.

Lemma filter_nil_Forall {A} (P : A → Prop) `{!∀ x, Decision (P x)} (l : list A) :
  Forall (λ x, ¬ P x) l → filter P l = [].
Proof.
  induction 1 as [| x l Hx _ IH]; [reflexivity |].
  rewrite filter_cons_False by exact Hx. exact IH.
Qed.

(** X9. The ledger update of a clock-out changes at most one entry: the
    length is kept, every entry that is not open today stays where it is,
    and the number of entries open today goes down by one (from none, it
    stays none). *)
Theorem closeOpenEntry_closes_one (now : Z) (clockOutTime : string) (hours : number)
    (prev : list TimeEntry.t) :
  let ledger := closeOpenEntry now clockOutTime hours prev in
  length ledger = length prev
  ∧ length (filter (openToday now) ledger)
    = Nat.pred (length (filter (openToday now) prev))
  ∧ (∀ j e, prev !! j = Some e → ¬ openToday now e → ledger !! j = Some e).
Proof.
  cbv zeta. unfold closeOpenEntry.
  destruct (list_find (openToday now) prev) as [[i e] |] eqn:E.
  - apply list_find_Some in E as (Hi & Hopen & Hfirst).
    refine (conj _ (conj _ _)).
    + apply length_insert.
    + assert (filter (openToday now) (take i prev) = []) as Hnone.
      { apply filter_nil_Forall. apply Forall_forall. intros x Hx.
        apply list_elem_of_lookup in Hx as (j & Hj).
        pose proof (lookup_lt_Some _ _ _ Hj) as Hlen. rewrite length_take in Hlen.
        rewrite lookup_take_lt in Hj by lia. apply (Hfirst j x Hj). lia. }
      rewrite insert_take_drop by (eapply lookup_lt_Some, Hi).
      replace (filter (openToday now) prev)
        with (filter (openToday now) (take i prev ++ e :: drop (S i) prev))
        by (f_equal; apply take_drop_middle, Hi).
      rewrite !filter_app, !filter_cons, Hnone.
      rewrite decide_False by apply closeEntry_not_open.
      rewrite decide_True by exact Hopen. reflexivity.
    + intros j x Hj Hx. rewrite list_lookup_insert_ne; [exact Hj |].
      intros <-. rewrite Hi in Hj. injection Hj as <-. contradiction.
  - refine (conj _ (conj _ _)); [reflexivity | | auto].
    apply list_find_None in E.
    rewrite (filter_nil_Forall _ _ E). reflexivity.
Qed.

Lemma closeOpenEntry_closes_one_witness :
  let ledger :=
    closeOpenEntry Demo.tapped (Iso.toISOString Demo.tapped) (Num 4.5)
      (timeEntries Demo.working) in
  length ledger = length (timeEntries Demo.working)
  ∧ length (filter (openToday Demo.tapped) ledger)
    = Nat.pred (length (filter (openToday Demo.tapped) (timeEntries Demo.working)))
  ∧ (∀ j e, timeEntries Demo.working !! j = Some e → ¬ openToday Demo.tapped e →
            ledger !! j = Some e).
Proof.
  exact (closeOpenEntry_closes_one Demo.tapped (Iso.toISOString Demo.tapped) (Num 4.5)
           (timeEntries Demo.working)).
Defined.

(* scratch copies of the local instances *)

(** ** Sorting *)

Section SortFacts.
Context {A : Type} (compareFn : A → A → number).

Lemma insertSorted_Permutation x l : insertSorted compareFn x l ≡ₚ x :: l.
Proof.
  induction l as [| y l IH]; [reflexivity |].
  cbn [insertSorted]. destruct (goesAfter compareFn x y); [| reflexivity].
  rewrite IH. apply Permutation_swap.
Qed.

Lemma Array_sort_Permutation l : Array_sort compareFn l ≡ₚ l.
Proof.
  induction l as [| x l IH]; [reflexivity |].
  unfold Array_sort in *. cbn [foldr]. rewrite insertSorted_Permutation, IH. reflexivity.
Qed.

(** The comparator orders by a key: [a] goes after [b] exactly when both
    keys exist and [a]'s is beyond [b]'s in the order [lt]. *)
Context (key : A → option Z) (lt : Z → Z → Prop).
Context (lt_total : ∀ x y, lt x y ∨ x = y ∨ lt y x).
Context (lt_trans : ∀ x y z, lt x y → lt y z → lt x z).
Context (lt_irrefl : ∀ x, ¬ lt x x).
Context (goesAfter_key : ∀ a b,
  goesAfter compareFn a b = true ↔ ∃ x y, key a = Some x ∧ key b = Some y ∧ lt y x).

Lemma insertSorted_sorted x l :
  is_Some (key x) → Forall (λ a, is_Some (key a)) l →
  StronglySorted (inOrder key lt) l → StronglySorted (inOrder key lt) (insertSorted compareFn x l).
Proof.
  intros [kx Hx] Hvalid Hsorted.
  induction Hsorted as [| y l Hs IH Hy]; cbn [insertSorted].
  - repeat constructor.
  - apply Forall_cons in Hvalid as [[ky Hky] Hvalid].
    destruct (goesAfter compareFn x y) eqn:E.
    + apply goesAfter_key in E as (x' & y' & Hx' & Hy' & Hlt).
      rewrite Hx in Hx'. rewrite Hky in Hy'. injection Hx' as <-. injection Hy' as <-.
      constructor; [apply IH, Hvalid |].
      rewrite insertSorted_Permutation. constructor; [| exact Hy].
      intros a b Ha Hb. rewrite Hky in Ha. rewrite Hx in Hb.
      injection Ha as <-. injection Hb as <-.
      intros Hlt'. apply (lt_irrefl ky). eapply lt_trans; eassumption.
    + assert (inOrder key lt x y) as Hxy.
      { intros a b Ha Hb Hlt. rewrite Hx in Ha. rewrite Hky in Hb.
        injection Ha as <-. injection Hb as <-.
        assert (goesAfter compareFn x y = true) as E'; [| congruence].
        apply goesAfter_key. eauto. }
      constructor; [constructor; assumption |].
      constructor; [exact Hxy |].
      apply Forall_forall. intros z Hz.
      rewrite Forall_forall in Hy, Hvalid.
      destruct (Hvalid z Hz) as [kz Hkz].
      intros a b Ha Hb Hlt. rewrite Hx in Ha. rewrite Hkz in Hb.
      injection Ha as <-. injection Hb as <-.
      (* kx <= ky <= kz *)
      destruct (lt_total kx ky) as [H1 | [H1 | H1]].
      * apply (Hy z Hz ky kz Hky Hkz). eapply lt_trans; eassumption.
      * subst ky. apply (Hy z Hz kx kz Hky Hkz). exact Hlt.
      * apply (Hxy kx ky Hx Hky H1).
Qed.

Lemma Array_sort_sorted l :
  Forall (λ a, is_Some (key a)) l → StronglySorted (inOrder key lt) (Array_sort compareFn l).
Proof.
  induction 1 as [| x l Hx Hl IH]; [constructor |].
  unfold Array_sort in *. cbn [foldr].
  apply insertSorted_sorted; [exact Hx | | exact IH].
  change (foldr (insertSorted compareFn) [] l) with (Array_sort compareFn l).
  rewrite Array_sort_Permutation. exact Hl.
Qed.

(** Stability: the elements that share a key keep their order. *)
Lemma insertSorted_stable v x l :
  filter (λ a, key a = Some v) (insertSorted compareFn x l)
  = filter (λ a, key a = Some v) (x :: l).
Proof.
  induction l as [| y l IH]; [reflexivity |].
  cbn [insertSorted]. destruct (goesAfter compareFn x y) eqn:E; [| reflexivity].
  apply goesAfter_key in E as (kx & ky & Hx & Hy & Hlt).
  rewrite filter_cons, IH, !filter_cons.
  destruct (decide (key y = Some v)) as [Hyv | Hyv];
    destruct (decide (key x = Some v)) as [Hxv | Hxv]; try reflexivity.
  exfalso. rewrite Hx in Hxv. rewrite Hy in Hyv.
  injection Hxv as ->. injection Hyv as ->. exact (lt_irrefl _ Hlt).
Qed.

Lemma Array_sort_stable v l :
  filter (λ a, key a = Some v) (Array_sort compareFn l)
  = filter (λ a, key a = Some v) l.
Proof.
  induction l as [| x l IH]; [reflexivity |].
  unfold Array_sort in *. cbn [foldr]. rewrite insertSorted_stable.
  rewrite !filter_cons, IH. reflexivity.
Qed.

End SortFacts.

(* END SCRATCH INSTANCES *)

(** ** The week total under rearrangement *)






(** ** The two sorted views *)

Lemma goesAfter_difference (p q : option Z) :
  JS.gtb (JS.sub (getTime p) (getTime q)) (Num 0) = true
  ↔ ∃ x y, p = Some x ∧ q = Some y ∧ (y < x)%Z.
Proof.
  destruct p as [x |], q as [y |]; simpl;
    try (split; [discriminate | intros (? & ? & ? & ? & ?); discriminate]).
  split.
  - intros H. exists x, y. split; [reflexivity |]. split; [reflexivity |].
    apply negb_true_iff in H.
    destruct (Z_lt_le_dec y x) as [Hlt | Hle]; [exact Hlt |].
    assert (Qle_bool (inject_Z x - inject_Z y) 0 = true) as E; [| congruence].
    apply Qle_bool_iff. rewrite Zle_Qle in Hle. lra.
  - intros (x' & y' & [= <-] & [= <-] & Hlt).
    apply negb_true_iff. destruct (Qle_bool _ _) eqn:E; [| reflexivity].
    apply Qle_bool_iff in E. rewrite Zlt_Qlt in Hlt. lra.
Qed.

Lemma StronglySorted_weaken {A} (R R' : A → A → Prop) l :
  (∀ a b, R a b → R' a b) → StronglySorted R l → StronglySorted R' l.
Proof.
  intros H. induction 1 as [| x l _ IH Hx]; constructor; [exact IH |].
  eapply Forall_impl; [exact Hx |]. intros b. apply H.
Qed.

Section Views.
Context {A : Type} (date : A → string) (tz : Z).

Lemma sort_descending l :
  Forall (λ a, is_Some (new_Date tz (date a))) l →
  StronglySorted (λ a b, notOlder tz (date a) (date b)) 
    (Array_sort (λ a b, JS.sub (dateValue tz (date b)) (dateValue tz (date a))) l).
Proof.
  intros Hvalid.
  eapply StronglySorted_weaken;
    [| apply (Array_sort_sorted _ (λ a, new_Date tz (date a)) (λ x y, (y < x)%Z))].
  - intros a b H x y Hx Hy. specialize (H x y Hx Hy). simpl in H. lia.
  - intros x y. lia.
  - intros x y z. lia.
  - intros x. lia.
  - intros a b. unfold goesAfter, dateValue.
    rewrite goesAfter_difference. split.
    + intros (x & y & Hx & Hy & Hlt). exists y, x. auto.
    + intros (x & y & Hx & Hy & Hlt). exists y, x. auto.
  - exact Hvalid.
Qed.


Lemma sort_descending_stable v l :
  filter (λ a, new_Date tz (date a) = Some v) 
    (Array_sort (λ a b, JS.sub (dateValue tz (date b)) (dateValue tz (date a))) l)
  = filter (λ a, new_Date tz (date a) = Some v) l.
Proof.
  apply (Array_sort_stable _ (λ a, new_Date tz (date a)) (λ x y, (y < x)%Z)).
  - intros x. lia.
  - intros a b. unfold goesAfter, dateValue.
    rewrite goesAfter_difference. split.
    + intros (x & y & Hx & Hy & Hlt). exists y, x. auto.
    + intros (x & y & Hx & Hy & Hlt). exists y, x. auto.
Qed.

End Views.

(** X10. The history screen shows the same entries as the ledgers hold;
    when every date parses they are listed newest first, and entries of the
    same date keep the order they had. *)
Theorem history_newest_first (tz : Z) (st : AppState) :
  userTimeEntries tz st ≡ₚ timeEntries st
  ∧ userMileageEntries tz st ≡ₚ mileageEntries st
  ∧ (Forall (λ e, is_Some (new_Date tz (TimeEntry.date e))) (timeEntries st) →
     StronglySorted (λ a b, notOlder tz (TimeEntry.date a) (TimeEntry.date b))
       (userTimeEntries tz st)
     ∧ ∀ v, filter (λ e, new_Date tz (TimeEntry.date e) = Some v) (userTimeEntries tz st)
            = filter (λ e, new_Date tz (TimeEntry.date e) = Some v) (timeEntries st))
  ∧ (Forall (λ e, is_Some (new_Date tz (MileageEntry.date e))) (mileageEntries st) →
     StronglySorted (λ a b, notOlder tz (MileageEntry.date a) (MileageEntry.date b))
       (userMileageEntries tz st)
     ∧ ∀ v, filter (λ e, new_Date tz (MileageEntry.date e) = Some v)
              (userMileageEntries tz st)
            = filter (λ e, new_Date tz (MileageEntry.date e) = Some v)
                (mileageEntries st)).
Proof.
  refine (conj _ (conj _ (conj _ _))).
  - apply Array_sort_Permutation.
  - apply Array_sort_Permutation.
  - intros Hvalid. split.
    + apply (sort_descending TimeEntry.date tz), Hvalid.
    + intros v. apply (sort_descending_stable TimeEntry.date tz).
  - intros Hvalid. split.
    + apply (sort_descending MileageEntry.date tz), Hvalid.
    + intros v. apply (sort_descending_stable MileageEntry.date tz).
Qed.

Lemma Demo_working_dates :
  Forall (λ e, is_Some (new_Date Demo.tz (TimeEntry.date e))) (timeEntries Demo.working).
Proof. apply (bool_decide_unpack _). vm_compute. exact I. Defined.

Lemma Demo_working_mileage_dates :
  Forall (λ e, is_Some (new_Date Demo.tz (MileageEntry.date e)))
    (mileageEntries Demo.working).
Proof. apply (bool_decide_unpack _). vm_compute. exact I. Defined.

Lemma history_newest_first_witness :
  userTimeEntries Demo.tz Demo.working ≡ₚ timeEntries Demo.working
  ∧ userMileageEntries Demo.tz Demo.working ≡ₚ mileageEntries Demo.working
  ∧ StronglySorted (λ a b, notOlder Demo.tz (TimeEntry.date a) (TimeEntry.date b))
      (userTimeEntries Demo.tz Demo.working)
  ∧ StronglySorted (λ a b, notOlder Demo.tz (MileageEntry.date a) (MileageEntry.date b))
      (userMileageEntries Demo.tz Demo.working).
Proof.
  destruct (history_newest_first Demo.tz Demo.working) as (H1 & H2 & H3 & H4).
  refine (conj H1 (conj H2 (conj _ _))).
  - exact (proj1 (H3 Demo_working_dates)).
  - exact (proj1 (H4 Demo_working_mileage_dates)).
Defined.




(** ** The in-place sort of the history screen *)






(** ** Stored and recomputed totals *)






(** ** Reads that fail *)

Lemma checkStatus_failed user f :
  readFailed f →
  Api.checkStatus user f
  = {| Api.StatusResponse.clocked_in := false; Api.StatusResponse.clock_in_time := None;
       Api.StatusResponse.elapsed_minutes := None |}.
Proof.
  intros [-> | (r & -> & [Hok | Hjson])]; [reflexivity | |]; unfold Api.checkStatus, Api.ok.
  - rewrite bool_decide_eq_false_2 by exact Hok. reflexivity.
  - rewrite Hjson. destruct (negb _); reflexivity.
Qed.

Lemma fetchHistory_failed user f :
  readFailed f →
  Api.fetchHistory user f
  = {| Api.HistoryResponse.time_entries := []; Api.HistoryResponse.mileage_entries := [];
       Api.HistoryResponse.week_total_hours := Num 0 |}.
Proof.
  intros [-> | (r & -> & [Hok | Hjson])]; [reflexivity | |]; unfold Api.fetchHistory, Api.ok.
  - rewrite bool_decide_eq_false_2 by exact Hok. reflexivity.
  - rewrite Hjson. destruct (negb _); reflexivity.
Qed.

(** X14. A status read that fails (network, status outside 2xx, or a body
    that is not JSON) is taken as a clocked-out answer: the session is shown
    clocked out with no clock-in time, and no error is raised. *)
Theorem failed_status_clocks_out (user : string)
    (f : Api.FetchResult Api.StatusResponse.t) (st : AppState) :
  readFailed f →
  let st' := loadUserData_status (Api.checkStatus user f) st in
  clockState st' = clockedOut
  ∧ timeEntries st' = timeEntries st
  ∧ weekTotalHours st' = weekTotalHours st
  ∧ showError st' = showError st.
Proof.
  intros Hf. cbv zeta. rewrite (checkStatus_failed user f Hf). auto.
Qed.

Lemma failed_status_clocks_out_witness :
  let st' := loadUserData_status (Api.checkStatus "Bri" Api.NetworkError) Demo.working in
  clockState st' = clockedOut
  ∧ timeEntries st' = timeEntries Demo.working
  ∧ weekTotalHours st' = weekTotalHours Demo.working
  ∧ showError st' = showError Demo.working.
Proof.
  apply (failed_status_clocks_out "Bri" Api.NetworkError Demo.working).
  left. reflexivity.
Defined.

(** X15. A history read that fails leaves the page with empty ledgers and
    a week total of zero, stored and displayed, and no error is raised; the
    clock session is not touched. *)
Theorem failed_history_empties_ledger (tz now : Z) (user : string)
    (f : Api.FetchResult Api.HistoryResponse.t) (st : AppState) :
  readFailed f →
  let st' := applyHistory (Api.fetchHistory user f) st in
  timeEntries st' = [] ∧ mileageEntries st' = []
  ∧ weekTotalHours st' = Num 0
  ∧ weekTotal tz now st' = Num 0
  ∧ showError st' = showError st
  ∧ clockState st' = clockState st.
Proof.
  intros Hf. cbv zeta. rewrite (fetchHistory_failed user f Hf).
  refine (conj _ (conj _ (conj _ (conj _ (conj _ _))))); reflexivity.
Qed.

Lemma failed_history_empties_ledger_witness :
  let st' := applyHistory (Api.fetchHistory "Bri" Api.NetworkError) Demo.working in
  timeEntries st' = [] ∧ mileageEntries st' = []
  ∧ weekTotalHours st' = Num 0
  ∧ weekTotal Demo.tz Demo.tapped st' = Num 0
  ∧ showError st' = showError Demo.working
  ∧ clockState st' = clockState Demo.working.
Proof.
  apply (failed_history_empties_ledger Demo.tz Demo.tapped "Bri" Api.NetworkError
           Demo.working).
  left. reflexivity.
Defined.

(** ** Answers with status 200 *)

Lemma clockOut_200 user r :
  Api.status r = 200%Z →
  Api.clockOut user (Api.Responded r)
  = {| Api.ClockResponse.success := true; Api.ClockResponse.shift_id := None;
       Api.ClockResponse.hours_worked := None; Api.ClockResponse.error := None |}.
Proof.
  intros H. unfold Api.clockOut, Api.ok, Api.accepted. rewrite H.
  rewrite bool_decide_eq_true_2 by lia. simpl.
  rewrite bool_decide_eq_true_2 by auto. reflexivity.
Qed.

Lemma clockIn_200 user today r :
  Api.status r = 200%Z →
  Api.clockIn user today (Api.Responded r)
  = {| Api.ClockResponse.success := true;
       Api.ClockResponse.shift_id := Some (formatDate today +:+ "_" +:+ user);
       Api.ClockResponse.hours_worked := None; Api.ClockResponse.error := None |}.
Proof.
  intros H. unfold Api.clockIn, Api.ok, Api.accepted. rewrite H.
  rewrite bool_decide_eq_true_2 by lia. simpl.
  rewrite bool_decide_eq_true_2 by auto. reflexivity.
Qed.

(** X16. A clock-out answered with status 200 is a success whatever the
    body says, and the hours recorded are the client's own computation from
    the session's clock-in time: any hours in the body are not read. *)
Theorem handleClockOut_200_records_client_hours (tz now : Z)
    (r : Api.HttpResponse Api.ClockResponse.t) (st : AppState) (user t : string) :
  currentUser st = Some user → user ≠ "" → isButtonDisabled st = false →
  ClockState.clockInTime (clockState st) = Some t → t ≠ "" →
  Api.status r = 200%Z →
  let st' := handleClockOut tz now (Api.Responded r) st in
  let hours := calculateHoursWorked tz t (Iso.toISOString now) in
  clockState st' = clockedOut
  ∧ timeEntries st' = closeOpenEntry now (Iso.toISOString now) hours (timeEntries st)
  ∧ weekTotalHours st' = JS.add (weekTotalHours st) hours
  ∧ showError st' = showError st.
Proof.
  intros Hu Hne Hb Ht Hnonempty H200. cbv zeta.
  unfold handleClockOut.
  destruct (handleClockOut_begin_runs tz now st user Hu Hne Hb) as (h & -> & Hh).
  rewrite (Hh t Ht Hnonempty), (clockOut_200 user r H200).
  unfold handleClockOut_resume. simpl. auto.
Qed.

Lemma handleClockOut_200_records_client_hours_witness :
  let st' := handleClockOut Demo.tz Demo.tapped (Api.Responded More.overruled)
               Demo.working in
  let hours :=
    calculateHoursWorked Demo.tz "2024-01-10T13:00:00.000Z"
      (Iso.toISOString Demo.tapped) in
  clockState st' = clockedOut
  ∧ timeEntries st'
    = closeOpenEntry Demo.tapped (Iso.toISOString Demo.tapped) hours
        (timeEntries Demo.working)
  ∧ weekTotalHours st' = JS.add (weekTotalHours Demo.working) hours
  ∧ showError st' = showError Demo.working.
Proof.
  apply (handleClockOut_200_records_client_hours Demo.tz Demo.tapped More.overruled
           Demo.working "Bri" "2024-01-10T13:00:00.000Z").
  - reflexivity.
  - discriminate.
  - reflexivity.
  - reflexivity.
  - discriminate.
  - reflexivity.
Defined.

(** X17. A clock-in answered with status 200 files the new entry under
    the client's id for the day, [<date>_<user>], and drops every entry the
    ledger held under that id: a shift already finished that day leaves the
    ledger when the next one opens. *)
Theorem handleClockIn_200_replaces_the_day (now today : Z)
    (r : Api.HttpResponse Api.ClockResponse.t) (st : AppState) (user : string) :
  currentUser st = Some user → user ≠ "" → isButtonDisabled st = false →
  Api.status r = 200%Z →
  let id := formatDate today +:+ "_" +:+ user in
  let ledger := timeEntries (handleClockIn now today (Api.Responded r) st) in
  ledger
  = {| TimeEntry.shiftId := id; TimeEntry.date := formatDate now;
       TimeEntry.clockIn := Iso.toISOString now;
       TimeEntry.clockOut := None; TimeEntry.hoursWorked := None |}
    :: filter (λ e, TimeEntry.shiftId e ≠ id) (timeEntries st)
  ∧ (∀ e, e ∈ timeEntries st → TimeEntry.shiftId e = id →
          TimeEntry.clockOut e ≠ None → e ∉ ledger).
Proof.
  intros Hu Hne Hb H200. cbv zeta.
  assert (Api.ClockResponse.success (Api.clockIn user today (Api.Responded r)) = true)
    as Hs by (rewrite (clockIn_200 user today r H200); reflexivity).
  destruct (handleClockIn_success_state now today _ st user Hu Hne Hb Hs) as (-> & _).
  unfold openedEntry. rewrite (clockIn_200 user today r H200). cbn [Api.ClockResponse.shift_id].
  assert (JS.or_str (Some (formatDate today +:+ "_" +:+ user))
            (formatDate now +:+ "_" +:+ user) = formatDate today +:+ "_" +:+ user) as ->.
  { unfold JS.or_str. case_decide as E; [| reflexivity].
    exfalso. destruct (formatDate today); discriminate E. }
  cbn [TimeEntry.shiftId]. split; [reflexivity |].
  intros e He Hid Hclosed Hin.
  apply elem_of_cons in Hin as [-> | Hin].
  - apply Hclosed. reflexivity.
  - apply list_elem_of_filter in Hin as [Hne' _]. contradiction.
Qed.

Lemma handleClockIn_200_replaces_the_day_witness :
  let id := formatDate More.lunchIn +:+ "_" +:+ "Bri" in
  let ledger :=
    timeEntries (handleClockIn More.lunchIn More.lunchIn
                   (Api.Responded More.acceptedResponse) More.afterShift) in
  ledger
  = {| TimeEntry.shiftId := id; TimeEntry.date := formatDate More.lunchIn;
       TimeEntry.clockIn := Iso.toISOString More.lunchIn;
       TimeEntry.clockOut := None; TimeEntry.hoursWorked := None |}
    :: filter (λ e, TimeEntry.shiftId e ≠ id) (timeEntries More.afterShift)
  ∧ (∀ e, e ∈ timeEntries More.afterShift → TimeEntry.shiftId e = id →
          TimeEntry.clockOut e ≠ None → e ∉ ledger).
Proof.
  apply (handleClockIn_200_replaces_the_day More.lunchIn More.lunchIn
           More.acceptedResponse More.afterShift "Bri").
  - reflexivity.
  - discriminate.
  - reflexivity.
  - reflexivity.
Defined.

(** ** The elapsed-time label *)





(** ** The local-storage revision *)

Lemma legacy_clockOut_first_match tz now st l1 e l2 :
  Legacy.isButtonDisabled st = false →
  Legacy.timeEntries st = l1 ++ e :: l2 →
  TimeEntry.shiftId e = Legacy.shiftIdFor now (Legacy.currentUser st) →
  Forall (λ x, TimeEntry.shiftId x ≠ Legacy.shiftIdFor now (Legacy.currentUser st)) l1 →
  Legacy.timeEntries (Legacy.handleClockOut tz now st)
  = l1 ++ closeEntry (Iso.toISOString now)
            (calculateHoursWorked tz (TimeEntry.clockIn e) (Iso.toISOString now)) e
       :: l2.
Proof.
  intros Hb Hl He Hl1. unfold Legacy.handleClockOut. rewrite Hb. cbn [Legacy.timeEntries].
  assert (list_find (λ entry, TimeEntry.shiftId entry
                              = Legacy.shiftIdFor now (Legacy.currentUser st))
            (Legacy.timeEntries st) = Some (length l1, e)) as ->.
  { apply list_find_Some. rewrite Hl. split; [| split].
    - rewrite lookup_app_r by lia. rewrite Nat.sub_diag. reflexivity.
    - exact He.
    - intros j y Hj Hlt. rewrite lookup_app_l in Hj by exact Hlt.
      rewrite Forall_forall in Hl1. apply Hl1. eapply list_elem_of_lookup_2, Hj. }
  rewrite Hl. rewrite insert_app_r_alt by lia. rewrite Nat.sub_diag. reflexivity.
Qed.

(** X19. The local-storage revision files every shift of a day under the
    same id and closes the first entry under that id.  Two shifts on one
    day therefore leave the first entry running from the first clock-in to
    the last clock-out, and the second entry open for good. *)
Theorem legacy_second_shift_same_day (tz now1 now2 now3 now4 : Z) (st : Legacy.State) :
  Legacy.isButtonDisabled st = false →
  formatDate now2 = formatDate now1 → formatDate now3 = formatDate now1 →
  formatDate now4 = formatDate now1 →
  Forall (λ x, TimeEntry.shiftId x ≠ Legacy.shiftIdFor now1 (Legacy.currentUser st))
         (Legacy.timeEntries st) →
  let id := Legacy.shiftIdFor now1 (Legacy.currentUser st) in
  let first :=
    {| TimeEntry.shiftId := id; TimeEntry.date := formatDate now1;
       TimeEntry.clockIn := Iso.toISOString now1;
       TimeEntry.clockOut := Some (Iso.toISOString now4);
       TimeEntry.hoursWorked :=
         Some (calculateHoursWorked tz (Iso.toISOString now1) (Iso.toISOString now4)) |} in
  let second :=
    {| TimeEntry.shiftId := id; TimeEntry.date := formatDate now1;
       TimeEntry.clockIn := Iso.toISOString now3;
       TimeEntry.clockOut := None; TimeEntry.hoursWorked := None |} in
  let shift1 :=
    Legacy.enableButton
      (Legacy.handleClockOut tz now2 (Legacy.enableButton (Legacy.handleClockIn now1 st))) in
  let shift2 :=
    Legacy.handleClockOut tz now4 (Legacy.enableButton (Legacy.handleClockIn now3 shift1)) in
  Legacy.timeEntries shift2 = Legacy.timeEntries st ++ [first; second]
  ∧ Legacy.clockState shift2 = clockedOut.
Proof.
  intros Hb H2 H3 H4 Hfresh. cbv zeta.
  set (id := Legacy.shiftIdFor now1 (Legacy.currentUser st)).
  assert (∀ now u, formatDate now = formatDate now1 →
            Legacy.shiftIdFor now u = Legacy.shiftIdFor now1 u) as Hid.
  { intros now u H. unfold Legacy.shiftIdFor. rewrite H. reflexivity. }
  set (a := Legacy.enableButton (Legacy.handleClockIn now1 st)).
  assert (Legacy.timeEntries a
          = Legacy.timeEntries st
            ++ {| TimeEntry.shiftId := id; TimeEntry.date := formatDate now1;
                  TimeEntry.clockIn := Iso.toISOString now1;
                  TimeEntry.clockOut := None; TimeEntry.hoursWorked := None |} :: []) as Ha.
  { unfold a, Legacy.handleClockIn. rewrite Hb. reflexivity. }
  assert (Legacy.currentUser a = Legacy.currentUser st) as Hua.
  { unfold a, Legacy.handleClockIn. rewrite Hb. reflexivity. }
  set (b := Legacy.enableButton (Legacy.handleClockOut tz now2 a)).
  assert (Legacy.timeEntries b
          = Legacy.timeEntries st
            ++ {| TimeEntry.shiftId := id; TimeEntry.date := formatDate now1;
                  TimeEntry.clockIn := Iso.toISOString now1;
                  TimeEntry.clockOut := Some (Iso.toISOString now2);
                  TimeEntry.hoursWorked :=
                    Some (calculateHoursWorked tz (Iso.toISOString now1)
                            (Iso.toISOString now2)) |} :: []) as Hbl.
  { unfold b. cbn [Legacy.enableButton Legacy.timeEntries].
    rewrite (legacy_clockOut_first_match tz now2 a _ _ [] eq_refl Ha).
    - reflexivity.
    - rewrite Hua, (Hid now2 _ H2). reflexivity.
    - rewrite Hua, (Hid now2 _ H2). exact Hfresh. }
  assert (Legacy.currentUser b = Legacy.currentUser st) as Hub.
  { unfold b. cbn. exact Hua. }
  set (c := Legacy.enableButton (Legacy.handleClockIn now3 b)).
  assert (Legacy.timeEntries c
          = Legacy.timeEntries st
            ++ {| TimeEntry.shiftId := id; TimeEntry.date := formatDate now1;
                  TimeEntry.clockIn := Iso.toISOString now1;
                  TimeEntry.clockOut := Some (Iso.toISOString now2);
                  TimeEntry.hoursWorked :=
                    Some (calculateHoursWorked tz (Iso.toISOString now1)
                            (Iso.toISOString now2)) |}
               :: [ {| TimeEntry.shiftId := id; TimeEntry.date := formatDate now1;
                       TimeEntry.clockIn := Iso.toISOString now3;
                       TimeEntry.clockOut := None; TimeEntry.hoursWorked := None |} ]) as Hc.
  { unfold c, Legacy.handleClockIn.
    assert (Legacy.isButtonDisabled b = false) as -> by reflexivity.
    cbn [Legacy.enableButton Legacy.timeEntries]. rewrite Hbl, Hub, (Hid now3 _ H3), H3.
    rewrite <- app_assoc. reflexivity. }
  assert (Legacy.currentUser c = Legacy.currentUser st) as Huc.
  { unfold c, Legacy.handleClockIn.
    assert (Legacy.isButtonDisabled b = false) as -> by reflexivity. exact Hub. }
  split.
  - rewrite (legacy_clockOut_first_match tz now4 c _ _ _ eq_refl Hc).
    + reflexivity.
    + rewrite Huc, (Hid now4 _ H4). reflexivity.
    + rewrite Huc, (Hid now4 _ H4). exact Hfresh.
  - unfold Legacy.handleClockOut.
    assert (Legacy.isButtonDisabled c = false) as -> by reflexivity. reflexivity.
Qed.

Lemma legacy_second_shift_same_day_witness :
  let id := Legacy.shiftIdFor Demo.opened (Legacy.currentUser Demo.l2) in
  let first :=
    {| TimeEntry.shiftId := id; TimeEntry.date := formatDate Demo.opened;
       TimeEntry.clockIn := Iso.toISOString Demo.opened;
       TimeEntry.clockOut := Some (Iso.toISOString Demo.tapped);
       TimeEntry.hoursWorked :=
         Some (calculateHoursWorked Demo.tz (Iso.toISOString Demo.opened)
                 (Iso.toISOString Demo.tapped)) |} in
  let second :=
    {| TimeEntry.shiftId := id; TimeEntry.date := formatDate Demo.opened;
       TimeEntry.clockIn := Iso.toISOString More.lunchIn;
       TimeEntry.clockOut := None; TimeEntry.hoursWorked := None |} in
  let shift1 :=
    Legacy.enableButton
      (Legacy.handleClockOut Demo.tz More.lunchOut
         (Legacy.enableButton (Legacy.handleClockIn Demo.opened Demo.l2))) in
  let shift2 :=
    Legacy.handleClockOut Demo.tz Demo.tapped
      (Legacy.enableButton (Legacy.handleClockIn More.lunchIn shift1)) in
  Legacy.timeEntries shift2 = Legacy.timeEntries Demo.l2 ++ [first; second]
  ∧ Legacy.clockState shift2 = clockedOut.
Proof.
  apply (legacy_second_shift_same_day Demo.tz Demo.opened More.lunchOut More.lunchIn
           Demo.tapped Demo.l2).
  - reflexivity.
  - vm_compute. reflexivity.
  - vm_compute. reflexivity.
  - vm_compute. reflexivity.
  - constructor.
Defined.

(** ** The ledger of the local-storage revision *)

Lemma legacyEntry_close tz now e :
  legacyEntry tz e →
  legacyEntry tz (closeEntry (Iso.toISOString now)
                    (calculateHoursWorked tz (TimeEntry.clockIn e) (Iso.toISOString now)) e).
Proof.
  intros [Hstamp _]. split; [exact Hstamp |]. simpl. split; [eauto | reflexivity].
Qed.

Lemma legacy_handleClockIn_ledger tz now st :
  Legacy.isButtonDisabled st = false →
  Forall (legacyEntry tz) (Legacy.timeEntries st) →
  Forall (legacyEntry tz) (Legacy.timeEntries (Legacy.handleClockIn now st))
  ∧ sessionOnLedger (Legacy.clockState (Legacy.handleClockIn now st))
      (Legacy.timeEntries (Legacy.handleClockIn now st)).
Proof.
  intros Hb Hl. unfold Legacy.handleClockIn. rewrite Hb. simpl. split.
  - apply Forall_app. split; [exact Hl |]. apply Forall_singleton.
    split; [exists now, (Legacy.currentUser st); auto | exact I].
  - intros _. eexists. split; [apply elem_of_app; right; apply list_elem_of_singleton;
                               reflexivity |].
    split; reflexivity.
Qed.

Lemma legacy_handleClockOut_ledger tz now st :
  Legacy.isButtonDisabled st = false →
  Forall (legacyEntry tz) (Legacy.timeEntries st) →
  Forall (legacyEntry tz) (Legacy.timeEntries (Legacy.handleClockOut tz now st))
  ∧ sessionOnLedger (Legacy.clockState (Legacy.handleClockOut tz now st))
      (Legacy.timeEntries (Legacy.handleClockOut tz now st)).
Proof.
  intros Hb Hl. unfold Legacy.handleClockOut. rewrite Hb. simpl. split.
  - destruct (list_find _ (Legacy.timeEntries st)) as [[i e] |] eqn:E; [| exact Hl].
    apply list_find_Some in E as (Hi & _ & _).
    apply Forall_insert; [exact Hl |]. apply legacyEntry_close.
    rewrite Forall_forall in Hl. apply Hl. eapply list_elem_of_lookup_2, Hi.
  - intros H. discriminate H.
Qed.

Lemma legacy_step_ledger tz st st' :
  Legacy.step tz st st' → legacyLedgerInvariant tz st → legacyLedgerInvariant tz st'.
Proof.
  intros Hstep [[Hl Hs] Hstore]. unfold legacyLedgerInvariant.
  destruct Hstep.
  - unfold Legacy.load. cbn [Legacy.timeEntries Legacy.clockState Legacy.localStorage].
    split; [| exact Hstore].
    destruct (Legacy.ahp_clock_state (Legacy.localStorage st)) as [c |],
             (Legacy.ahp_time_entries (Legacy.localStorage st)) as [l |];
      simpl; try contradiction; auto.
  - unfold Legacy.save. destruct (Legacy.isLoading st); simpl; auto.
  - simpl. auto.
  - simpl. auto.
  - assert (Legacy.localStorage
              (if ClockState.isClockedIn (Legacy.clockState st)
               then Legacy.handleClockOut tz now st else Legacy.handleClockIn now st)
            = Legacy.localStorage st) as ->.
    { unfold Legacy.handleClockOut, Legacy.handleClockIn.
      destruct (ClockState.isClockedIn _), (Legacy.isButtonDisabled st); reflexivity. }
    split; [| exact Hstore].
    destruct (ClockState.isClockedIn (Legacy.clockState st)).
    + apply legacy_handleClockOut_ledger; assumption.
    + apply legacy_handleClockIn_ledger; assumption.
  - simpl. auto.
  - simpl. split; [| exact Hstore]. split; [constructor | intros H; discriminate H].
Qed.

(** X20. In the local-storage revision every ledger the page can reach,
    through clock-ins, clock-outs, saves and reloads, is consistent: each
    entry is stamped, dated and filed by one clock reading, a closed entry
    carries the hours between its own two stamps, an open one carries none,
    and while the session is clocked in an open entry stamped with the
    session's clock-in time is on the ledger. *)
Theorem legacy_ledger_consistent (tz : Z) (st : Legacy.State) :
  Legacy.reachable tz st →
  Forall (legacyEntry tz) (Legacy.timeEntries st)
  ∧ sessionOnLedger (Legacy.clockState st) (Legacy.timeEntries st).
Proof.
  intros Hrtc.
  assert (legacyLedgerInvariant tz st) as [Hledger _]; [| exact Hledger].
  apply (rtc_ind_r (R := Legacy.step tz) (λ st, legacyLedgerInvariant tz st)
           (Legacy.mounted Legacy.emptyStorage)).
  - split; [split; [constructor | intros H; discriminate H] | exact I].
  - intros s1 s2 _ Hstep IH. eapply legacy_step_ledger; eassumption.
  - exact Hrtc.
Qed.

Lemma legacy_ledger_consistent_witness :
  Forall (legacyEntry Demo.tz) (Legacy.timeEntries Demo.l6)
  ∧ sessionOnLedger (Legacy.clockState Demo.l6) (Legacy.timeEntries Demo.l6).
Proof. apply (legacy_ledger_consistent Demo.tz Demo.l6). exact Demo_legacy_reachable. Defined.

(** ** Confirmation and error banners *)










(** ** The week filter by calendar day *)

(** X22. Which entries the week filter of [getWeekTotal] and of the chips
    keeps, by calendar day: an entry with a date-only date is kept when its
    day is on or after the Sunday that starts the local week, in a zone at
    or east of UTC, but only when it is strictly after that Sunday in a zone
    west of UTC. *)
Theorem week_filter_by_calendar_day (tz now : Z) (entry : TimeEntry.t) (y m d : Z) :
  dateOnly (TimeEntry.date entry) y m d → (-1440 < tz < 1440)%Z →
  let sunday :=
    (DateJS.Day (DateJS.LocalTime tz now) - DateJS.WeekDay (DateJS.LocalTime tz now))%Z in
  onOrAfterWeekStart tz now entry
  = if decide (0 < tz)%Z then bool_decide (sunday < DateJS.days_from_civil y m d)%Z
    else bool_decide (sunday ≤ DateJS.days_from_civil y m d)%Z.
Proof.
  intros Hdate Htz. cbv zeta.
  rewrite (onOrAfterWeekStart_date_only tz now (DateJS.days_from_civil y m d) entry
             (new_Date_dateOnly tz _ y m d Hdate) Htz).
  rewrite weekStartDay_eq. reflexivity.
Qed.

Lemma week_filter_by_calendar_day_witness :
  let sunday :=
    (DateJS.Day (DateJS.LocalTime Demo.tz Demo.tapped)
     - DateJS.WeekDay (DateJS.LocalTime Demo.tz Demo.tapped))%Z in
  onOrAfterWeekStart Demo.tz Demo.tapped Demo.sundayShift
  = if decide (0 < Demo.tz)%Z
    then bool_decide (sunday < DateJS.days_from_civil 2024 1 7)%Z
    else bool_decide (sunday ≤ DateJS.days_from_civil 2024 1 7)%Z.
Proof.
  apply (week_filter_by_calendar_day Demo.tz Demo.tapped Demo.sundayShift 2024 1 7).
  - unfold dateOnly. refine (conj _ (conj _ _)).
    + vm_compute. reflexivity.
    + lia.
    + vm_compute. split; discriminate.
  - unfold Demo.tz. lia.
Defined.

(** ** Clock calls that do not get through *)

Lemma clockIn_connectFailed user today f :
  connectFailed f →
  Api.clockIn user today f
  = {| Api.ClockResponse.success := false; Api.ClockResponse.shift_id := None;
       Api.ClockResponse.hours_worked := None;
       Api.ClockResponse.error := Some Api.connect_error |}.
Proof.
  intros [-> | (r & -> & Hok)]; [reflexivity |]. unfold Api.clockIn, Api.ok.
  rewrite bool_decide_eq_false_2 by exact Hok. reflexivity.
Qed.

Lemma clockOut_connectFailed user f :
  connectFailed f →
  Api.clockOut user f
  = {| Api.ClockResponse.success := false; Api.ClockResponse.shift_id := None;
       Api.ClockResponse.hours_worked := None;
       Api.ClockResponse.error := Some Api.connect_error |}.
Proof.
  intros [-> | (r & -> & Hok)]; [reflexivity |]. unfold Api.clockOut, Api.ok.
  rewrite bool_decide_eq_false_2 by exact Hok. reflexivity.
Qed.

(** X23. A clock-in or clock-out that does not get through (no answer, or
    a status outside 2xx) changes no data: ledgers, stored week total, user
    and screen are as before, the confirmation is withdrawn and the error
    shown is the fixed connection message; the session is rolled back. *)
Theorem connection_failure_keeps_data (tz now today : Z)
    (f : Api.FetchResult Api.ClockResponse.t) (st : AppState) (user : string) :
  currentUser st = Some user → user ≠ "" → isButtonDisabled st = false →
  connectFailed f →
  onlyReportsFailure st (handleClockIn now today f st)
  ∧ clockState (handleClockIn now today f st) = clockedOut
  ∧ onlyReportsFailure st (handleClockOut tz now f st)
  ∧ clockState (handleClockOut tz now f st)
    = {| ClockState.isClockedIn := true;
         ClockState.clockInTime := ClockState.clockInTime (clockState st) |}.
Proof.
  intros Hu Hne Hb Hf. unfold handleClockIn, handleClockOut.
  rewrite (handleClockIn_begin_runs now st user Hu Hne Hb).
  destruct (handleClockOut_begin_runs tz now st user Hu Hne Hb) as (hours & -> & _).
  rewrite (clockIn_connectFailed user today f Hf), (clockOut_connectFailed user f Hf).
  unfold handleClockIn_resume, handleClockOut_resume, onlyReportsFailure. simpl.
  refine (conj _ (conj _ (conj _ _))); auto 10.
Qed.

Lemma connection_failure_keeps_data_witness :
  onlyReportsFailure Demo.working
    (handleClockIn Demo.tapped Demo.tapped Demo.serverError Demo.working)
  ∧ clockState (handleClockIn Demo.tapped Demo.tapped Demo.serverError Demo.working)
    = clockedOut
  ∧ onlyReportsFailure Demo.working
      (handleClockOut Demo.tz Demo.tapped Demo.serverError Demo.working)
  ∧ clockState (handleClockOut Demo.tz Demo.tapped Demo.serverError Demo.working)
    = {| ClockState.isClockedIn := true;
         ClockState.clockInTime := ClockState.clockInTime (clockState Demo.working) |}.
Proof.
  apply (connection_failure_keeps_data Demo.tz Demo.tapped Demo.tapped Demo.serverError
           Demo.working "Bri").
  - reflexivity.
  - discriminate.
  - reflexivity.
  - right. eexists. split; [reflexivity |]. simpl. lia.
Defined.
